(** * hnn-core: dipole post-processing and the checks of the spectral plots

    A shallow embedding of [hnn_core/dipole.py] and of the numeric part of
    [hnn_core/viz.py].

    - Python floats and NumPy [float64] values are Rocq's primitive binary64
      floats, so every arithmetic operation rounds as the program's does and
      comparisons treat NaN as the program's do.
    - One-dimensional NumPy arrays are lists of floats.
    - Python integers are [Z]; lengths are [nat].
    - A method of [Dipole] mutates [self]: it is a function from the object
      before the call to the object after it together with the outcome, a
      returned value or a raised exception.  What was mutated before an
      exception was raised stays mutated.
    - Routines of SciPy, NumPy and MNE whose code is not part of the
      repository (window design, convolution, Savitzky-Golay fitting,
      decimation, the Morlet transform, Welch's method) are variables of the
      section that uses them; what is proved holds for whatever they
      compute, under the hypotheses that are stated about them.
    - Drawing is left out: a plotting function returns the arrays that it
      would draw. *)

From Stdlib Require Import String ZArith List Bool Lia.
From Stdlib Require Import Floats Uint63.
From Stdlib Require OrderedTypeEx.
Import ListNotations.

Set Warnings "-inexact-float,-register-all".

Local Open Scope string_scope.
Local Open Scope Z_scope.

(** ** Floats *)

(** Python's [a > b] and [a >= b], with the operands in the order they are
    written in the source. *)
Definition gtb (a b : float) : bool := (b <? a)%float.
Definition geb (a b : float) : bool := (b <=? a)%float.

(** Conversion of a Python integer to a float: the nearest binary64 value,
    ties to even. *)
Definition float_of_Z (z : Z) : float :=
  SF2Prim (binary_normalize prec emax z 0 false).

(** Conversion of a length to a float.  A length is a [Py_ssize_t], below
    [2^63]; the conversion rounds to the nearest float, ties to even. *)
Definition float_of_len (n : nat) : float :=
  of_uint63 (Uint63.of_Z (Z.of_nat n)).

(** ** Exceptions and outcomes *)

(** The messages of the [ValueError]s that the two modules raise, with the
    values that are formatted into them, and of those that Python and NumPy
    raise under them. *)
Inductive message : Type :=
| need_two_dipoles
| already_average (dpl_idx : nat) (nave : Z)
| window_len_or_h_freq
| not_both
| window_too_long (winsz : float) (n_samples : nat)
| h_freq_negative
| h_freq_nyquist
| decim_type
| n_fft_too_long (n_fft n : Z)
| n_overlap_too_long (n_overlap n_per_seg : Z)
| padding_type
| shape_mismatch
| negative_dimensions
| slice_step_zero
| cannot_convert_nan.

(** The exceptions: those of Python and NumPy by their class, and
    [ExternalError] for whatever a routine of SciPy or MNE raises on its
    own account. *)
Inductive exn : Type :=
| ValueError (m : message)
| IndexError
| KeyError (key : string)
| TypeError
| OverflowError
| ExternalError (code : nat).

Inductive result (A : Type) : Type :=
| Ok (a : A)
| Raise (e : exn).
Arguments Ok {A} a.
Arguments Raise {A} e.

Definition rbind {A B} (r : result A) (k : A -> result B) : result B :=
  match r with
  | Ok a => k a
  | Raise e => Raise e
  end.

(** Python's [float(n)] and [n * x] for an integer [n] and a float [x]: the
    conversion raises when the integer is beyond the largest float. *)
Definition py_float (z : Z) : result float :=
  let f := float_of_Z z in
  if is_infinity f then Raise OverflowError else Ok f.

(** ** NumPy arrays as lists *)

Fixpoint map2 {A B C} (f : A -> B -> C) (xs : list A) (ys : list B) : list C :=
  match xs, ys with
  | x :: xs', y :: ys' => f x y :: map2 f xs' ys'
  | _, _ => []
  end.

(** [a + b] on two one-dimensional arrays, with NumPy's broadcasting of an
    array of one element. *)
Definition np_add (a b : list float) : result (list float) :=
  if (length a =? length b)%nat then Ok (map2 PrimFloat.add a b)
  else match a, b with
       | [x], _ => Ok (map (fun y => x + y)%float b)
       | _, [y] => Ok (map (fun x => x + y)%float a)
       | _, _ => Raise (ValueError shape_mismatch)
       end.

(** [arr[mask]] for a boolean array [mask]. *)
Fixpoint getmask {A} (arr : list A) (mask : list bool) : list A :=
  match arr, mask with
  | x :: arr', true :: mask' => x :: getmask arr' mask'
  | _ :: arr', false :: mask' => getmask arr' mask'
  | _, _ => []
  end.

(** [arr[mask] = vals]: the selected places receive [vals] in order. *)
Fixpoint setmask {A} (arr : list A) (mask : list bool) (vals : list A) : list A :=
  match arr, mask with
  | x :: arr', true :: mask' =>
      match vals with
      | v :: vals' => v :: setmask arr' mask' vals'
      | [] => x :: setmask arr' mask' []
      end
  | x :: arr', false :: mask' => x :: setmask arr' mask' vals
  | _, _ => arr
  end.

(** [arr[mask] -= c] for a scalar [c]: NumPy refuses a boolean index whose
    length is not the array's. *)
Definition isub_mask_scalar (arr : list float) (mask : list bool) (c : float)
  : result (list float) :=
  if (length mask =? length arr)%nat
  then Ok (setmask arr mask (map (fun x => x - c)%float (getmask arr mask)))
  else Raise IndexError.

(** [arr[mask] -= rhs] for an array [rhs]. *)
Definition isub_mask_array (arr : list float) (mask : list bool) (rhs : list float)
  : result (list float) :=
  if (length mask =? length arr)%nat
  then
    let sel := getmask arr mask in
    if (length rhs =? length sel)%nat
    then Ok (setmask arr mask (map2 PrimFloat.sub sel rhs))
    else match rhs with
         | [r] => Ok (setmask arr mask (map (fun x => x - r)%float sel))
         | _ => Raise (ValueError shape_mismatch)
         end
  else Raise IndexError.

(** ** The Dipole class *)

Record Dipole : Type := mkDipole {
  units : string;
  N : nat;
  times : list float;
  data_agg : list float;
  data_L2 : list float;
  data_L5 : list float;
  nave : Z;
  sfreq : float
}.

(** The keys of [self.data], in the order the constructor inserts them. *)
Definition data_keys : list string := ["agg"; "L2"; "L5"].

(** [self.data[key]]. *)
Definition data_get (self : Dipole) (key : string) : result (list float) :=
  if String.eqb key "agg" then Ok (data_agg self)
  else if String.eqb key "L2" then Ok (data_L2 self)
  else if String.eqb key "L5" then Ok (data_L5 self)
  else Raise (KeyError key).

(** [self.data[key] = v] for one of the three keys. *)
Definition data_set (self : Dipole) (key : string) (v : list float) : Dipole :=
  if String.eqb key "agg" then
    mkDipole (units self) (N self) (times self) v (data_L2 self) (data_L5 self)
             (nave self) (sfreq self)
  else if String.eqb key "L2" then
    mkDipole (units self) (N self) (times self) (data_agg self) v (data_L5 self)
             (nave self) (sfreq self)
  else if String.eqb key "L5" then
    mkDipole (units self) (N self) (times self) (data_agg self) (data_L2 self) v
             (nave self) (sfreq self)
  else self.

Definition set_units (self : Dipole) (u : string) : Dipole :=
  mkDipole u (N self) (times self) (data_agg self) (data_L2 self) (data_L5 self)
           (nave self) (sfreq self).

Definition set_nave (self : Dipole) (n : Z) : Dipole :=
  mkDipole (units self) (N self) (times self) (data_agg self) (data_L2 self)
           (data_L5 self) n (sfreq self).

(** [Dipole.__init__(self, times, data, nave=1)]: [data] has one row of
    three columns per sample. *)
Definition Dipole_init (times : list float) (data : list (float * float * float))
    (nave : Z) : result Dipole :=
  match times with
  | t0 :: t1 :: _ =>
      Ok (mkDipole "fAm" (length data) times
                   (map (fun r => fst (fst r)) data)
                   (map (fun r => snd (fst r)) data)
                   (map (fun r => snd r) data)
                   nave
                   (1000 / (t1 - t0))%float)
  | _ => Raise IndexError
  end.

(** A method: the object after the call and the outcome of the call. *)
Definition method (A : Type) : Type := Dipole -> Dipole * result A.

Definition ret {A} (a : A) : method A := fun self => (self, Ok a).
Definition raise {A} (e : exn) : method A := fun self => (self, Raise e).
Definition bind {A B} (c : method A) (k : A -> method B) : method B :=
  fun self =>
    match c self with
    | (self', Ok a) => k a self'
    | (self', Raise e) => (self', Raise e)
    end.
Definition lift {A} (r : result A) : method A := fun self => (self, r).
Definition getattr {A} (f : Dipole -> A) : method A := fun self => (self, Ok (f self)).
Definition modify (f : Dipole -> Dipole) : method unit := fun self => (f self, Ok tt).

Declare Scope method_scope.
Delimit Scope method_scope with method.
Notation "x <- c ;; k" := (bind c (fun x => k))
  (at level 61, c at next level, right associativity) : method_scope.
Notation "c ;;; k" := (bind c (fun _ => k))
  (at level 61, right associativity) : method_scope.

(** *** baseline_renormalize *)

Definition m_fit : float := 3.4770508e-3%float.
Definition b_fit : float := (-51.231085)%float.
Definition t1_fit : float := 750%float.
Definition m1_fit : float := 1.01e-4%float.
Definition b1_fit : float := (-48.412078)%float.

(** The three boolean index arrays of the piecewise normalization. *)
Definition mask_early (ts : list float) : list bool :=
  map (fun t => t <=? 37)%float ts.
Definition mask_mid (ts : list float) : list bool :=
  map (fun t => gtb t 37 && (t <? t1_fit)%float) ts.
Definition mask_late (ts : list float) : list bool :=
  map (fun t => geb t t1_fit) ts.

(** The number of cells is a Python integer.  In a product with a float it
    is converted to a float; in a product with an array NumPy first holds
    it as an [int64], or as a [uint64] when it is too large for that, and
    the product is an array of floats with the same values.  An integer that
    fits neither makes the product an array of Python objects. *)
Definition fits_int_array (z : Z) : bool := (- 2 ^ 63 <=? z) && (z <? 2 ^ 64).

(** [arr[mask] -= rhs] for an array [rhs] of Python objects: the boolean
    index is applied first, then the difference, an array of objects, cannot
    be cast back into the array of floats. *)
Definition isub_mask_object (arr : list float) (mask : list bool) : result (list float) :=
  if (length mask =? length arr)%nat then Raise TypeError else Raise IndexError.

(** The warning printed when the units are not fAm is not modelled: the call
    then returns with the object untouched.  The two scalar offsets are
    products of the number of cells with a float; the offsets of the two
    later regimes are products of the number of cells with an array, which
    raise when the number does not fit an integer of NumPy: L2 and the early
    samples of L5 have been shifted by then. *)
Definition baseline_renormalize (N_pyr_x N_pyr_y : Z) : method unit :=
  (u <- getattr units ;;
   if negb (String.eqb u "fAm") then ret tt
   else
     let N_pyr := N_pyr_x * N_pyr_y in
     n <- lift (py_float N_pyr) ;;
     let offset_L2 := (n * 0.0443)%float in
     let offset_L5 := (n * -49.0502)%float in
     L2 <- getattr data_L2 ;;
     modify (fun self => data_set self "L2" (map (fun x => x - offset_L2)%float L2)) ;;;
     ts <- getattr times ;;
     L5 <- getattr data_L5 ;;
     L5 <- lift (isub_mask_scalar L5 (mask_early ts) offset_L5) ;;
     modify (fun self => data_set self "L5" L5) ;;;
     L5 <- lift (if fits_int_array N_pyr
                 then isub_mask_array L5 (mask_mid ts)
                        (map (fun t => n * (m_fit * t + b_fit))%float
                             (getmask ts (mask_mid ts)))
                 else isub_mask_object L5 (mask_mid ts)) ;;
     modify (fun self => data_set self "L5" L5) ;;;
     L5 <- lift (if fits_int_array N_pyr
                 then isub_mask_array L5 (mask_late ts)
                        (map (fun t => n * (m1_fit * t + b1_fit))%float
                             (getmask ts (mask_late ts)))
                 else isub_mask_object L5 (mask_late ts)) ;;
     modify (fun self => data_set self "L5" L5) ;;;
     L2 <- getattr data_L2 ;;
     agg <- lift (np_add L2 L5) ;;
     modify (fun self => data_set self "agg" agg))%method.

(** *** convert_fAm_to_nAm and scale *)

(** [for item in items: body(item)]: the loop stops at the first exception. *)
Fixpoint for_each {A} (items : list A) (body : A -> method unit) : method unit :=
  match items with
  | [] => ret tt
  | item :: rest => (body item ;;; for_each rest body)%method
  end.

Definition getitem (key : string) : method (list float) :=
  fun self => (self, data_get self key).

(** [self.data[key] *= c]. *)
Definition imul_key (c : float) (key : string) : method unit :=
  (x <- getitem key ;;
   modify (fun self => data_set self key (map (fun v => v * c)%float x)))%method.

Definition convert_fAm_to_nAm : method unit :=
  (for_each data_keys (imul_key 1e-6%float) ;;;
   modify (fun self => set_units self "nAm"))%method.

(** What a call hands back: [None] on a bare [return], or [self]. *)
Inductive returned : Type := ret_None | ret_self.

Definition scale (fctr : float) : method returned :=
  (for_each data_keys (imul_key fctr) ;;; ret ret_self)%method.

(** ** Integers from floats *)

(** The integer nearest to [m * 2^e], ties to the even one: [numpy.round]. *)
Definition round_half_even (m : positive) (e : Z) : Z :=
  if 0 <=? e then Z.pos m * 2 ^ e
  else
    let d := 2 ^ (- e) in
    let q := Z.pos m / d in
    let r := Z.pos m mod d in
    match 2 * r ?= d with
    | Lt => q
    | Gt => q + 1
    | Eq => if Z.even q then q else q + 1
    end.

(** [int(np.round(x))]: [int] refuses NaN and the infinities. *)
Definition int_round (x : float) : result Z :=
  match Prim2SF x with
  | S754_nan => Raise (ValueError cannot_convert_nan)
  | S754_infinity _ => Raise OverflowError
  | S754_zero _ => Ok 0
  | S754_finite s m e =>
      let r := round_half_even m e in Ok (if s then - r else r)
  end.

(** ** Smoothing *)

Section Smoothing.

(** [numpy.hamming(M)], [numpy.convolve(x, win, 'same')] and
    [scipy.signal.savgol_filter(data, window_length, polyorder)]. *)
Variable hamming : float -> result (list float).
Variable convolve_same : list float -> list float -> result (list float).
Variable savgol_filter : list float -> Z -> Z -> result (list float).

(** Python's [sum(win)]: from the integer 0, left to right. *)
Definition py_sum (win : list float) : float :=
  fold_left PrimFloat.add win 0%float.

Definition _hammfilt (x : list float) (winsz : float) : result (list float) :=
  rbind (hamming winsz) (fun win =>
  let s := py_sum win in
  let win := map (fun w => w / s)%float win in
  convolve_same x win).

Definition _savgol_filter (data : list float) (h_freq sfreq : float)
  : result (list float) :=
  if geb h_freq (sfreq / 2)%float then Raise (ValueError h_freq_nyquist)
  else
    rbind (int_round (sfreq / h_freq)%float) (fun r =>
    let window_length := (r / 2) * 2 + 1 in
    savgol_filter data window_length 5).

(** [self.data[key] = f(self.data[key])]. *)
Definition filter_key (f : list float -> result (list float)) (key : string)
  : method unit :=
  (x <- getitem key ;;
   y <- lift (f x) ;;
   modify (fun self => data_set self key y))%method.

Definition smooth (window_len h_freq : option float) : method returned :=
  match window_len, h_freq with
  | None, None => raise (ValueError window_len_or_h_freq)
  | Some _, Some _ => raise (ValueError not_both)
  | Some window_len, None =>
      (sf <- getattr sfreq ;;
       ts <- getattr times ;;
       let winsz := (1e-3 * window_len * sf)%float in
       if gtb winsz (float_of_len (length ts)) then
         raise (ValueError (window_too_long winsz (length ts)))
       else if (winsz <=? 1)%float then ret ret_None
       else
         for_each data_keys (filter_key (fun x => _hammfilt x winsz)) ;;;
         ret ret_self)%method
  | None, Some h_freq =>
      (sf <- getattr sfreq ;;
       if (h_freq <? 0)%float then raise (ValueError h_freq_negative)
       else if gtb h_freq (0.5 * sf)%float then raise (ValueError h_freq_nyquist)
       else
         for_each data_keys (filter_key (fun x => _savgol_filter x h_freq sf)) ;;;
         ret ret_self)%method
  end.

Definition post_proc (N_pyr_x N_pyr_y : Z) (winsz fctr : float) : method unit :=
  (baseline_renormalize N_pyr_x N_pyr_y ;;;
   convert_fAm_to_nAm ;;;
   scale fctr ;;;
   sf <- getattr sfreq ;;
   let window_len := (winsz / (1e-3 * sf))%float in
   smooth (Some window_len) None ;;;
   ret tt)%method.

End Smoothing.

(** ** average_dipoles *)

(** The loop over [enumerate(dpls)] that refuses a dipole that is an average
    already. *)
Fixpoint check_nave (dpls : list Dipole) (dpl_idx : nat) : result unit :=
  match dpls with
  | [] => Ok tt
  | dpl :: rest =>
      if nave dpl >? 1 then Raise (ValueError (already_average dpl_idx (nave dpl)))
      else check_nave rest (S dpl_idx)
  end.

(** [np.array(rows)] on a list of one-dimensional arrays: a matrix when the
    rows have one length, refused otherwise. *)
Definition np_array (rows : list (list float)) : result (list (list float)) :=
  match rows with
  | [] => Ok []
  | r :: rest =>
      if forallb (fun r' => (length r' =? length r)%nat) rest then Ok rows
      else Raise (ValueError shape_mismatch)
  end.

(** [np.mean(a, axis=0)] on a matrix with at least one row and at least two
    columns: the rows are added in order, and the sum is divided by their
    number.  (A matrix of one column is summed as a vector, which NumPy adds
    pairwise from eight items on; a dipole has two samples at least.) *)
Definition np_mean_axis0 (a : list (list float)) : list float :=
  match a with
  | [] => []
  | r :: rest =>
      map (fun s => s / float_of_len (length a))%float
          (fold_left (map2 PrimFloat.add) rest r)
  end.

(** [np.c_[a, b, c]]: three columns of one length side by side. *)
Definition np_c_ (a b c : list float) : result (list (float * float * float)) :=
  if ((length a =? length b) && (length b =? length c))%nat
  then Ok (map2 (fun ab z => (fst ab, snd ab, z)) (map2 pair a b) c)
  else Raise (ValueError shape_mismatch).

Definition layer_mean (layer : Dipole -> list float) (dpls : list Dipole)
  : result (list float) :=
  rbind (np_array (map layer dpls)) (fun a => Ok (np_mean_axis0 a)).

Definition average_dipoles (dpls : list Dipole) : result Dipole :=
  if (length dpls <? 2)%nat then Raise (ValueError need_two_dipoles)
  else
    rbind (check_nave dpls 0) (fun _ =>
    rbind (layer_mean data_agg dpls) (fun agg_avg =>
    rbind (layer_mean data_L2 dpls) (fun L2_avg =>
    rbind (layer_mean data_L5 dpls) (fun L5_avg =>
    rbind (np_c_ agg_avg L2_avg L5_avg) (fun avg_dpl_data =>
    match dpls with
    | [] => Raise IndexError
    | dpl0 :: _ =>
        rbind (Dipole_init (times dpl0) avg_dpl_data 1) (fun avg_dpl =>
        Ok (set_nave avg_dpl (Z.of_nat (length dpls))))
    end))))).

(** ** Python values and slices *)

(** An argument that the program inspects with [isinstance] or compares
    with [None]. *)
Inductive pyval : Type :=
| PyNone
| PyInt (z : Z)
| PyFloat (x : float)
| PyStr (s : string)
| PyList (items : list pyval).

(** The bounds of [l[start:stop:step]] on a sequence of [len] items, as
    CPython's [PySlice_AdjustIndices] computes them. *)
Definition adjust_index (len step i : Z) : Z :=
  if i <? 0 then
    let i' := i + len in
    if i' <? 0 then (if step <? 0 then -1 else 0) else i'
  else if len <=? i then (if step <? 0 then len - 1 else len)
  else i.

Definition slice_start (len step : Z) (start : option Z) : Z :=
  match start with
  | Some i => adjust_index len step i
  | None => if step <? 0 then len - 1 else 0
  end.

Definition slice_stop (len step : Z) (stop : option Z) : Z :=
  match stop with
  | Some i => adjust_index len step i
  | None => if step <? 0 then -1 else len
  end.

Definition slice_length (start stop step : Z) : Z :=
  if step <? 0 then
    if stop <? start then (start - stop - 1) / (- step) + 1 else 0
  else
    if start <? stop then (stop - start - 1) / step + 1 else 0.

Definition slice_indices (len : Z) (start stop : option Z) (step : Z) : list Z :=
  let i0 := slice_start len step start in
  let i1 := slice_stop len step stop in
  map (fun k => i0 + Z.of_nat k * step)
      (seq 0 (Z.to_nat (slice_length i0 i1 step))).

Definition take {A} (l : list A) (indices : list Z) : list A :=
  flat_map (fun i => match nth_error l (Z.to_nat i) with
                     | Some x => [x]
                     | None => []
                     end) indices.

(** [l[start:stop:step]] for an integer step. *)
Definition getslice {A} (l : list A) (start stop : option Z) (step : Z)
  : result (list A) :=
  if step =? 0 then Raise (ValueError slice_step_zero)
  else Ok (take l (slice_indices (Z.of_nat (length l)) start stop step)).

(** [l[::step]] for whatever value [step] is. *)
Definition getslice_by {A} (l : list A) (step : pyval) : result (list A) :=
  match step with
  | PyInt z => getslice l None None z
  | PyNone => getslice l None None 1
  | _ => Raise TypeError
  end.

(** ** viz.py *)

(** Python's [max(a, b)] and [min(a, b)] on two arguments: the first one is
    kept unless the second is strictly beyond it. *)
Definition py_max (a b : float) : float := if gtb b a then b else a.
Definition py_min (a b : float) : float := if (b <? a)%float then b else a.

Definition _get_plot_data (dpl : Dipole) (layer : string) (tmin tmax : option float)
    (scaling : float) : result (list float * list float) :=
  match times dpl with
  | [] => Raise IndexError
  | t0 :: _ =>
      let plot_tmin := t0 in
      let plot_tmin := match tmin with
                       | Some tmin => py_max tmin plot_tmin
                       | None => plot_tmin
                       end in
      let plot_tmax := last (times dpl) t0 in
      let plot_tmax := match tmax with
                       | Some tmax => py_min tmax plot_tmax
                       | None => plot_tmax
                       end in
      let mask := map (fun t => geb t plot_tmin && (t <? plot_tmax)%float)
                      (times dpl) in
      let times' := getmask (times dpl) mask in
      rbind (data_get dpl layer) (fun x =>
      if (length mask =? length x)%nat
      then Ok (map (fun v => scaling * v)%float (getmask x mask), times')
      else Raise IndexError)
  end.

(** NumPy holds a list of Python integers that fit [int64] as [int64]; its
    product wraps around.  (A factor beyond [int64] makes the array one of
    [uint64] or of objects: such chains are outside what is proved of the
    product.) *)
Definition int64_wrap (z : Z) : Z := (z + 2 ^ 63) mod 2 ^ 64 - 2 ^ 63.

Fixpoint all_ints (items : list pyval) : option (list Z) :=
  match items with
  | [] => Some []
  | PyInt z :: rest => option_map (cons z) (all_ints rest)
  | _ :: _ => None
  end.

Definition np_prod (items : list pyval) : result float :=
  match all_ints items with
  | Some zs =>
      Ok (float_of_Z (fold_left (fun acc z => int64_wrap (acc * z)) zs 1))
  | None => Raise TypeError
  end.

(** [np.zeros((n,))]. *)
Definition np_zeros (n : Z) : result (list float) :=
  if n <? 0 then Raise (ValueError negative_dimensions)
  else Ok (repeat 0%float (Z.to_nat n)).

Definition _check_nfft (n n_fft : Z) (n_per_seg : option Z) (n_overlap : Z)
  : result (Z * Z * Z) :=
  if match n_per_seg with None => n_fft >? n | Some _ => false end
  then Raise (ValueError (n_fft_too_long n_fft n))
  else
    let n_per_seg := match n_per_seg with
                     | None => n_fft
                     | Some p => if p >? n_fft then n_fft else p
                     end in
    let n_per_seg := if n_per_seg >? n then n else n_per_seg in
    if n_overlap >=? n_per_seg
    then Raise (ValueError (n_overlap_too_long n_overlap n_per_seg))
    else Ok (n_fft, n_per_seg, n_overlap).

Section Plots.

(** [scipy.signal.decimate(data, dec)],
    [mne.time_frequency.tfr_array_morlet(data, sfreq, freqs, n_cycles)]
    with one row of power per frequency, and
    [scipy.signal.welch(data, sfreq, nfft, noverlap, nperseg)]. *)
Variable decimate : list float -> pyval -> result (list float).
Variable tfr_array_morlet :
  list float -> float -> list float -> list float -> result (list (list float)).
Variable welch :
  list float -> float -> Z -> Z -> Z -> result (list float * list float).

(** The loop [for dec in decim] over the factors. *)
Fixpoint decimate_loop (decim : list pyval) (data times : list float)
  : result (list float * list float) :=
  match decim with
  | [] => Ok (data, times)
  | dec :: rest =>
      rbind (decimate data dec) (fun data =>
      rbind (getslice_by times dec) (fun times =>
      decimate_loop rest data times))
  end.

Definition _decimate_plot_data (decim : pyval) (data times : list float)
    (sfreq : option float) : result (list float * list float * option float) :=
  let decim := match decim with PyInt _ => PyList [decim] | _ => decim end in
  match decim with
  | PyList decim =>
      rbind (decimate_loop decim data times) (fun dt =>
      match sfreq with
      | None => Ok (fst dt, snd dt, None)
      | Some sfreq =>
          rbind (np_prod decim) (fun p =>
          Ok (fst dt, snd dt, Some (sfreq / p)%float))
      end)
  | _ => Raise (ValueError decim_type)
  end.

(** The padding of [plot_tfr_morlet]: zeros or the mirror image of the
    signal on either side. *)
Definition pad (padding : pyval) (data : list float) : result (list float) :=
  match padding with
  | PyNone => Ok data
  | PyStr p =>
      if String.eqb p "zeros" then
        rbind (np_zeros (Z.of_nat (length data) - 1)) (fun z =>
        Ok (z ++ data ++ z)%list)
      else if String.eqb p "mirror" then
        rbind (getslice data (Some (-1)) (Some 0) (-1)) (fun left =>
        rbind (getslice data (Some (-2)) None (-1)) (fun right =>
        Ok (left ++ data ++ right)%list))
      else Ok data
  | _ => Raise (ValueError padding_type)
  end.

(** [power[:, :, :, n - 1:2 * n - 1]] on every row of [power], for
    [n = times.shape[0]]. *)
Definition crop (padding : pyval) (n : Z) (power : list (list float))
  : result (list (list float)) :=
  match padding with
  | PyNone => Ok power
  | _ =>
      Ok (map (fun row =>
                 take row (slice_indices (Z.of_nat (length row))
                                         (Some (n - 1)) (Some (2 * n - 1)) 1))
              power)
  end.

(** The first lines of [plot_tfr_morlet]: the segment of the layer in the
    time window, decimated when asked, with its sampling rate. *)
Definition tfr_segment (dpl : Dipole) (tmin tmax : option float) (layer : string)
    (decim : pyval) : result (list float * list float * float) :=
  rbind (_get_plot_data dpl layer tmin tmax 1) (fun dt =>
  let data := fst dt in
  let times := snd dt in
  let sfreq := sfreq dpl in
  match decim with
  | PyNone => Ok (data, times, sfreq)
  | _ =>
      rbind (_decimate_plot_data decim data times (Some sfreq)) (fun r =>
      match snd r with
      | Some sfreq' => Ok (fst (fst r), snd (fst r), sfreq')
      | None => Raise TypeError
      end)
  end).

(** [plot_tfr_morlet] up to the drawing: the arrays [times], [freqs] and
    [power[0, 0]] that are given to [pcolormesh]. *)
Definition plot_tfr_morlet (dpl : Dipole) (freqs n_cycles : list float)
    (tmin tmax : option float) (layer : string) (decim padding : pyval)
  : result (list float * list float * list (list float)) :=
  rbind (tfr_segment dpl tmin tmax layer decim) (fun dts =>
  let data := fst (fst dts) in
  let times := snd (fst dts) in
  let sfreq := snd dts in
  rbind (pad padding data) (fun data =>
  rbind (tfr_array_morlet data sfreq freqs n_cycles) (fun power =>
  rbind (crop padding (Z.of_nat (length times)) power) (fun power =>
  Ok (times, freqs, power))))).

(** [plot_psd_welch] up to the drawing: the frequencies and the spectrum
    that are plotted. *)
Definition plot_psd_welch (dpl : Dipole) (n_fft n_overlap : Z)
    (n_per_seg : option Z) (tmin tmax : option float) (layer : string)
  : result (list float * list float) :=
  let sfreq := sfreq dpl in
  rbind (_get_plot_data dpl layer tmin tmax 1) (fun dt =>
  let data := fst dt in
  let times := snd dt in
  rbind (_check_nfft (Z.of_nat (length times)) n_fft n_per_seg n_overlap) (fun c =>
  let n_fft := fst (fst c) in
  let n_per_seg := snd (fst c) in
  let n_overlap := snd c in
  welch data sfreq n_fft n_overlap n_per_seg)).

End Plots.

(** ** The order of the floats *)

(** A float that is not NaN has a place in a lexicographic order: its class
    (negative infinity, negative, zero, positive, positive infinity), then
    its exponent, then its mantissa. *)
Definition sf_key (x : spec_float) : option (Z * Z * Z) :=
  match x with
  | S754_nan => None
  | S754_infinity true => Some (-2, 0, 0)
  | S754_infinity false => Some (2, 0, 0)
  | S754_zero _ => Some (0, 0, 0)
  | S754_finite true m e => Some (-1, - e, - Z.pos m)
  | S754_finite false m e => Some (1, e, Z.pos m)
  end.

Definition key_lt (a b : Z * Z * Z) : Prop :=
  fst (fst a) < fst (fst b) \/
  (fst (fst a) = fst (fst b) /\
   (snd (fst a) < snd (fst b) \/
    (snd (fst a) = snd (fst b) /\ snd a < snd b))).

Definition float_lt (x y : float) : Prop :=
  exists a b, sf_key (Prim2SF x) = Some a /\ sf_key (Prim2SF y) = Some b /\ key_lt a b.

Definition float_le (x y : float) : Prop :=
  exists a b, sf_key (Prim2SF x) = Some a /\ sf_key (Prim2SF y) = Some b /\
              (key_lt a b \/ a = b).

(** ** Closed forms and sample data for the statements *)

(** What the three masked subtractions do to one sample of L5 at time [t]. *)
Definition renormalize_L5 (n : float) (x t : float) : float :=
  let x := if (t <=? 37)%float then (x - n * -49.0502)%float else x in
  let x := if gtb t 37 && (t <? t1_fit)%float
           then (x - n * (m_fit * t + b_fit))%float else x in
  if geb t t1_fit then (x - n * (m1_fit * t + b1_fit))%float else x.

(** The object a successful renormalization leaves. *)
Definition renormalized (n : float) (self : Dipole) : Dipole :=
  let L2 := map (fun x => x - n * 0.0443)%float (data_L2 self) in
  let L5 := map2 (renormalize_L5 n) (data_L5 self) (times self) in
  mkDipole (units self) (N self) (times self) (map2 PrimFloat.add L2 L5) L2 L5
           (nave self) (sfreq self).

(** A dipole of two samples, all zero, one millisecond apart. *)
Definition two_samples : Dipole :=
  mkDipole "fAm" 2 [0; 1]%float [0; 0]%float [0; 0]%float [0; 0]%float 1 1000%float.

(** The arrays of a dipole have one length, and there are two samples at
    least: what the constructor needs and the data model promises. *)
Definition well_formed (dpl : Dipole) : Prop :=
  length (data_agg dpl) = length (times dpl) /\
  length (data_L2 dpl) = length (times dpl) /\
  length (data_L5 dpl) = length (times dpl) /\
  (2 <= length (times dpl))%nat.

(** The arithmetic mean of some floats, as the specification words it: their
    sum, taken in order, over their number. *)
Definition mean (xs : list float) : float :=
  match xs with
  | [] => nan
  | x :: rest => (fold_left PrimFloat.add rest x / float_of_len (length xs))%float
  end.

(** The samples number [j] of the trials, for one layer. *)
Definition samples_at (layer : Dipole -> list float) (dpls : list Dipole) (j : nat)
  : list float :=
  map (fun dpl => nth j (layer dpl) nan) dpls.

(** A dipole of three samples in nAm, half a millisecond apart. *)
Definition three_samples (nv : Z) (a b c : float) : Dipole :=
  mkDipole "nAm" 3 [0; 0.5; 1]%float [a; b; c]%float [a; a; a]%float [b; b; c]%float
           nv 2000%float.

(** Stand-ins for the external routines, for the concrete runs: a window of
    ones, the signal itself as its convolution and as its fit. *)
Definition hamming_ones (M : float) : result (list float) := Ok [1%float].
Definition convolve_id (x win : list float) : result (list float) := Ok x.
Definition savgol_id (x : list float) (window_length polyorder : Z)
  : result (list float) := Ok x.

(** Times that grow strictly from one sample to the next. *)
Fixpoint strictly_increasing (ts : list float) : bool :=
  match ts with
  | a :: (b :: _) as rest => (a <? b)%float && strictly_increasing rest
  | _ => true
  end.

(** A dipole of four samples in nAm at uneven times. *)
Definition four_samples : Dipole :=
  mkDipole "nAm" 4 [0; 1; 40; 800]%float [5; 6; 7; 8]%float [1; 2; 3; 4]%float
           [4; 4; 4; 4]%float 1 1000%float.

(** Stand-ins for the external routines of the plots: subsampling without a
    filter for a positive factor, with what SciPy refuses refused, in the
    order of its checks: a factor that is no integer (the [TypeError] of
    [operator.index]), a factor that is not positive (error 1), and a signal
    of 27 samples or fewer, too short for the padding of its zero-phase
    filter (error 2); and the squared signal as the power at every
    frequency. *)
Definition decimate_plain (data : list float) (dec : pyval) : result (list float) :=
  match dec with
  | PyInt q =>
      if 0 <? q then
        if (length data <=? 27)%nat then Raise (ExternalError 2)
        else getslice data None None q
      else Raise (ExternalError 1)
  | _ => Raise TypeError
  end.
Definition tfr_square (data : list float) (sfreq : float) (freqs n_cycles : list float)
  : result (list (list float)) :=
  Ok (map (fun _ => map (fun v => v * v)%float data) freqs).

(** The product of the factors of a chain. *)
Definition product (zs : list Z) : Z := fold_right Z.mul 1 zs.

(** A factor that cannot be a stride: not an integer and not [None], or
    zero. *)
Definition no_stride (dec : pyval) : bool :=
  match dec with
  | PyInt z => z =? 0
  | PyNone => false
  | _ => true
  end.

(** What the slice [times[::bad]] raises for such a factor. *)
Definition stride_error (bad : pyval) : exn :=
  match bad with
  | PyInt _ => ValueError slice_step_zero
  | _ => TypeError
  end.

(** The chain of factors that the loop of [_decimate_plot_data] runs over:
    an integer stands for the chain of itself alone; what is neither an
    integer nor a list has none. *)
Definition factors (decim : pyval) : option (list pyval) :=
  match decim with
  | PyInt _ => Some [decim]
  | PyList chain => Some chain
  | _ => None
  end.

(** A signal of sixty samples, a millisecond apart: long enough for two
    stages of the external routine. *)
Definition sixty_times : list float :=
  map (fun k => float_of_Z (Z.of_nat k)) (seq 0 60).
Definition sixty_samples : list float := map (fun t => t * t)%float sixty_times.

(** A dipole of four samples in fAm, with one time in each regime of the
    baseline and one time that is not a number. *)
Definition four_fAm : Dipole :=
  mkDipole "fAm" 4 [0; 40; 800; nan]%float [5; 6; 7; 8]%float [1; 2; 3; 4]%float
           [4; 4; 4; 4]%float 1 25%float.

(** The object with every sample of the three layers multiplied by [c]. *)
Definition scaled (c : float) (self : Dipole) : Dipole :=
  mkDipole (units self) (N self) (times self)
           (map (fun v => v * c)%float (data_agg self))
           (map (fun v => v * c)%float (data_L2 self))
           (map (fun v => v * c)%float (data_L5 self))
           (nave self) (sfreq self).

(** A dipole whose L5 is one sample short of its times. *)
Definition short_L5 : Dipole :=
  mkDipole "fAm" 3 [0; 40; 800]%float [5; 6; 7]%float [1; 2; 3]%float
           [4; 4]%float 1 25%float.

(** A stand-in for [numpy.convolve] that refuses an empty signal, as NumPy
    does, and hands back any other signal as it is. *)
Definition convolve_nonempty (x win : list float) : result (list float) :=
  match x with
  | [] => Raise (ExternalError 2)
  | _ => Ok x
  end.

(** A dipole whose L5 is empty. *)
Definition empty_L5 : Dipole :=
  mkDipole "nAm" 4 [0; 40; 80; 120]%float [5; 6; 7; 8]%float [1; 2; 3; 4]%float
           [] 1 25%float.

(** A trial of three samples on a grid of its own, whose [nave] is 0. *)
Definition late_samples : Dipole :=
  mkDipole "nAm" 3 [10; 12; 14; 16]%float [3; 4; 5]%float [3; 3; 3]%float
           [4; 4; 5]%float 0 500%float.

(** A stand-in for [scipy.signal.welch] that shows what it was asked for:
    the lengths of the FFT, of the overlap and of the segment as the
    frequencies, and the signal as the spectrum. *)
Definition welch_echo (data : list float) (sfreq : float) (nfft noverlap nperseg : Z)
  : result (list float * list float) :=
  Ok ([float_of_Z nfft; float_of_Z noverlap; float_of_Z nperseg], data).

(** ** The plots of the dipole: scaling, units and lines *)

(** The [ValueError]s of [_check_scaling_units], each with the value whose
    type goes into its message. *)
Inductive units_error : Type :=
| scaling_not_float (scaling : pyval)
| units_not_str (units : pyval).

(** The scaling that [_check_scaling_units] returns: the float it was
    given, or the integer 1 that it puts for [None]. *)
Inductive scaling_value : Type :=
| scaling_float (x : float)
| scaling_one.

(** The scaling as the Python value it is. *)
Definition scaling_pyval (s : scaling_value) : pyval :=
  match s with
  | scaling_float x => PyFloat x
  | scaling_one => PyInt 1
  end.

(** The factor of [scaling * array]: NumPy multiplies by the integer 1 as
    by the float 1. *)
Definition scaling_factor (s : scaling_value) : float :=
  match s with
  | scaling_float x => x
  | scaling_one => 1%float
  end.

Definition _check_scaling_units (scaling units : pyval)
  : units_error + scaling_value * string :=
  match match scaling with
        | PyFloat x => inr (scaling_float x)
        | PyNone => inr scaling_one
        | _ => inl (scaling_not_float scaling)
        end with
  | inl e => inl e
  | inr scaling =>
      match units with
      | PyStr u => inr (scaling, u)
      | PyNone => inr (scaling, "")
      | _ => inl (units_not_str units)
      end
  end.

(** The outcome of a plot that checks its scaling and units: what is drawn,
    the error of the check, or an exception raised further down. *)
Inductive checked (A : Type) : Type :=
| Drawn (a : A)
| Refused (e : units_error)
| Failed (e : exn).
Arguments Drawn {A} a.
Arguments Refused {A} e.
Arguments Failed {A} e.

(** The loop over the trials: the lines that are drawn, in order; a trial
    may draw none; the loop stops at the first exception. *)
Fixpoint plot_trials {L} (body : Dipole -> result (option L)) (dpls : list Dipole)
  : result (list L) :=
  match dpls with
  | [] => Ok []
  | dpl_trial :: rest =>
      rbind (body dpl_trial) (fun line =>
      rbind (plot_trials body rest) (fun lines =>
      Ok match line with
         | Some line => line :: lines
         | None => lines
         end))
  end.

Section Dipole_plots.

(** [scipy.signal.decimate(data, dec)] and
    [scipy.signal.periodogram(data, sfreq, window='hamming', nfft)]. *)
Variable decimate : list float -> pyval -> result (list float).
Variable periodogram : list float -> float -> Z -> result (list float * list float).

(** The body of the loop of [plot_dipole]: the times and the data given to
    [ax.plot] for one trial, when the layer is a key of its data. *)
Definition plot_trial (tmin tmax : option float) (layer : string) (decim : pyval)
    (scaling : scaling_value) (dpl_trial : Dipole)
  : result (option (list float * list float)) :=
  if existsb (String.eqb layer) data_keys then
    rbind (_get_plot_data dpl_trial layer tmin tmax (scaling_factor scaling))
          (fun dt =>
    match decim with
    | PyNone => Ok (Some (snd dt, fst dt))
    | _ =>
        rbind (_decimate_plot_data decimate decim (fst dt) (snd dt) None) (fun r =>
        Ok (Some (snd (fst r), fst (fst r))))
    end)
  else Ok None.

(** [plot_dipole] up to the drawing: the lines, as pairs of times and data,
    the label of the ordinate and the title.  [dpl] is one dipole or a list
    of dipoles. *)
Definition plot_dipole (dpl : Dipole + list Dipole) (tmin tmax : option float)
    (layer : string) (decim units scaling : pyval)
  : checked (list (list float * list float) * string * string) :=
  match _check_scaling_units scaling units with
  | inl e => Refused e
  | inr (scaling, units) =>
      let dpl := match dpl with inl dpl => [dpl] | inr dpls => dpls end in
      match plot_trials (plot_trial tmin tmax layer decim scaling) dpl with
      | Raise e => Failed e
      | Ok lines =>
          let ylabel := if (0 <? String.length units)%nat
                        then "Dipole moment (" ++ units ++ ")"
                        else "Dipole moment" in
          let title_str := if String.eqb layer "agg"
                           then "Aggregate (L2 + L5)" else layer in
          Drawn (lines, ylabel, title_str)
      end
  end.

(** [plot_psd] up to the drawing: the frequencies and the spectrum that are
    plotted, and the label of the ordinate. *)
Definition plot_psd (dpl : Dipole) (tmin tmax : option float) (layer : string)
    (units scaling : pyval) : checked (list float * list float * string) :=
  match _check_scaling_units scaling units with
  | inl e => Refused e
  | inr (scaling, units) =>
      let sfreq := sfreq dpl in
      match rbind (_get_plot_data dpl layer tmin tmax 1) (fun dt =>
            periodogram (fst dt) sfreq (Z.of_nat (length (fst dt)))) with
      | Raise e => Failed e
      | Ok (freqs, Pxx) =>
          Drawn (freqs, Pxx, "Power (" ++ units ++ "$^2 \ Hz^{-1}$)")
      end
  end.

End Dipole_plots.

(** A stand-in for [scipy.signal.periodogram] that shows what it was asked
    for: the rate and the FFT length as the frequencies, and the signal as
    the spectrum. *)
Definition periodogram_echo (data : list float) (sfreq : float) (nfft : Z)
  : result (list float * list float) :=
  Ok ([sfreq; float_of_Z nfft], data).

(** ** plot_spikes_hist *)

(** [np.unique] on an array of strings: its values in order, each once. *)
Fixpoint insert_unique (s : string) (l : list string) : list string :=
  match l with
  | [] => [s]
  | x :: rest =>
      match String.compare s x with
      | Lt => s :: l
      | Eq => l
      | Gt => x :: insert_unique s rest
      end
  end.

Definition np_unique (a : list string) : list string :=
  fold_right insert_unique [] a.

(** [np.setdiff1d(a, b)]: the values of [a] that are not in [b], in order,
    each once. *)
Definition np_setdiff1d (a b : list string) : list string :=
  filter (fun s => negb (existsb (String.eqb s) b)) (np_unique a).

(** A Python dict with strings for keys: the items in the order in which
    their keys were inserted. *)
Definition dict (V : Type) : Type := list (string * V).

Definition dict_mem {V} (d : dict V) (key : string) : bool :=
  existsb (fun item => String.eqb key (fst item)) d.

Fixpoint dict_get {V} (d : dict V) (key : string) : option V :=
  match d with
  | [] => None
  | (k, v) :: rest => if String.eqb key k then Some v else dict_get rest key
  end.

(** [d[key] = v]: a key that is there keeps its place. *)
Fixpoint dict_set {V} (d : dict V) (key : string) (v : V) : dict V :=
  match d with
  | [] => [(key, v)]
  | (k, v') :: rest =>
      if String.eqb key k then (k, v) :: rest else (k, v') :: dict_set rest key v
  end.

(** The argument [spike_types]: [None], a string, a list of strings, a dict
    or anything else. *)
Inductive spike_types_arg : Type :=
| spike_types_None
| spike_types_str (s : string)
| spike_types_list (l : list string)
| spike_types_dict (d : dict pyval)
| spike_types_other.

(** What [plot_spikes_hist] raises: its two [TypeError]s and its two
    [ValueError]s, with the value that goes into the message, the
    [TypeError] of [str.startswith] on what is no string, and the
    [IndexError]s of [spike_times[-1]] and of a boolean index of another
    length. *)
Inductive spike_error : Type :=
| must_be_a_list (spike_label : string)
| should_be_str_list_dict_or_None
| found_more_than_once (unique_type : string)
| no_input_types_found (spike_type : pyval)
| startswith_not_str
| no_spike_times
| mask_length.

Definition sbind {A B} (r : spike_error + A) (k : A -> spike_error + B)
  : spike_error + B :=
  match r with
  | inl e => inl e
  | inr a => k a
  end.

Definition cell_types : list string :=
  ["L5_pyramidal"; "L5_basket"; "L2_pyramidal"; "L2_basket"].

(** The loop that wants every value of the dict to be a list. *)
Fixpoint check_groups (spike_types : dict pyval) : spike_error + dict (list pyval) :=
  match spike_types with
  | [] => inr []
  | (spike_label, PyList spike_type_list) :: rest =>
      sbind (check_groups rest) (fun groups =>
      inr ((spike_label, spike_type_list) :: groups))
  | (spike_label, _) :: _ => inl (must_be_a_list spike_label)
  end.

(** [spike_types] made a dict of lists, whatever it was given as. *)
Definition as_groups (spike_types : spike_types_arg) (unique_types : list string)
  : spike_error + dict (list pyval) :=
  let input_types := np_setdiff1d unique_types cell_types in
  let of_list (l : list string) : dict pyval :=
    fold_left (fun d s_type => dict_set d s_type (PyList [PyStr s_type])) l [] in
  match spike_types with
  | spike_types_str s => check_groups [(s, PyList [PyStr s])]
  | spike_types_None =>
      check_groups
        (of_list (if existsb (fun s => negb (String.eqb s "")) input_types
                  then input_types else unique_types))
  | spike_types_list l => check_groups (of_list l)
  | spike_types_dict d => check_groups d
  | spike_types_other => inl should_be_str_list_dict_or_None
  end.

(** The loop over [unique_types] for one [spike_type] of one label.
    [unique_type.startswith(spike_type)] takes a string and raises a
    [TypeError] for the other values modelled; a tuple of strings, which it
    takes as well, is not among them. *)
Fixpoint match_types (spike_label : string) (spike_type : pyval)
    (unique_types : list string) (spike_labels : dict string) (n_found : nat)
  : spike_error + dict string * nat :=
  match unique_types with
  | [] => inr (spike_labels, n_found)
  | unique_type :: rest =>
      match spike_type with
      | PyStr prefix =>
          if String.prefix prefix unique_type then
            if dict_mem spike_labels unique_type
            then inl (found_more_than_once unique_type)
            else match_types spike_label spike_type rest
                             (dict_set spike_labels unique_type spike_label)
                             (S n_found)
          else match_types spike_label spike_type rest spike_labels n_found
      | _ => inl startswith_not_str
      end
  end.

(** The loop over the list of one label. *)
Fixpoint label_group (spike_label : string) (spike_type_list : list pyval)
    (unique_types : list string) (spike_labels : dict string)
  : spike_error + dict string :=
  match spike_type_list with
  | [] => inr spike_labels
  | spike_type :: rest =>
      sbind (match_types spike_label spike_type unique_types spike_labels 0)
            (fun r =>
      if (snd r =? 0)%nat then inl (no_input_types_found spike_type)
      else label_group spike_label rest unique_types (fst r))
  end.

(** The loop over the items of the dict. *)
Fixpoint label_all (spike_types : dict (list pyval)) (unique_types : list string)
    (spike_labels : dict string) : spike_error + dict string :=
  match spike_types with
  | [] => inr spike_labels
  | (spike_label, spike_type_list) :: rest =>
      sbind (label_group spike_label spike_type_list unique_types spike_labels)
            (fun spike_labels => label_all rest unique_types spike_labels)
  end.

Definition color_cycle : list string := ["r"; "g"; "b"; "y"; "m"; "c"].

(** The loop over [spike_labels.items()]: for every histogram its type, the
    label that the legend gets and the colour.  [n_colors] counts the
    colours taken from the cycle. *)
Fixpoint hist_calls (spike_labels : dict string) (spike_color : dict string)
    (n_colors : nat) : list (string * string * string) :=
  match spike_labels with
  | [] => []
  | (spike_type, spike_label) :: rest =>
      match dict_get spike_color spike_label with
      | Some color =>
          (spike_type, "_nolegend_", color) :: hist_calls rest spike_color n_colors
      | None =>
          let color := nth (n_colors mod 6) color_cycle "r" in
          (spike_type, spike_label, color)
          :: hist_calls rest (dict_set spike_color spike_label color) (S n_colors)
      end
  end.

(** [plot_spikes_hist] up to the drawing: the last spike time, up to which
    the bins go, and for every histogram the spike times it counts, its label
    in the legend and its colour. *)
Definition plot_spikes_hist (_spike_times : list (list float))
    (_spike_types : list (list string)) (spike_types : spike_types_arg)
  : spike_error + float * list (list float * string * string) :=
  let spike_times := concat _spike_times in
  let spike_types_data := concat _spike_types in
  let unique_types := np_unique spike_types_data in
  sbind (as_groups spike_types unique_types) (fun spike_types =>
  sbind (label_all spike_types unique_types []) (fun spike_labels =>
  match spike_times with
  | [] => inl no_spike_times
  | t :: _ =>
      let calls := hist_calls spike_labels [] 0 in
      if (length spike_types_data =? length spike_times)%nat || (length calls =? 0)%nat
      then inr (last spike_times t,
                map (fun call =>
                       (getmask spike_times
                                (map (String.eqb (fst (fst call))) spike_types_data),
                        snd (fst call), snd call))
                    calls)
      else inl mask_length
  end)).

(** The types that a prefix selects, with the label they get. *)
Definition labelled (unique_types : list string) (spike_label prefix : string)
  : dict string :=
  map (fun unique_type => (unique_type, spike_label))
      (filter (String.prefix prefix) unique_types).

(** The labels that the prefixes of one group give, in order. *)
Definition group_labels (unique_types : list string) (spike_label : string)
    (prefixes : list string) : dict string :=
  flat_map (labelled unique_types spike_label) prefixes.

(** * Properties *)

(** ** The order of the floats *)

Lemma SFcompare_key x y a b :
  sf_key x = Some a -> sf_key y = Some b ->
  (SFcompare x y = Some Lt /\ key_lt a b) \/
  (SFcompare x y = Some Eq /\ a = b) \/
  (SFcompare x y = Some Gt /\ key_lt b a).
Proof.
  unfold key_lt.
  destruct x as [[]|[]| |[] m1 e1], y as [[]|[]| |[] m2 e2]; simpl;
    intros Ha Hb; inversion Ha; inversion Hb; subst; simpl;
    try (left; split; [reflexivity | lia]);
    try (right; left; split; reflexivity);
    try (right; right; split; [reflexivity | lia]).
  - destruct (Z.compare_spec e1 e2) as [He|He|He].
    + subst e2. change (Pos.compare_cont Eq m1 m2) with (Pos.compare m1 m2).
      destruct (Pos.compare_spec m1 m2) as [Hm|Hm|Hm]; simpl.
      * subst. right; left; split; reflexivity.
      * right; right. split; [reflexivity | lia].
      * left. split; [reflexivity | lia].
    + right; right. split; [reflexivity | lia].
    + left. split; [reflexivity | lia].
  - destruct (Z.compare_spec e1 e2) as [He|He|He].
    + subst e2. change (Pos.compare_cont Eq m1 m2) with (Pos.compare m1 m2).
      destruct (Pos.compare_spec m1 m2) as [Hm|Hm|Hm]; simpl.
      * subst. right; left; split; reflexivity.
      * left. split; [reflexivity | lia].
      * right; right. split; [reflexivity | lia].
    + left. split; [reflexivity | lia].
    + right; right. split; [reflexivity | lia].
Qed.

Lemma SFcompare_nan x y :
  sf_key x = None \/ sf_key y = None -> SFcompare x y = None.
Proof.
  destruct x as [[]|[]| |[] m1 e1], y as [[]|[]| |[] m2 e2]; simpl;
    intros [H|H]; try discriminate; reflexivity.
Qed.

Lemma key_lt_irrefl a : ~ key_lt a a.
Proof. unfold key_lt. lia. Qed.

Lemma key_lt_asym a b : key_lt a b -> ~ key_lt b a.
Proof. unfold key_lt. lia. Qed.

Lemma key_lt_trans a b c : key_lt a b -> key_lt b c -> key_lt a c.
Proof. unfold key_lt. lia. Qed.

Lemma ltb_float_lt x y : (x <? y)%float = true <-> float_lt x y.
Proof.
  rewrite FloatAxioms.ltb_spec. unfold SFltb, float_lt. split.
  - intros H.
    destruct (sf_key (Prim2SF x)) as [a|] eqn:Ha;
      [| rewrite SFcompare_nan in H by (now left); discriminate].
    destruct (sf_key (Prim2SF y)) as [b|] eqn:Hb;
      [| rewrite SFcompare_nan in H by (now right); discriminate].
    exists a, b. repeat split; trivial.
    destruct (SFcompare_key _ _ _ _ Ha Hb) as [[E K]|[[E K]|[E K]]];
      rewrite E in H; try discriminate; exact K.
  - intros (a & b & Ha & Hb & K).
    destruct (SFcompare_key _ _ _ _ Ha Hb) as [[E K']|[[E K']|[E K']]];
      rewrite E; trivial.
    + subst. now apply key_lt_irrefl in K.
    + now apply key_lt_asym in K.
Qed.

Lemma leb_float_le x y : (x <=? y)%float = true <-> float_le x y.
Proof.
  rewrite FloatAxioms.leb_spec. unfold SFleb, float_le. split.
  - intros H.
    destruct (sf_key (Prim2SF x)) as [a|] eqn:Ha;
      [| rewrite SFcompare_nan in H by (now left); discriminate].
    destruct (sf_key (Prim2SF y)) as [b|] eqn:Hb;
      [| rewrite SFcompare_nan in H by (now right); discriminate].
    exists a, b. repeat split; trivial.
    destruct (SFcompare_key _ _ _ _ Ha Hb) as [[E K]|[[E K]|[E K]]];
      rewrite E in H; try discriminate; auto.
  - intros (a & b & Ha & Hb & K).
    destruct (SFcompare_key _ _ _ _ Ha Hb) as [[E K']|[[E K']|[E K']]];
      rewrite E; trivial.
    destruct K as [K|K].
    + now apply key_lt_asym in K.
    + subst. now apply key_lt_irrefl in K'.
Qed.

Lemma float_lt_trans x y z : float_lt x y -> float_lt y z -> float_lt x z.
Proof.
  intros (a & b & Ha & Hb & K) (b' & c & Hb' & Hc & K').
  rewrite Hb in Hb'. inversion Hb'; subst b'.
  exists a, c. repeat split; trivial. eapply key_lt_trans; eassumption.
Qed.

Lemma float_le_trans x y z : float_le x y -> float_le y z -> float_le x z.
Proof.
  intros (a & b & Ha & Hb & K) (b' & c & Hb' & Hc & K').
  rewrite Hb in Hb'. inversion Hb'; subst b'.
  exists a, c. repeat split; trivial.
  destruct K as [K|K], K' as [K'|K']; subst; auto.
  left. eapply key_lt_trans; eassumption.
Qed.

Lemma float_lt_le x y : float_lt x y -> float_le x y.
Proof. intros (a & b & Ha & Hb & K). exists a, b. auto. Qed.

Lemma float_lt_le_trans x y z : float_lt x y -> float_le y z -> float_lt x z.
Proof.
  intros (a & b & Ha & Hb & K) (b' & c & Hb' & Hc & K').
  rewrite Hb in Hb'. inversion Hb'; subst b'.
  exists a, c. repeat split; trivial.
  destruct K' as [K'|K']; subst; auto. eapply key_lt_trans; eassumption.
Qed.

Lemma float_le_lt_trans x y z : float_le x y -> float_lt y z -> float_lt x z.
Proof.
  intros (a & b & Ha & Hb & K) (b' & c & Hb' & Hc & K').
  rewrite Hb in Hb'. inversion Hb'; subst b'.
  exists a, c. repeat split; trivial.
  destruct K as [K|K]; subst; auto. eapply key_lt_trans; eassumption.
Qed.

Lemma float_lt_irrefl x : ~ float_lt x x.
Proof.
  intros (a & b & Ha & Hb & K). rewrite Ha in Hb. inversion Hb; subst.
  now apply key_lt_irrefl in K.
Qed.

Lemma float_le_not_lt x y : float_le x y -> ~ float_lt y x.
Proof.
  intros H H'. eapply float_lt_irrefl, float_le_lt_trans; eassumption.
Qed.

Lemma float_lt_le_refl_l x y : float_lt x y -> float_le x x.
Proof. intros (a & b & Ha & Hb & K). exists a, a. auto. Qed.

Lemma ltb_false_of_le x y : (x <=? y)%float = true -> (y <? x)%float = false.
Proof.
  intros H. apply leb_float_le in H.
  destruct (y <? x)%float eqn:E; trivial.
  apply ltb_float_lt in E. now apply float_le_not_lt in H.
Qed.

(** ** Arrays and masks *)

Lemma map2_length {A B C} (f : A -> B -> C) xs ys :
  length xs = length ys -> length (map2 f xs ys) = length xs.
Proof.
  revert ys. induction xs as [|x xs IH]; intros [|y ys] H; simpl in *;
    try discriminate; auto.
Qed.

Lemma nth_error_map2 {A B C} (f : A -> B -> C) xs ys i x y :
  nth_error xs i = Some x -> nth_error ys i = Some y ->
  nth_error (map2 f xs ys) i = Some (f x y).
Proof.
  revert ys i. induction xs as [|x' xs IH]; intros [|y' ys] [|i] Hx Hy;
    simpl in *; try discriminate.
  - now inversion Hx; inversion Hy.
  - now apply IH.
Qed.

Lemma map2_map2 {A B} (f : A -> B -> A) (g : A -> B -> A) (xs : list A) (ys : list B) :
  map2 g (map2 f xs ys) ys = map2 (fun x y => g (f x y) y) xs ys.
Proof.
  revert ys. induction xs as [|x xs IH]; intros [|y ys]; simpl; auto.
  now rewrite IH.
Qed.

Lemma getmask_length_eq {A B} (a : list A) (b : list B) mask :
  length a = length mask -> length b = length mask ->
  length (getmask a mask) = length (getmask b mask).
Proof.
  revert a b. induction mask as [|[] mask IH]; intros [|x a] [|y b] Ha Hb;
    simpl in *; try discriminate; auto.
Qed.

Lemma setmask_scalar {A B} (p : B -> bool) (f : A -> A) arr ts :
  length arr = length ts ->
  setmask arr (map p ts) (map f (getmask arr (map p ts)))
  = map2 (fun x t => if p t then f x else x) arr ts.
Proof.
  revert ts. induction arr as [|x arr IH]; intros [|t ts] H; simpl in *;
    try discriminate; auto.
  destruct (p t); simpl; rewrite IH by lia; reflexivity.
Qed.

Lemma setmask_array {A B C} (p : B -> bool) (f : A -> C -> A) (g : B -> C) arr ts :
  length arr = length ts ->
  setmask arr (map p ts)
          (map2 f (getmask arr (map p ts)) (map g (getmask ts (map p ts))))
  = map2 (fun x t => if p t then f x (g t) else x) arr ts.
Proof.
  revert ts. induction arr as [|x arr IH]; intros [|t ts] H; simpl in *;
    try discriminate; auto.
  destruct (p t); simpl; rewrite IH by lia; reflexivity.
Qed.

Lemma isub_mask_scalar_run (p : float -> bool) arr ts c :
  length arr = length ts ->
  isub_mask_scalar arr (map p ts) c
  = Ok (map2 (fun x t => if p t then (x - c)%float else x) arr ts).
Proof.
  intros H. unfold isub_mask_scalar.
  rewrite length_map, <- H, Nat.eqb_refl.
  now rewrite (setmask_scalar p (fun x => (x - c)%float)).
Qed.

Lemma isub_mask_array_run (p : float -> bool) (g : float -> float) arr ts :
  length arr = length ts ->
  isub_mask_array arr (map p ts) (map g (getmask ts (map p ts)))
  = Ok (map2 (fun x t => if p t then (x - g t)%float else x) arr ts).
Proof.
  intros H. unfold isub_mask_array.
  rewrite !length_map, <- H, Nat.eqb_refl.
  rewrite (getmask_length_eq ts arr) by (rewrite length_map; lia).
  rewrite Nat.eqb_refl.
  now rewrite (setmask_array p PrimFloat.sub g).
Qed.

Lemma fits_int_array_spec z : - 2 ^ 63 <= z < 2 ^ 64 -> fits_int_array z = true.
Proof.
  intros H. unfold fits_int_array.
  apply andb_true_intro. split; [apply Z.leb_le | apply Z.ltb_lt]; lia.
Qed.

(** On a dipole in fAm whose arrays have the length of [times], for a number
    of cells that NumPy holds as an integer, the call returns and leaves
    the closed form. *)
Lemma baseline_renormalize_run N_pyr_x N_pyr_y n self :
  units self = "fAm"%string ->
  - 2 ^ 63 <= N_pyr_x * N_pyr_y < 2 ^ 64 ->
  py_float (N_pyr_x * N_pyr_y) = Ok n ->
  length (data_L2 self) = length (times self) ->
  length (data_L5 self) = length (times self) ->
  baseline_renormalize N_pyr_x N_pyr_y self = (renormalized n self, Ok tt).
Proof.
  intros Hu Hfit Hn H2 H5. apply fits_int_array_spec in Hfit.
  destruct self as [u n0 ts agg L2 L5 nv sf]. simpl in Hu, H2, H5. subst u.
  unfold baseline_renormalize, renormalized, bind, getattr, lift, modify, ret.
  cbn [units data_set data_L2 data_L5 data_agg times nave sfreq N
       String.eqb Ascii.eqb Bool.eqb negb].
  rewrite Hn, Hfit.
  unfold mask_early, mask_mid, mask_late.
  rewrite isub_mask_scalar_run by assumption.
  rewrite (isub_mask_array_run _ (fun t => (n * (m_fit * t + b_fit))%float))
    by (rewrite map2_length; assumption).
  rewrite (isub_mask_array_run _ (fun t => (n * (m1_fit * t + b1_fit))%float))
    by (rewrite !map2_length; try assumption; rewrite map2_length; assumption).
  rewrite !map2_map2.
  unfold np_add.
  rewrite length_map, map2_length, H2, H5, Nat.eqb_refl by assumption.
  reflexivity.
Qed.

(** ** Subtracting a negated product *)

Lemma SFsub_opp x y : SFsub prec emax x (SFopp y) = SFadd prec emax x y.
Proof.
  destruct x as [[]|[]| |[] mx ex], y as [[]|[]| |[] my ey]; try reflexivity;
    cbn [SFsub SFadd SFopp negb cond_Zopp]; f_equal; lia.
Qed.

Lemma SFmul_opp x y : SFmul prec emax x (SFopp y) = SFopp (SFmul prec emax x y).
Proof.
  destruct x as [[]|[]| |sx mx ex], y as [[]|[]| |sy my ey]; try reflexivity;
    cbn [SFmul SFopp]; try (now destruct sx); try (now destruct sy);
    try (now destruct sx, sy).
  unfold binary_round_aux.
  destruct (shr_fexp prec emax (Z.pos (mx * my)) (ex + ey) loc_Exact) as [mrs' e'].
  destruct (shr_fexp prec emax _ e' loc_Exact) as [mrs'' e''].
  destruct (shr_m mrs'') as [|m|m]; cbn [SFopp]; try reflexivity.
  - now destruct sx, sy.
  - destruct (e'' <=? emax - prec); cbn [SFopp]; now destruct sx, sy.
Qed.

(** Taking away [n] times a negated constant is adding [n] times it: the
    same float, bit for bit. *)
Lemma sub_mul_opp x n c : (x - n * - c)%float = (x + n * c)%float.
Proof.
  apply Prim2SF_inj.
  rewrite FloatAxioms.sub_spec, FloatAxioms.mul_spec, FloatAxioms.opp_spec,
    FloatAxioms.add_spec, FloatAxioms.mul_spec.
  unfold SF64sub, SF64mul, SF64add.
  now rewrite SFmul_opp, SFsub_opp.
Qed.

Lemma sub_offset_L5 x n : (x - n * -49.0502)%float = (x + n * 49.0502)%float.
Proof. exact (sub_mul_opp x n 49.0502%float). Qed.

(** ** baseline_renormalize *)

Lemma leb_37_not_late t : (t <=? 37)%float = true -> geb t t1_fit = false.
Proof.
  intros H. unfold geb. destruct (t1_fit <=? t)%float eqn:E; trivial.
  apply leb_float_le in H, E.
  assert (K : (t1_fit <=? 37)%float = true)
    by (apply leb_float_le; eapply float_le_trans; eassumption).
  vm_compute in K. discriminate.
Qed.

Lemma renormalize_L5_early n x t :
  (t <=? 37)%float = true -> renormalize_L5 n x t = (x - n * -49.0502)%float.
Proof.
  intros H. unfold renormalize_L5, gtb.
  rewrite H, (ltb_false_of_le _ _ H), (leb_37_not_late _ H). reflexivity.
Qed.

(** Whenever the call returns on a dipole in fAm, the aggregate it leaves is
    what NumPy computes for [data['L2'] + data['L5']]. *)
Lemma baseline_renormalize_returned N_pyr_x N_pyr_y self self' :
  units self = "fAm"%string ->
  baseline_renormalize N_pyr_x N_pyr_y self = (self', Ok tt) ->
  np_add (data_L2 self') (data_L5 self') = Ok (data_agg self').
Proof.
  intros Hu.
  destruct self as [u n0 ts agg L2 L5 nv sf]. simpl in Hu. subst u.
  unfold baseline_renormalize, bind, getattr, lift, modify, ret.
  cbn [units data_set data_L2 data_L5 data_agg times nave sfreq N
       String.eqb Ascii.eqb Bool.eqb negb].
  destruct (py_float _); [| discriminate].
  destruct (isub_mask_scalar _ _ _); [| discriminate].
  destruct (fits_int_array _);
    [| unfold isub_mask_object; destruct (_ =? _)%nat; discriminate].
  destruct (isub_mask_array _ _ _); [| discriminate].
  destruct (isub_mask_array _ _ _); [| discriminate].
  destruct (np_add _ _) eqn:E; [| discriminate].
  intros H. inversion H; subst. exact E.
Qed.

(** C1 (amended): on a dipole in fAm whose arrays have the length of
    [times], for a number of cells [N] with [-2^63 <= N < 2^64], every
    sample of L5 at a time [t <= 37] loses the constant [N * -49.0502], that
    is, the new value is the old one minus [N * -49.0502], which is the old
    one plus [N * 49.0502]; the call returns normally. *)
Theorem baseline_renormalize_early N_pyr_x N_pyr_y n self i t x :
  units self = "fAm"%string ->
  - 2 ^ 63 <= N_pyr_x * N_pyr_y < 2 ^ 64 ->
  py_float (N_pyr_x * N_pyr_y) = Ok n ->
  length (data_L2 self) = length (times self) ->
  length (data_L5 self) = length (times self) ->
  nth_error (times self) i = Some t ->
  nth_error (data_L5 self) i = Some x ->
  (t <=? 37)%float = true ->
  exists self',
    baseline_renormalize N_pyr_x N_pyr_y self = (self', Ok tt) /\
    nth_error (data_L5 self') i = Some (x - n * -49.0502)%float /\
    nth_error (data_L5 self') i = Some (x + n * 49.0502)%float.
Proof.
  intros Hu Hfit Hn H2 H5 Ht Hx Hle.
  exists (renormalized n self). split.
  - now apply baseline_renormalize_run.
  - cbn [renormalized data_L5].
    rewrite (nth_error_map2 _ _ _ _ _ _ Hx Ht).
    rewrite renormalize_L5_early by assumption.
    split; [reflexivity | now rewrite sub_offset_L5].
Qed.

Lemma baseline_renormalize_early_witness :
  exists self',
    baseline_renormalize 1 1 two_samples = (self', Ok tt) /\
    nth_error (data_L5 self') 0 = Some (0 - 1 * -49.0502)%float /\
    nth_error (data_L5 self') 0 = Some (0 + 1 * 49.0502)%float.
Proof.
  apply (baseline_renormalize_early 1 1 1%float two_samples 0%nat 0%float 0%float);
    first [lia | vm_compute; reflexivity].
Defined.

(** C1 as stated fails: with one cell and a sample at time 0 whose L5 value
    is 0, the call leaves 49.0502 there, while the stated value
    [0 - 1 * 49.0502] is -49.0502. *)
Lemma baseline_renormalize_early_sign :
  let after := baseline_renormalize 1 1 two_samples in
  snd after = Ok tt /\
  nth_error (times two_samples) 0 = Some 0%float /\
  (0 <=? 37)%float = true /\
  nth_error (data_L5 two_samples) 0 = Some 0%float /\
  nth_error (data_L5 (fst after)) 0 = Some 49.0502%float /\
  (0 - float_of_Z (1 * 1) * 49.0502)%float = (-49.0502)%float /\
  (49.0502 =? -49.0502)%float = false.
Proof. vm_compute. repeat split. Qed.

(** C2: on a dipole in fAm, whenever the call returns, whatever the number
    of cells, the aggregate it leaves is [data['L2'] + data['L5']] of the
    arrays it leaves, as NumPy computes the sum.  And the call does return
    when the arrays have the length of [times] and the number of cells [N]
    has [-2^63 <= N < 2^64]: the aggregate then has that length and holds
    the very floats of the sum, sample by sample. *)
Theorem baseline_renormalize_agg N_pyr_x N_pyr_y n self :
  units self = "fAm"%string ->
  (forall self',
     baseline_renormalize N_pyr_x N_pyr_y self = (self', Ok tt) ->
     np_add (data_L2 self') (data_L5 self') = Ok (data_agg self')) /\
  (- 2 ^ 63 <= N_pyr_x * N_pyr_y < 2 ^ 64 ->
   py_float (N_pyr_x * N_pyr_y) = Ok n ->
   length (data_L2 self) = length (times self) ->
   length (data_L5 self) = length (times self) ->
   exists self',
     baseline_renormalize N_pyr_x N_pyr_y self = (self', Ok tt) /\
     np_add (data_L2 self') (data_L5 self') = Ok (data_agg self') /\
     length (data_agg self') = length (times self) /\
     forall i a b,
       nth_error (data_L2 self') i = Some a ->
       nth_error (data_L5 self') i = Some b ->
       nth_error (data_agg self') i = Some (a + b)%float).
Proof.
  intros Hu. split.
  - intros self'. now apply baseline_renormalize_returned.
  - intros Hfit Hn H2 H5.
    pose proof (baseline_renormalize_run _ _ _ _ Hu Hfit Hn H2 H5) as Hrun.
    exists (renormalized n self). split; [exact Hrun|]. split.
    + exact (baseline_renormalize_returned _ _ _ _ Hu Hrun).
    + cbn [renormalized data_agg data_L2 data_L5]. split.
      * rewrite map2_length; rewrite ?length_map, ?map2_length; congruence.
      * intros i a b Ha Hb. now apply nth_error_map2.
Qed.

Lemma baseline_renormalize_agg_witness :
  np_add (data_L2 (renormalized 1 two_samples)) (data_L5 (renormalized 1 two_samples))
  = Ok (data_agg (renormalized 1 two_samples)) /\
  exists self',
    baseline_renormalize 1 1 two_samples = (self', Ok tt) /\
    np_add (data_L2 self') (data_L5 self') = Ok (data_agg self') /\
    length (data_agg self') = length (times two_samples) /\
    forall i a b,
      nth_error (data_L2 self') i = Some a ->
      nth_error (data_L5 self') i = Some b ->
      nth_error (data_agg self') i = Some (a + b)%float.
Proof.
  split.
  - apply (proj1 (baseline_renormalize_agg 1 1 1%float two_samples eq_refl)).
    vm_compute. reflexivity.
  - apply (proj2 (baseline_renormalize_agg 1 1 1%float two_samples eq_refl));
      first [lia | vm_compute; reflexivity].
Defined.

(** With [2^32 * 2^32] cells the product with an array is an array of
    objects: the call raises at the second regime, with L2 shifted and with
    the aggregate as it was, which is no longer the sum of the layers. *)
Example baseline_renormalize_object_array :
  let after := baseline_renormalize (2 ^ 32) (2 ^ 32) two_samples in
  snd after = Raise TypeError /\
  data_L2 (fst after)
  = map (fun x => x - float_of_Z (2 ^ 64) * 0.0443)%float (data_L2 two_samples) /\
  data_agg (fst after) = data_agg two_samples /\
  np_add (data_L2 (fst after)) (data_L5 (fst after)) <> Ok (data_agg (fst after)).
Proof. vm_compute. repeat split. discriminate. Qed.

(** ** average_dipoles *)

Lemma check_nave_ok dpls k :
  Forall (fun dpl => nave dpl <= 1) dpls -> check_nave dpls k = Ok tt.
Proof.
  intros H. revert k. induction H as [|dpl dpls Hd _ IH]; intros k; simpl; trivial.
  destruct (Z.gtb_spec (nave dpl) 1); [lia | apply IH].
Qed.

Lemma check_nave_first dpls k idx dpl :
  nth_error dpls idx = Some dpl ->
  nave dpl > 1 ->
  (forall j dpl', (j < idx)%nat -> nth_error dpls j = Some dpl' -> nave dpl' <= 1) ->
  check_nave dpls k = Raise (ValueError (already_average (k + idx) (nave dpl))).
Proof.
  revert k idx. induction dpls as [|d dpls IH]; intros k [|idx] Hn Hgt Hbefore;
    simpl in *; try discriminate.
  - inversion Hn; subst d.
    destruct (Z.gtb_spec (nave dpl) 1); [| lia]. now rewrite Nat.add_0_r.
  - destruct (Z.gtb_spec (nave d) 1) as [Hd|Hd].
    + specialize (Hbefore 0%nat d (Nat.lt_0_succ _) eq_refl). lia.
    + rewrite (IH (S k) idx Hn Hgt).
      * now rewrite Nat.add_succ_r.
      * intros j dpl' Hj Hnth. apply (Hbefore (S j) dpl'); [lia | exact Hnth].
Qed.

(** Among dipoles one of which is an average, there is a first such one. *)
Lemma first_average dpls :
  Exists (fun dpl => nave dpl > 1) dpls ->
  exists idx dpl,
    nth_error dpls idx = Some dpl /\ nave dpl > 1 /\
    forall j dpl', (j < idx)%nat -> nth_error dpls j = Some dpl' -> nave dpl' <= 1.
Proof.
  induction dpls as [|d dpls IH]; intros H; [inversion H|].
  destruct (Z_gt_le_dec (nave d) 1) as [Hd|Hd].
  - exists 0%nat, d. repeat split; trivial. intros j dpl' Hj. lia.
  - inversion H as [? ? Hd'|? ? Hrest]; subst; [lia|].
    destruct (IH Hrest) as (idx & dpl & Hn & Hgt & Hbefore).
    exists (S idx), dpl. repeat split; trivial.
    intros [|j] dpl' Hj Hnth; simpl in Hnth.
    + now inversion Hnth; subst.
    + apply (Hbefore j dpl'); [lia | exact Hnth].
Qed.

Lemma np_array_ok (rows : list (list float)) n :
  Forall (fun r => length r = n) rows -> np_array rows = Ok rows.
Proof.
  intros H. destruct rows as [|r rest]; simpl; trivial.
  inversion H as [|? ? Hr Hrest]; subst.
  replace (forallb _ rest) with true; trivial.
  symmetry. apply forallb_forall. intros r' Hin.
  rewrite Forall_forall in Hrest. rewrite (Hrest r' Hin). apply Nat.eqb_refl.
Qed.

Lemma fold_map2_length (rest : list (list float)) r n :
  length r = n -> Forall (fun r' => length r' = n) rest ->
  length (fold_left (map2 PrimFloat.add) rest r) = n.
Proof.
  intros Hr H. revert r Hr. induction H as [|r' rest Hr' _ IH]; intros r Hr;
    simpl; trivial.
  apply IH. rewrite map2_length; congruence.
Qed.

Lemma nth_map2 {A B C} (f : A -> B -> C) xs ys j da db dc :
  (j < length xs)%nat -> length xs = length ys ->
  nth j (map2 f xs ys) dc = f (nth j xs da) (nth j ys db).
Proof.
  revert ys j. induction xs as [|x xs IH]; intros [|y ys] [|j] Hj Hlen;
    simpl in *; try lia; trivial.
  apply IH; lia.
Qed.

(** The sample number [j] of the rows added in order is the sum in order of
    their samples number [j]. *)
Lemma nth_fold_map2 (rest : list (list float)) r n j :
  (j < n)%nat -> length r = n -> Forall (fun r' => length r' = n) rest ->
  nth j (fold_left (map2 PrimFloat.add) rest r) nan
  = fold_left PrimFloat.add (map (fun r' => nth j r' nan) rest) (nth j r nan).
Proof.
  intros Hj Hr H. revert r Hr. induction H as [|r' rest Hr' _ IH]; intros r Hr;
    simpl; trivial.
  rewrite IH by (rewrite map2_length; congruence).
  now rewrite (nth_map2 _ _ _ _ nan nan) by congruence.
Qed.

Lemma np_mean_axis0_length (a : list (list float)) n :
  a <> [] -> Forall (fun r => length r = n) a -> length (np_mean_axis0 a) = n.
Proof.
  intros Hne H. destruct a as [|r rest]; [congruence|].
  inversion H; subst. unfold np_mean_axis0.
  rewrite length_map. now apply fold_map2_length.
Qed.

Lemma np_mean_axis0_nth (a : list (list float)) n j :
  (j < n)%nat -> Forall (fun r => length r = n) a -> a <> [] ->
  nth_error (np_mean_axis0 a) j = Some (mean (map (fun r => nth j r nan) a)).
Proof.
  intros Hj H Hne. destruct a as [|r rest]; [congruence|].
  inversion H as [|? ? Hr Hrest]; subst. unfold np_mean_axis0, mean.
  rewrite nth_error_map.
  rewrite (nth_error_nth' _ nan) by (rewrite (fold_map2_length _ _ (length r)); trivial).
  cbn [option_map map]. rewrite (nth_fold_map2 _ _ (length r)); trivial.
  cbn [length]. now rewrite length_map.
Qed.

Lemma layer_mean_ok (layer : Dipole -> list float) dpls n :
  Forall (fun dpl => length (layer dpl) = n) dpls ->
  layer_mean layer dpls = Ok (np_mean_axis0 (map layer dpls)).
Proof.
  intros H. unfold layer_mean.
  rewrite (np_array_ok _ n); trivial.
  now apply Forall_map.
Qed.

Lemma layer_mean_nth (layer : Dipole -> list float) dpls n j :
  (j < n)%nat -> dpls <> [] ->
  Forall (fun dpl => length (layer dpl) = n) dpls ->
  nth_error (np_mean_axis0 (map layer dpls)) j = Some (mean (samples_at layer dpls j)).
Proof.
  intros Hj Hne H. unfold samples_at.
  rewrite (np_mean_axis0_nth _ n); trivial.
  - now rewrite map_map.
  - now apply Forall_map.
  - destruct dpls; [congruence | discriminate].
Qed.

Lemma np_c_columns a b c :
  length a = length b -> length b = length c ->
  exists rows,
    np_c_ a b c = Ok rows /\
    length rows = length a /\
    map (fun r => fst (fst r)) rows = a /\
    map (fun r => snd (fst r)) rows = b /\
    map (fun r => snd r) rows = c.
Proof.
  intros Hab Hbc. unfold np_c_.
  rewrite Hab, Hbc, !Nat.eqb_refl. cbn [andb].
  eexists; split; [reflexivity|].
  revert b c Hab Hbc. induction a as [|x a IH]; intros [|y b] [|z c] Hab Hbc;
    simpl in *; try discriminate; auto.
  destruct (IH b c) as (Hl & Ha & Hb & Hc); try lia.
  repeat split; congruence.
Qed.

(** The dipole that [average_dipoles] builds from trials on one grid. *)
Lemma average_dipoles_run dpl0 dpl1 rest t0 t1 ts :
  let dpls := dpl0 :: dpl1 :: rest in
  Forall (fun dpl => nave dpl <= 1) dpls ->
  Forall well_formed dpls ->
  Forall (fun dpl => times dpl = times dpl0) dpls ->
  times dpl0 = t0 :: t1 :: ts ->
  average_dipoles dpls
  = Ok (mkDipole "fAm" (length (times dpl0)) (times dpl0)
                 (np_mean_axis0 (map data_agg dpls))
                 (np_mean_axis0 (map data_L2 dpls))
                 (np_mean_axis0 (map data_L5 dpls))
                 (Z.of_nat (length dpls))
                 (1000 / (t1 - t0))%float).
Proof.
  intros dpls Hnave Hwf Hgrid Hts.
  set (n := length (times dpl0)).
  assert (Hagg : Forall (fun dpl => length (data_agg dpl) = n) dpls).
  { rewrite Forall_forall in *. intros d Hd.
    destruct (Hwf d Hd) as (H & _). now rewrite H, (Hgrid d Hd). }
  assert (HL2 : Forall (fun dpl => length (data_L2 dpl) = n) dpls).
  { rewrite Forall_forall in *. intros d Hd.
    destruct (Hwf d Hd) as (_ & H & _). now rewrite H, (Hgrid d Hd). }
  assert (HL5 : Forall (fun dpl => length (data_L5 dpl) = n) dpls).
  { rewrite Forall_forall in *. intros d Hd.
    destruct (Hwf d Hd) as (_ & _ & H & _). now rewrite H, (Hgrid d Hd). }
  assert (Hne : forall layer : Dipole -> list float, map layer dpls <> [])
    by (intros layer; discriminate).
  unfold average_dipoles.
  change (length dpls <? 2)%nat with false. cbv iota.
  rewrite (check_nave_ok _ _ Hnave).
  rewrite (layer_mean_ok _ _ n Hagg), (layer_mean_ok _ _ n HL2),
    (layer_mean_ok _ _ n HL5).
  cbn [rbind].
  assert (Hlen : forall layer : Dipole -> list float,
             Forall (fun dpl => length (layer dpl) = n) dpls ->
             length (np_mean_axis0 (map layer dpls)) = n).
  { intros layer H. apply np_mean_axis0_length; [apply Hne | now apply Forall_map]. }
  destruct (np_c_columns (np_mean_axis0 (map data_agg dpls))
                         (np_mean_axis0 (map data_L2 dpls))
                         (np_mean_axis0 (map data_L5 dpls)))
    as (rows & Hrows & Hl & Ha & Hb & Hc).
  { now rewrite !Hlen. }
  { now rewrite !Hlen. }
  rewrite Hrows. cbn [rbind]. unfold dpls at 1.
  unfold Dipole_init. rewrite Hts. cbn [rbind set_nave units N times data_agg
    data_L2 data_L5 nave sfreq].
  rewrite Ha, Hb, Hc, Hl, <- Hts, (Hlen _ Hagg).
  reflexivity.
Qed.

(** C3: at least two single trials on one time grid are averaged into a new
    dipole whose layers hold, sample by sample, the arithmetic mean of the
    trials' layers, and whose [nave] is the number of trials; one trial alone
    is refused; and among at least two dipoles, one that is an average
    already is refused with its position, the first such position. *)
Theorem average_dipoles_spec dpls :
  ((2 <= length dpls)%nat ->
   Forall (fun dpl => nave dpl = 1) dpls ->
   Forall well_formed dpls ->
   (forall dpl dpl', In dpl dpls -> In dpl' dpls -> times dpl = times dpl') ->
   exists avg,
     average_dipoles dpls = Ok avg /\
     nave avg = Z.of_nat (length dpls) /\
     (forall dpl, In dpl dpls -> times avg = times dpl) /\
     forall j, (j < length (times avg))%nat ->
       nth_error (data_agg avg) j = Some (mean (samples_at data_agg dpls j)) /\
       nth_error (data_L2 avg) j = Some (mean (samples_at data_L2 dpls j)) /\
       nth_error (data_L5 avg) j = Some (mean (samples_at data_L5 dpls j))) /\
  (length dpls = 1%nat ->
   average_dipoles dpls = Raise (ValueError need_two_dipoles)) /\
  ((2 <= length dpls)%nat ->
   Exists (fun dpl => nave dpl > 1) dpls ->
   exists idx dpl,
     nth_error dpls idx = Some dpl /\ nave dpl > 1 /\
     (forall j dpl', (j < idx)%nat -> nth_error dpls j = Some dpl' -> nave dpl' <= 1) /\
     average_dipoles dpls = Raise (ValueError (already_average idx (nave dpl)))).
Proof.
  split; [| split].
  - intros Hlen Hnave Hwf Hgrid.
    destruct dpls as [|dpl0 [|dpl1 rest]]; simpl in Hlen; try lia.
    set (dpls := dpl0 :: dpl1 :: rest) in *.
    assert (Hgrid0 : Forall (fun dpl => times dpl = times dpl0) dpls).
    { apply Forall_forall. intros d Hd. apply Hgrid; [exact Hd | now left]. }
    assert (Hwf0 : well_formed dpl0) by now inversion Hwf.
    destruct Hwf0 as (_ & _ & _ & H2).
    assert (Hts : exists t0 t1 ts, times dpl0 = t0 :: t1 :: ts).
    { destruct (times dpl0) as [|t0 [|t1 ts]]; simpl in H2; try lia. eauto. }
    destruct Hts as (t0 & t1 & ts & Hts).
    eexists. split.
    + apply (average_dipoles_run dpl0 dpl1 rest t0 t1 ts);
        [ eapply Forall_impl; [| exact Hnave]; simpl; lia
        | exact Hwf | exact Hgrid0 | exact Hts ].
    + cbn [nave times data_agg data_L2 data_L5]. split; [reflexivity|].
      split.
      * intros d Hd. symmetry.
        rewrite Forall_forall in Hgrid0. now apply Hgrid0.
      * intros j Hj.
        assert (Hne : dpls <> []) by discriminate.
        repeat split; apply (layer_mean_nth _ _ (length (times dpl0))); trivial;
          rewrite Forall_forall in *; intros d Hd;
          destruct (Hwf d Hd) as (Ha & Hb & Hc & _);
          rewrite <- (Hgrid0 d Hd); assumption.
  - intros Hlen. unfold average_dipoles. now rewrite Hlen.
  - intros Hlen Hex.
    destruct (first_average dpls Hex) as (idx & dpl & Hn & Hgt & Hbefore).
    exists idx, dpl. repeat split; trivial.
    unfold average_dipoles.
    destruct (Nat.ltb_spec (length dpls) 2); [lia|].
    now rewrite (check_nave_first dpls 0 idx dpl Hn Hgt Hbefore).
Qed.

Lemma average_dipoles_spec_witness :
  (exists avg,
     average_dipoles [three_samples 1 1 2 3; three_samples 1 3 4 5] = Ok avg /\
     nave avg = 2 /\
     nth_error (data_agg avg) 2 = Some ((3 + 5) / 2)%float) /\
  average_dipoles [three_samples 1 1 2 3] = Raise (ValueError need_two_dipoles) /\
  (exists idx dpl,
     nth_error [three_samples 1 1 2 3; three_samples 4 3 4 5] idx = Some dpl /\
     average_dipoles [three_samples 1 1 2 3; three_samples 4 3 4 5]
     = Raise (ValueError (already_average idx (nave dpl)))).
Proof.
  split; [| split].
  - destruct (proj1 (average_dipoles_spec
                       [three_samples 1 1 2 3; three_samples 1 3 4 5]))
      as (avg & Havg & Hn & _ & Hmean).
    + simpl; lia.
    + repeat constructor.
    + repeat constructor; simpl; lia.
    + intros d d' [<-|[<-|[]]] [<-|[<-|[]]]; reflexivity.
    + exists avg. split; [exact Havg|]. split; [exact Hn|].
      assert (Ht : times avg = [0; 0.5; 1]%float).
      { vm_compute in Havg. now inversion Havg. }
      destruct (Hmean 2%nat) as (Hagg & _); [rewrite Ht; simpl; lia|].
      rewrite Hagg. vm_compute. reflexivity.
  - apply (proj1 (proj2 (average_dipoles_spec [three_samples 1 1 2 3]))).
    reflexivity.
  - destruct (proj2 (proj2 (average_dipoles_spec
                       [three_samples 1 1 2 3; three_samples 4 3 4 5])))
      as (idx & dpl & Hn & _ & _ & Hr).
    + simpl; lia.
    + right. left. simpl. lia.
    + exists idx, dpl. split; assumption.
Defined.

(** C9: whatever the units of the trials, the dipole that [average_dipoles]
    returns is in fAm. *)
Theorem average_dipoles_units dpls avg :
  average_dipoles dpls = Ok avg -> units avg = "fAm"%string.
Proof.
  unfold average_dipoles.
  destruct (length dpls <? 2)%nat; [discriminate|].
  destruct (check_nave dpls 0); [| discriminate].
  destruct (layer_mean data_agg dpls); [| discriminate].
  destruct (layer_mean data_L2 dpls); [| discriminate].
  destruct (layer_mean data_L5 dpls); [| discriminate].
  cbn [rbind]. destruct (np_c_ _ _ _); [| discriminate].
  cbn [rbind]. destruct dpls as [|dpl0 rest]; [discriminate|].
  unfold Dipole_init. destruct (times dpl0) as [|t0 [|t1 ts]]; try discriminate.
  cbn [rbind]. intros H. inversion H. reflexivity.
Qed.

Lemma average_dipoles_units_witness :
  units (three_samples 1 1 2 3) = "nAm"%string /\
  units (three_samples 1 3 4 5) = "nAm"%string /\
  exists avg,
    average_dipoles [three_samples 1 1 2 3; three_samples 1 3 4 5] = Ok avg /\
    units avg = "fAm"%string.
Proof.
  split; [reflexivity|]. split; [reflexivity|].
  eexists. split.
  - vm_compute. reflexivity.
  - apply (average_dipoles_units [three_samples 1 1 2 3; three_samples 1 3 4 5]).
    vm_compute. reflexivity.
Defined.

(** ** The float of a length *)

Lemma digits2_pos_lower p : 2 ^ (Z.pos (digits2_pos p) - 1) <= Z.pos p.
Proof.
  induction p as [p IH|p IH|]; cbn [digits2_pos]; [| | simpl; lia].
  - rewrite Pos2Z.inj_succ.
    replace (Z.succ (Z.pos (digits2_pos p)) - 1) with (Z.succ (Z.pos (digits2_pos p) - 1)) by lia.
    rewrite Z.pow_succ_r by lia. lia.
  - rewrite Pos2Z.inj_succ.
    replace (Z.succ (Z.pos (digits2_pos p)) - 1) with (Z.succ (Z.pos (digits2_pos p) - 1)) by lia.
    rewrite Z.pow_succ_r by lia. lia.
Qed.

Lemma shr_1_m mrs : 0 <= shr_m mrs -> shr_m (shr_1 mrs) = shr_m mrs / 2.
Proof.
  destruct mrs as [m r s]. cbn [shr_m]. intros Hm.
  destruct m as [|[p|p|]|p]; cbn [shr_1 shr_m]; try reflexivity; try lia.
  - rewrite Pos2Z.inj_xI. apply Z.div_unique with (r := 1); lia.
  - rewrite Pos2Z.inj_xO. apply Z.div_unique with (r := 0); lia.
Qed.

Lemma iter_shr_1_m k mrs :
  0 <= shr_m mrs -> shr_m (iter_pos shr_1 k mrs) = shr_m mrs / 2 ^ Z.pos k.
Proof.
  revert mrs. induction k as [k IH|k IH|]; intros mrs Hm; cbn [iter_pos].
  - assert (H1 : 0 <= shr_m (shr_1 mrs))
      by (rewrite shr_1_m by lia; apply Z.div_pos; lia).
    assert (H2 : 0 <= shr_m (iter_pos shr_1 k (shr_1 mrs)))
      by (rewrite IH by lia; apply Z.div_pos; lia).
    rewrite IH, IH, shr_1_m by lia.
    rewrite !Z.div_div by lia.
    f_equal.
    replace (Z.pos k~1) with (1 + Z.pos k + Z.pos k) by lia.
    rewrite (Z.pow_add_r 2 (1 + Z.pos k) (Z.pos k)); [| lia | lia].
    rewrite (Z.pow_add_r 2 1 (Z.pos k)); [| lia | lia].
    change (2 ^ 1) with 2. ring.
  - assert (H2 : 0 <= shr_m (iter_pos shr_1 k mrs))
      by (rewrite IH by lia; apply Z.div_pos; lia).
    rewrite IH, IH by lia.
    rewrite !Z.div_div by lia.
    f_equal.
    replace (Z.pos k~0) with (Z.pos k + Z.pos k) by lia.
    rewrite (Z.pow_add_r 2 (Z.pos k) (Z.pos k)); [| lia | lia]. reflexivity.
  - rewrite shr_1_m by lia. reflexivity.
Qed.

(** Shifting a positive mantissa to its format neither empties it nor
    lowers the exponent, when the exponent is above the subnormal range. *)
Lemma shr_fexp_pos m e l :
  - 52 <= e ->
  0 < shr_m (fst (shr_fexp prec emax (Z.pos m) e l)) /\
  e <= snd (shr_fexp prec emax (Z.pos m) e l).
Proof.
  intros He. unfold shr_fexp, shr. cbn [Zdigits2].
  pose proof (digits2_pos_lower m) as Hd.
  set (d := Z.pos (digits2_pos m)) in *.
  assert (Hm : shr_m (shr_record_of_loc (Z.pos m) l) = Z.pos m)
    by (destruct l as [|[]]; reflexivity).
  destruct (fexp prec emax (d + e) - e) as [|k|k] eqn:Hk; cbn [fst snd];
    rewrite ?Hm; try lia.
  rewrite iter_shr_1_m by lia. rewrite Hm.
  unfold fexp, SpecFloat.emin, prec, emax in Hk.
  assert (Hkd : Z.pos k = d - 53) by lia.
  split; [| lia].
  apply Z.div_str_pos. split; [apply Z.pow_pos_nonneg; lia|].
  etransitivity; [| exact Hd].
  apply Z.pow_le_mono_r; lia.
Qed.

Lemma round_nearest_even_pos m l : 0 < m -> 0 < round_nearest_even m l.
Proof.
  intros Hm. unfold round_nearest_even.
  destruct l as [|[]]; try lia. destruct (Z.even m); lia.
Qed.

Lemma binary_round_aux_pos m e :
  - 52 <= e ->
  (exists m' e', binary_round_aux prec emax false (Z.pos m) e loc_Exact
                 = S754_finite false m' e' /\ - 52 <= e') \/
  binary_round_aux prec emax false (Z.pos m) e loc_Exact = S754_infinity false.
Proof.
  intros He. unfold binary_round_aux.
  destruct (shr_fexp_pos m e loc_Exact He) as (Hm1 & He1).
  destruct (shr_fexp prec emax (Z.pos m) e loc_Exact) as [mrs' e'].
  cbn [fst snd] in Hm1, He1.
  pose proof (round_nearest_even_pos (shr_m mrs') (loc_of_shr_record mrs') Hm1) as Hr.
  destruct (round_nearest_even (shr_m mrs') (loc_of_shr_record mrs')) as [|m2|m2];
    try lia.
  destruct (shr_fexp_pos m2 e' loc_Exact ltac:(lia)) as (Hm2 & He2).
  destruct (shr_fexp prec emax (Z.pos m2) e' loc_Exact) as [mrs'' e''].
  cbn [fst snd] in Hm2, He2.
  destruct (shr_m mrs'') as [|m3|m3]; try lia.
  destruct (e'' <=? emax - prec); [left | right; reflexivity].
  exists m3, e''. split; [reflexivity | lia].
Qed.

Lemma binary_normalize_pos p :
  (exists m e, binary_normalize prec emax (Z.pos p) 0 false = S754_finite false m e
               /\ - 52 <= e) \/
  binary_normalize prec emax (Z.pos p) 0 false = S754_infinity false.
Proof.
  unfold binary_normalize, binary_round, shl_align.
  pose proof (Pos2Z.is_pos (digits2_pos p)) as Hd.
  destruct (fexp prec emax (Z.pos (digits2_pos p) + 0) - 0) as [|k|k] eqn:Hk;
    apply binary_round_aux_pos; try lia.
  unfold fexp, SpecFloat.emin, prec, emax in *. lia.
Qed.

(** A length of one at least, within the range of [Py_ssize_t], is one at
    least as a float. *)
Lemma float_of_len_ge_1 n :
  (1 <= n)%nat -> Z.of_nat n < 2 ^ 63 -> float_le 1 (float_of_len n).
Proof.
  intros Hn Hmax. unfold float_le, float_of_len.
  pose proof (Prim2SF_valid (of_uint63 (of_Z (Z.of_nat n)))) as Hv.
  rewrite of_uint63_spec, of_Z_spec in *.
  rewrite Z.mod_small in * by (change wB with (2 ^ 63); lia).
  destruct (Z.of_nat n) as [|p|p] eqn:Hp; try lia.
  exists (1, - 52, 4503599627370496).
  destruct (binary_normalize_pos p) as [(m & e & Hx & He)|Hx]; rewrite Hx in *.
  - exists (1, e, Z.pos m). split; [reflexivity|]. split; [reflexivity|].
    unfold key_lt. cbn [fst snd].
    destruct (Z.eq_dec e (- 52)) as [->|Hne]; [| left; right; lia].
    cbn [valid_binary] in Hv. unfold bounded, canonical_mantissa in Hv.
    apply andb_prop in Hv. destruct Hv as (Hc & _).
    apply Z.eqb_eq in Hc. unfold fexp, SpecFloat.emin, prec, emax in Hc.
    pose proof (digits2_pos_lower m) as Hd.
    assert (Hd53 : Z.pos (digits2_pos m) = 53) by lia.
    rewrite Hd53 in Hd. change (2 ^ (53 - 1)) with 4503599627370496 in Hd.
    destruct (Z.eq_dec (Z.pos m) 4503599627370496) as [->|]; [right; reflexivity|].
    left. right. split; [reflexivity|]. right. split; [reflexivity | lia].
  - exists (2, 0, 0). split; [reflexivity|]. split; [reflexivity|].
    left. left. cbn. lia.
Qed.

(** ** _check_nfft *)

(** The segment length [_check_nfft] settles on when one is requested: the
    smallest of the request, the FFT length and the number of samples. *)
Lemma _check_nfft_segment n n_fft p n_overlap :
  _check_nfft n n_fft (Some p) n_overlap
  = if n_overlap >=? Z.min (Z.min p n_fft) n
    then Raise (ValueError (n_overlap_too_long n_overlap (Z.min (Z.min p n_fft) n)))
    else Ok (n_fft, Z.min (Z.min p n_fft) n, n_overlap).
Proof.
  unfold _check_nfft.
  replace (if p >? n_fft then n_fft else p) with (Z.min p n_fft)
    by (destruct (Z.gtb_spec p n_fft); lia).
  replace (if Z.min p n_fft >? n then n else Z.min p n_fft)
    with (Z.min (Z.min p n_fft) n)
    by (destruct (Z.gtb_spec (Z.min p n_fft) n); lia).
  reflexivity.
Qed.

(** C4 (amended): a requested segment length beyond the number [n] of
    samples is clipped to the smaller of [n_fft] and [n], hence to [n] when
    [n_fft >= n]; the call returns when [n_overlap] is below the clipped
    length and raises when it is not. *)
Theorem _check_nfft_clipped n n_fft p n_overlap :
  p > n ->
  (n_overlap < Z.min n_fft n ->
   _check_nfft n n_fft (Some p) n_overlap = Ok (n_fft, Z.min n_fft n, n_overlap)) /\
  (n_overlap >= Z.min n_fft n ->
   _check_nfft n n_fft (Some p) n_overlap
   = Raise (ValueError (n_overlap_too_long n_overlap (Z.min n_fft n)))) /\
  (n_fft >= n -> Z.min n_fft n = n).
Proof.
  intros Hp. rewrite _check_nfft_segment.
  replace (Z.min (Z.min p n_fft) n) with (Z.min n_fft n) by lia.
  repeat split; intros H.
  - destruct (Z.geb_spec n_overlap (Z.min n_fft n)); [lia | reflexivity].
  - destruct (Z.geb_spec n_overlap (Z.min n_fft n)); [reflexivity | lia].
  - lia.
Qed.

Lemma _check_nfft_clipped_witness :
  _check_nfft 1000 (2 ^ 14) (Some (2 ^ 12)) 0 = Ok (2 ^ 14, 1000, 0) /\
  _check_nfft 1000 (2 ^ 14) (Some (2 ^ 12)) 1000
  = Raise (ValueError (n_overlap_too_long 1000 1000)).
Proof.
  destruct (_check_nfft_clipped 1000 (2 ^ 14) (2 ^ 12) 0) as (H & _ & _); [lia|].
  destruct (_check_nfft_clipped 1000 (2 ^ 14) (2 ^ 12) 1000) as (_ & H' & _); [lia|].
  split; [apply H | apply H']; vm_compute; congruence.
Defined.

(** The Welch plot hands the number of samples of the segment to the check,
    and the clipped segment length to the external routine. *)
Lemma plot_psd_welch_clipped
    (welch : list float -> float -> Z -> Z -> Z -> result (list float * list float))
    dpl n_fft n_overlap p tmin tmax layer data times' :
  _get_plot_data dpl layer tmin tmax 1 = Ok (data, times') ->
  p > Z.of_nat (length times') ->
  n_overlap < Z.min n_fft (Z.of_nat (length times')) ->
  plot_psd_welch welch dpl n_fft n_overlap (Some p) tmin tmax layer
  = welch data (sfreq dpl) n_fft n_overlap (Z.min n_fft (Z.of_nat (length times'))).
Proof.
  intros Hdata Hp Hov. unfold plot_psd_welch. rewrite Hdata. cbn [rbind fst snd].
  rewrite _check_nfft_segment.
  replace (Z.min (Z.min p n_fft) (Z.of_nat (length times')))
    with (Z.min n_fft (Z.of_nat (length times'))) by lia.
  destruct (Z.geb_spec n_overlap (Z.min n_fft (Z.of_nat (length times'))));
    [lia | reflexivity].
Qed.

(** C4 as stated fails: with 100 samples, [n_fft = 50] and a requested
    segment of 200 samples, the segment becomes 50 samples long, not 100, and
    an overlap of 60 samples, below 100, is refused. *)
Lemma _check_nfft_clipped_below_n :
  (200 >? 100) = true /\
  _check_nfft 100 50 (Some 200) 0 = Ok (50, 50, 0) /\
  (60 <? 100) = true /\
  _check_nfft 100 50 (Some 200) 60 = Raise (ValueError (n_overlap_too_long 60 50)).
Proof. repeat split. Qed.

(** ** smooth *)

Section Smooth_properties.

Variable hamming : float -> result (list float).
Variable convolve_same : list float -> list float -> result (list float).
Variable savgol_filter : list float -> Z -> Z -> result (list float).

(** A window of one sample at most is never longer than a signal that has a
    sample. *)
Lemma short_window_fits winsz n :
  (winsz <=? 1)%float = true -> (1 <= n)%nat -> Z.of_nat n < 2 ^ 63 ->
  gtb winsz (float_of_len n) = false.
Proof.
  intros Hw Hn Hmax. unfold gtb.
  destruct (float_of_len n <? winsz)%float eqn:E; trivial.
  apply ltb_float_lt in E. apply leb_float_le in Hw.
  pose proof (float_of_len_ge_1 n Hn Hmax) as H1.
  exfalso. apply (float_lt_irrefl winsz).
  eapply float_le_lt_trans; [| exact E].
  eapply float_le_trans; eassumption.
Qed.

(** C6: with the window method, a window of [winsz <= 1] samples makes the
    call return with the object as it was, and a window longer than the
    signal makes it raise with the object as it was. *)
Theorem smooth_window_guards window_len self :
  let winsz := (1e-3 * window_len * sfreq self)%float in
  let n := length (times self) in
  ((winsz <=? 1)%float = true -> (1 <= n)%nat -> Z.of_nat n < 2 ^ 63 ->
   smooth hamming convolve_same savgol_filter (Some window_len) None self
   = (self, Ok ret_None)) /\
  (gtb winsz (float_of_len n) = true ->
   smooth hamming convolve_same savgol_filter (Some window_len) None self
   = (self, Raise (ValueError (window_too_long winsz n)))).
Proof.
  intros winsz n. unfold smooth, bind, getattr, raise, ret. fold winsz n.
  split.
  - intros Hw Hn Hmax. rewrite (short_window_fits _ _ Hw Hn Hmax).
    now rewrite Hw.
  - intros Hlong. now rewrite Hlong.
Qed.

(** C7: with the cutoff method, a negative [h_freq] and an [h_freq] of half
    the sampling rate or more, half the rate itself included, make the call
    raise with the object as it was. *)
Theorem smooth_h_freq_rejected h_freq self :
  (h_freq <? 0)%float = true \/ geb h_freq (sfreq self / 2)%float = true ->
  smooth hamming convolve_same savgol_filter None (Some h_freq) self
  = (self, Raise (ValueError (if (h_freq <? 0)%float then h_freq_negative
                              else h_freq_nyquist))).
Proof.
  intros H. unfold smooth, bind, getattr, raise.
  destruct (h_freq <? 0)%float; [reflexivity|].
  destruct H as [H|H]; [discriminate|].
  destruct (gtb h_freq (0.5 * sfreq self)); [reflexivity|].
  cbn [for_each data_keys]. unfold filter_key, bind, getitem, lift.
  cbn [data_get String.eqb Ascii.eqb Bool.eqb].
  unfold _savgol_filter. now rewrite H.
Qed.

End Smooth_properties.

Lemma smooth_window_guards_witness :
  smooth hamming_ones convolve_id savgol_id (Some 0%float) None two_samples
  = (two_samples, Ok ret_None) /\
  smooth hamming_ones convolve_id savgol_id (Some 5%float) None two_samples
  = (two_samples,
     Raise (ValueError (window_too_long (1e-3 * 5 * 1000)%float 2))).
Proof.
  split.
  - apply (proj1 (smooth_window_guards hamming_ones convolve_id savgol_id
                    0%float two_samples)).
    + vm_compute. reflexivity.
    + simpl. lia.
    + simpl. lia.
  - apply (proj2 (smooth_window_guards hamming_ones convolve_id savgol_id
                    5%float two_samples)).
    vm_compute. reflexivity.
Defined.

Lemma smooth_h_freq_rejected_witness :
  smooth hamming_ones convolve_id savgol_id None (Some (-1)%float) two_samples
  = (two_samples, Raise (ValueError h_freq_negative)) /\
  smooth hamming_ones convolve_id savgol_id None (Some 500%float) two_samples
  = (two_samples, Raise (ValueError h_freq_nyquist)) /\
  smooth hamming_ones convolve_id savgol_id None (Some 700%float) two_samples
  = (two_samples, Raise (ValueError h_freq_nyquist)).
Proof.
  split; [| split].
  - apply (smooth_h_freq_rejected hamming_ones convolve_id savgol_id
             (-1)%float two_samples).
    left. vm_compute. reflexivity.
  - apply (smooth_h_freq_rejected hamming_ones convolve_id savgol_id
             500%float two_samples).
    right. vm_compute. reflexivity.
  - apply (smooth_h_freq_rejected hamming_ones convolve_id savgol_id
             700%float two_samples).
    right. vm_compute. reflexivity.
Defined.

(** The cutoff method at work below half the sampling rate: the window of
    the fit for 30 Hz at 1000 Hz has [(33 // 2) * 2 + 1 = 33] samples. *)
Example smooth_h_freq_30 :
  smooth hamming_ones convolve_id (fun x w p => if (w =? 33) && (p =? 5) then Ok x else Raise (ExternalError 0))
         None (Some 30%float) two_samples
  = (two_samples, Ok ret_self).
Proof. vm_compute. reflexivity. Qed.

(** ** _get_plot_data *)

Lemma getmask_app {A} (a b : list A) (m m' : list bool) :
  length a = length m ->
  getmask (a ++ b) (m ++ m') = (getmask a m ++ getmask b m')%list.
Proof.
  revert m. induction a as [|x a IH]; intros [|[] m] H; simpl in *;
    try discriminate.
  - now destruct b.
  - rewrite IH by lia. reflexivity.
  - apply IH. lia.
Qed.

Lemma getmask_all_true {A B} (f : B -> bool) (xs : list A) (ts : list B) :
  length xs = length ts -> (forall t, In t ts -> f t = true) ->
  getmask xs (map f ts) = xs.
Proof.
  revert ts. induction xs as [|x xs IH]; intros [|t ts] H Hf; simpl in *;
    try discriminate; trivial.
  rewrite (Hf t) by now left. rewrite IH; auto.
Qed.

Lemma getmask_last_false {A} (xs : list A) (m : list bool) :
  length xs = S (length m) ->
  getmask xs (m ++ [false]) = getmask (removelast xs) m.
Proof.
  intros H.
  assert (Hne : xs <> []) by (destruct xs; [discriminate | congruence]).
  destruct (exists_last Hne) as (xs' & xl & ->).
  rewrite removelast_last.
  rewrite length_app in H. simpl in H.
  rewrite getmask_app by lia. simpl. apply app_nil_r.
Qed.

Lemma length_removelast_S {A} (l : list A) :
  l <> [] -> S (length (removelast l)) = length l.
Proof.
  intros H. destruct (exists_last H) as (l' & a & ->).
  rewrite removelast_last, length_app. simpl. lia.
Qed.

Lemma increasing_tail a l :
  strictly_increasing (a :: l) = true -> strictly_increasing l = true.
Proof.
  destruct l as [|b l]; [reflexivity|]. cbn [strictly_increasing].
  intros H. now apply andb_prop in H.
Qed.

(** In increasing times the first is below all the later ones. *)
Lemma increasing_head_lt a l t :
  strictly_increasing (a :: l) = true -> In t l -> float_lt a t.
Proof.
  revert a. induction l as [|b l IH]; intros a H Hin; [destruct Hin|].
  cbn [strictly_increasing] in H. apply andb_prop in H. destruct H as (Hab & Hrest).
  apply ltb_float_lt in Hab.
  destruct Hin as [<-|Hin]; trivial.
  eapply float_lt_trans; [exact Hab|]. now apply IH.
Qed.

Lemma In_removelast {A} (l : list A) x : In x (removelast l) -> In x l.
Proof.
  induction l as [|y l IH]; [simpl; tauto|].
  destruct l as [|z l]; [simpl; tauto|].
  change (removelast (y :: z :: l)) with (y :: removelast (z :: l)).
  intros [H|H]; [now left | right; now apply IH].
Qed.

Lemma last_In {A} (l : list A) d : l <> [] -> In (last l d) l.
Proof.
  induction l as [|y [|z l] IH]; intros H; [congruence | now left |].
  right. apply IH. discriminate.
Qed.

(** ... and every one but the last is below the last. *)
Lemma increasing_lt_last a l t d :
  strictly_increasing (a :: l) = true -> In t (removelast (a :: l)) ->
  float_lt t (last (a :: l) d).
Proof.
  revert a. induction l as [|b l IH]; intros a H Hin; [destruct Hin|].
  change (removelast (a :: b :: l)) with (a :: removelast (b :: l)) in Hin.
  change (last (a :: b :: l) d) with (last (b :: l) d).
  destruct Hin as [<-|Hin].
  - apply (increasing_head_lt a (b :: l)); trivial.
    apply last_In. discriminate.
  - apply IH; trivial. now apply increasing_tail in H.
Qed.

Lemma increasing_first_le a l t :
  strictly_increasing (a :: l) = true -> In t (removelast (a :: l)) ->
  float_le a t.
Proof.
  intros H Hin. destruct l as [|b l]; [destruct Hin|].
  change (removelast (a :: b :: l)) with (a :: removelast (b :: l)) in Hin.
  destruct Hin as [<-|Hin].
  - apply (float_lt_le_refl_l a b).
    apply (increasing_head_lt a (b :: l)); [exact H | now left].
  - apply float_lt_le. apply (increasing_head_lt a (b :: l)); trivial.
    now apply In_removelast.
Qed.

(** The upper bound of the window is never above the last time. *)
Lemma last_not_below_plot_tmax t_last tmax :
  (t_last <? match tmax with
             | Some tmax => py_min tmax t_last
             | None => t_last
             end)%float = false.
Proof.
  assert (Hirr : (t_last <? t_last)%float = false).
  { destruct (t_last <? t_last)%float eqn:E; trivial.
    apply ltb_float_lt in E. now apply float_lt_irrefl in E. }
  destruct tmax as [tmax|]; trivial.
  unfold py_min. destruct (t_last <? tmax)%float eqn:E; trivial.
Qed.

(** C10: whatever the window, the sample at the last time is left out of
    what [_get_plot_data] returns; and on strictly increasing times with no
    window, all the samples but the last are returned, one fewer than
    there are times. *)
Theorem _get_plot_data_drops_last dpl layer x scaling :
  strictly_increasing (times dpl) = true ->
  (1 <= length (times dpl))%nat ->
  data_get dpl layer = Ok x ->
  length x = length (times dpl) ->
  (forall tmin tmax,
     exists mask,
       S (length mask) = length (times dpl) /\
       _get_plot_data dpl layer tmin tmax scaling
       = Ok (map (fun v => scaling * v)%float (getmask (removelast x) mask),
             getmask (removelast (times dpl)) mask)) /\
  _get_plot_data dpl layer None None scaling
  = Ok (map (fun v => scaling * v)%float (removelast x), removelast (times dpl)) /\
  S (length (removelast (times dpl))) = length (times dpl) /\
  S (length (removelast x)) = length (times dpl).
Proof.
  intros Hinc Hlen Hx Hlx.
  destruct (times dpl) as [|t0 ts] eqn:Hts; [simpl in Hlen; lia|].
  assert (Hne : t0 :: ts <> []) by discriminate.
  assert (Hsplit : t0 :: ts = (removelast (t0 :: ts) ++ [last (t0 :: ts) t0])%list)
    by now apply app_removelast_last.
  assert (Hl : S (length (removelast (t0 :: ts))) = length (t0 :: ts))
    by now apply length_removelast_S.
  assert (Hgen : forall tmin tmax,
    exists mask,
      S (length mask) = length (t0 :: ts) /\
      mask = map (fun t =>
                    geb t match tmin with Some tmin => py_max tmin t0 | None => t0 end
                    && (t <? match tmax with
                             | Some tmax => py_min tmax (last (t0 :: ts) t0)
                             | None => last (t0 :: ts) t0
                             end)%float)
                 (removelast (t0 :: ts)) /\
      _get_plot_data dpl layer tmin tmax scaling
      = Ok (map (fun v => scaling * v)%float (getmask (removelast x) mask),
            getmask (removelast (t0 :: ts)) mask)).
  { intros tmin tmax. eexists. split; [| split; [reflexivity|]].
    - rewrite length_map. exact Hl.
    - unfold _get_plot_data. rewrite Hts, Hx. cbn [rbind].
      rewrite length_map, Hlx, Nat.eqb_refl.
      set (f := fun t : float => (geb t _ && _)%bool).
      assert (Hf : f (last (t0 :: ts) t0) = false).
      { unfold f. rewrite last_not_below_plot_tmax. apply andb_false_r. }
      assert (Hmask : map f (t0 :: ts)
                      = (map f (removelast (t0 :: ts)) ++ [false])%list).
      { rewrite Hsplit at 1. rewrite map_app. cbn [map]. now rewrite Hf. }
      rewrite Hmask.
      rewrite !getmask_last_false by (rewrite length_map; lia).
      reflexivity. }
  assert (Hl' : S (length (removelast x)) = length x).
  { apply length_removelast_S. destruct x; [simpl in Hlx; lia | discriminate]. }
  split; [| split; [| split; [exact Hl | now rewrite <- Hlx]]].
  - intros tmin tmax. destruct (Hgen tmin tmax) as (mask & Hm & _ & Hr).
    exists mask. split; assumption.
  - destruct (Hgen None None) as (mask & _ & Hmask & Hr).
    rewrite Hr, Hmask.
    assert (Hall : forall t, In t (removelast (t0 :: ts)) ->
              geb t t0 && (t <? last (t0 :: ts) t0)%float = true).
    { intros t Hin. apply andb_true_intro. split.
      - unfold geb. apply leb_float_le. now apply (increasing_first_le t0 ts).
      - apply ltb_float_lt. now apply increasing_lt_last. }
    rewrite !getmask_all_true; trivial. lia.
Qed.

Lemma _get_plot_data_drops_last_witness :
  _get_plot_data four_samples "agg" None None 1
  = Ok ([1 * 5; 1 * 6; 1 * 7]%float, [0; 1; 40]%float) /\
  (exists mask,
     S (length mask) = 4%nat /\
     _get_plot_data four_samples "agg" (Some 0.5%float) (Some 900%float) 1
     = Ok (map (fun v => 1 * v)%float (getmask [5; 6; 7]%float mask),
           getmask [0; 1; 40]%float mask)).
Proof.
  destruct (_get_plot_data_drops_last four_samples "agg" [5; 6; 7; 8]%float 1%float)
    as (Hany & Hnone & _); try reflexivity.
  - simpl. lia.
  - split; [exact Hnone | exact (Hany (Some 0.5%float) (Some 900%float))].
Defined.

(** A window that reaches beyond the last time still leaves the last sample
    out. *)
Example _get_plot_data_window :
  _get_plot_data four_samples "agg" (Some 0.5%float) (Some 900%float) 1
  = Ok ([6; 7]%float, [1; 40]%float).
Proof. vm_compute. reflexivity. Qed.

(** ** Slices *)

Lemma skipn_nth_error_cons {A} (l : list A) i x :
  nth_error l i = Some x -> skipn i l = x :: skipn (S i) l.
Proof.
  revert i. induction l as [|y l IH]; intros [|i] H; simpl in *; try discriminate.
  - now inversion H.
  - now apply IH.
Qed.

Lemma take_app {A} (l : list A) a b :
  take l (a ++ b) = (take l a ++ take l b)%list.
Proof. apply flat_map_app. Qed.

(** The items at [s], [s + 1], ... *)
Lemma take_upwards {A} (l : list A) s n :
  (s + n <= length l)%nat ->
  take l (map (fun k => Z.of_nat s + Z.of_nat k * 1) (seq 0 n))
  = firstn n (skipn s l).
Proof.
  revert s. induction n as [|n IH]; intros s H; [reflexivity|].
  destruct (nth_error l s) as [x|] eqn:Hx;
    [| apply nth_error_None in Hx; lia].
  rewrite (skipn_nth_error_cons _ _ _ Hx). cbn [firstn].
  rewrite <- (IH (S s)) by lia.
  cbn [seq map]. rewrite <- seq_shift, map_map.
  unfold take at 1. cbn [flat_map].
  replace (Z.to_nat (Z.of_nat s + Z.of_nat 0 * 1)) with s by lia.
  rewrite Hx. cbn [app]. f_equal. unfold take. f_equal.
  apply map_ext. intros k. lia.
Qed.

(** The items at [hi], [hi - 1], ... *)
Lemma take_downwards {A} (l : list A) hi n :
  (hi < length l)%nat -> (n <= S hi)%nat ->
  take l (map (fun k => Z.of_nat hi + Z.of_nat k * -1) (seq 0 n))
  = rev (firstn n (skipn (S hi - n) l)).
Proof.
  intros Hhi. induction n as [|n IH]; intros Hn; [reflexivity|].
  rewrite seq_S, map_app, take_app, IH by lia.
  cbn [map plus]. unfold take at 1. cbn [flat_map].
  replace (Z.to_nat (Z.of_nat hi + Z.of_nat n * -1)) with (hi - n)%nat by lia.
  destruct (nth_error l (hi - n)) as [x|] eqn:Hx;
    [| apply nth_error_None in Hx; lia].
  replace (S hi - S n)%nat with (hi - n)%nat by lia.
  rewrite (skipn_nth_error_cons _ _ _ Hx). cbn [firstn rev app].
  replace (S (hi - n)) with (S hi - n)%nat by lia.
  reflexivity.
Qed.

(** [data[-1:0:-1]]: the signal without its first sample, reversed. *)
Lemma getslice_mirror_left {A} (data : list A) :
  getslice data (Some (-1)) (Some 0) (-1) = Ok (rev (tl data)).
Proof.
  unfold getslice, slice_indices, slice_start, slice_stop, adjust_index,
    slice_length.
  cbn [Z.eqb Z.ltb Z.compare Z.opp].
  set (len := Z.of_nat (length data)).
  destruct data as [|x data]; [reflexivity|].
  assert (Hlen : len = Z.of_nat (S (length data))) by reflexivity.
  destruct (Z.ltb_spec (-1 + len) 0); [lia|].
  destruct (Z.leb_spec len 0); [lia|].
  destruct (Z.ltb_spec 0 (-1 + len)).
  - replace (-1 + len) with (Z.of_nat (length data)) by lia.
    replace (Z.to_nat ((Z.of_nat (length data) - 0 - 1) / 1 + 1))
      with (length data) by (rewrite Z.div_1_r; lia).
    rewrite take_downwards by (simpl; lia).
    replace (S (length data) - length data)%nat with 1%nat by lia.
    cbn [skipn tl]. now rewrite firstn_all.
  - destruct data; [reflexivity | simpl in Hlen; lia].
Qed.

(** [data[-2::-1]]: the signal without its last sample, reversed. *)
Lemma getslice_mirror_right {A} (data : list A) :
  getslice data (Some (-2)) None (-1) = Ok (rev (removelast data)).
Proof.
  unfold getslice, slice_indices, slice_start, slice_stop, adjust_index,
    slice_length.
  cbn [Z.eqb Z.ltb Z.compare Z.opp].
  set (len := Z.of_nat (length data)).
  rewrite removelast_firstn_len.
  destruct (Z.ltb_spec (-2 + len) 0) as [Hs|Hs].
  - destruct data as [|x [|y data]]; try reflexivity.
    unfold len in Hs. simpl length in Hs. lia.
  - destruct (Z.ltb_spec (-1) (-2 + len)); [| lia].
    destruct data as [|x data]; [unfold len in Hs; simpl in Hs; lia|].
    assert (Hlen : len = Z.of_nat (S (length data))) by reflexivity.
    replace (-2 + len) with (Z.of_nat (length data - 1)) by lia.
    replace (Z.to_nat ((Z.of_nat (length data - 1) - -1 - 1) / 1 + 1))
      with (length data) by (rewrite Z.div_1_r; lia).
    rewrite take_downwards by (simpl; lia).
    replace (S (length data - 1) - length data)%nat with 0%nat by lia.
    reflexivity.
Qed.

(** [row[n - 1:2 * n - 1]] on a row of [3 * n - 2] items: the [n] items in
    the middle. *)
Lemma crop_middle {A} (row : list A) n :
  (1 <= n)%nat -> length row = (n - 1 + (n + (n - 1)))%nat ->
  take row (slice_indices (Z.of_nat (length row))
                          (Some (Z.of_nat n - 1)) (Some (2 * Z.of_nat n - 1)) 1)
  = firstn n (skipn (n - 1) row).
Proof.
  intros Hn Hlen.
  unfold slice_indices, slice_start, slice_stop, adjust_index, slice_length.
  rewrite Hlen. cbn [Z.ltb Z.compare].
  destruct (Z.ltb_spec (Z.of_nat n - 1) 0); [lia|].
  destruct (Z.leb_spec (Z.of_nat (n - 1 + (n + (n - 1)))) (Z.of_nat n - 1)); [lia|].
  destruct (Z.ltb_spec (2 * Z.of_nat n - 1) 0); [lia|].
  set (stop := if Z.of_nat (n - 1 + (n + (n - 1))) <=? 2 * Z.of_nat n - 1
               then Z.of_nat (n - 1 + (n + (n - 1))) else 2 * Z.of_nat n - 1).
  assert (Hstop : stop = 2 * Z.of_nat n - 1).
  { unfold stop. destruct (Z.leb_spec (Z.of_nat (n - 1 + (n + (n - 1))))
                                      (2 * Z.of_nat n - 1)); lia. }
  rewrite Hstop.
  destruct (Z.ltb_spec (Z.of_nat n - 1) (2 * Z.of_nat n - 1)); [| lia].
  replace (Z.to_nat ((2 * Z.of_nat n - 1 - (Z.of_nat n - 1) - 1) / 1 + 1))
    with n by (rewrite Z.div_1_r; lia).
  replace (Z.of_nat n - 1) with (Z.of_nat (n - 1)) by lia.
  apply take_upwards. lia.
Qed.

Lemma crop_middle_app {A} (left data right : list A) :
  firstn (length data) (skipn (length left) (left ++ data ++ right)) = data.
Proof.
  rewrite skipn_app, skipn_all, Nat.sub_diag. cbn [app skipn].
  rewrite firstn_app, firstn_all, Nat.sub_diag. cbn [firstn]. apply app_nil_r.
Qed.

(** ** plot_tfr_morlet *)

Lemma tfr_square_time_axis data sfreq freqs n_cycles power :
  tfr_square data sfreq freqs n_cycles = Ok power ->
  Forall (fun row => length row = length data) power.
Proof.
  intros H. inversion H. apply Forall_forall. intros row Hin.
  apply in_map_iff in Hin. destruct Hin as (f & <- & _). apply length_map.
Qed.

Lemma _get_plot_data_lengths dpl layer tmin tmax scaling data times' :
  _get_plot_data dpl layer tmin tmax scaling = Ok (data, times') ->
  length data = length times'.
Proof.
  unfold _get_plot_data. destruct (times dpl) as [|t0 ts]; [discriminate|].
  destruct (data_get dpl layer) as [x|]; [| discriminate]. cbn [rbind].
  set (mask := map _ (t0 :: ts)).
  destruct (Nat.eqb_spec (length mask) (length x)) as [Hl|]; [| discriminate].
  set (d := map _ (getmask x mask)). set (t := getmask (t0 :: ts) mask).
  intros H.
  assert (Hd : d = data) by congruence.
  assert (Ht : t = times') by congruence.
  rewrite <- Hd, <- Ht. unfold d, t. rewrite length_map.
  apply getmask_length_eq; [now symmetry|].
  unfold mask. now rewrite length_map.
Qed.

Section Morlet_properties.

Variable decimate : list float -> pyval -> result (list float).
Variable tfr_array_morlet :
  list float -> float -> list float -> list float -> result (list (list float)).

(** The transform keeps the time axis of the signal it is given. *)
Hypothesis tfr_time_axis :
  forall data sfreq freqs n_cycles power,
    tfr_array_morlet data sfreq freqs n_cycles = Ok power ->
    Forall (fun row => length row = length data) power.

(** Without decimation the segment and its times have one length. *)
Lemma tfr_segment_lengths dpl tmin tmax layer data times' sf :
  tfr_segment decimate dpl tmin tmax layer PyNone = Ok (data, times', sf) ->
  length data = length times'.
Proof.
  unfold tfr_segment.
  destruct (_get_plot_data dpl layer tmin tmax 1) as [[d t]|] eqn:E;
    [| discriminate].
  cbn [rbind fst snd]. intros H. inversion H; subst.
  now apply _get_plot_data_lengths in E.
Qed.

Lemma pad_sides padding data :
  padding = PyStr "zeros" \/ padding = PyStr "mirror" ->
  (1 <= length data)%nat ->
  exists left right,
    pad padding data = Ok (left ++ data ++ right)%list /\
    length left = (length data - 1)%nat /\
    length right = (length data - 1)%nat /\
    (padding = PyStr "zeros" ->
     left = repeat 0%float (length data - 1) /\
     right = repeat 0%float (length data - 1)) /\
    (padding = PyStr "mirror" ->
     left = rev (tl data) /\ right = rev (removelast data)).
Proof.
  intros [->| ->] HL.
  - exists (repeat 0%float (length data - 1)), (repeat 0%float (length data - 1)).
    unfold pad, np_zeros. cbn [String.eqb Ascii.eqb Bool.eqb].
    destruct (Z.ltb_spec (Z.of_nat (length data) - 1) 0); [lia|].
    replace (Z.to_nat (Z.of_nat (length data) - 1)) with (length data - 1)%nat by lia.
    rewrite repeat_length. repeat split; trivial; discriminate.
  - exists (rev (tl data)), (rev (removelast data)).
    unfold pad. cbn [String.eqb Ascii.eqb Bool.eqb].
    rewrite getslice_mirror_left, getslice_mirror_right. cbn [rbind].
    rewrite !length_rev, removelast_firstn_len, length_firstn.
    destruct data as [|x data]; [simpl in HL; lia|]. cbn [tl length].
    repeat split; trivial; try lia; discriminate.
Qed.

(** C5: a segment of [L >= 1] samples is padded by [L - 1] samples on
    either side, zeros or its mirror image as selected, before it is
    transformed, and every row of the power that is plotted is cut back to
    the [L] columns under the segment, as many as there are times. *)
Theorem plot_tfr_morlet_pad_crop
    dpl freqs n_cycles tmin tmax layer decim padding data times' sf power :
  padding = PyStr "zeros" \/ padding = PyStr "mirror" ->
  tfr_segment decimate dpl tmin tmax layer decim = Ok (data, times', sf) ->
  length data = length times' ->
  (1 <= length data)%nat ->
  rbind (pad padding data)
        (fun padded => tfr_array_morlet padded sf freqs n_cycles) = Ok power ->
  exists left right,
    pad padding data = Ok (left ++ data ++ right)%list /\
    length left = (length data - 1)%nat /\
    length right = (length data - 1)%nat /\
    (padding = PyStr "zeros" ->
     left = repeat 0%float (length data - 1) /\
     right = repeat 0%float (length data - 1)) /\
    (padding = PyStr "mirror" ->
     left = rev (tl data) /\ right = rev (removelast data)) /\
    plot_tfr_morlet decimate tfr_array_morlet dpl freqs n_cycles tmin tmax layer
                    decim padding
    = Ok (times', freqs,
          map (fun row => firstn (length data) (skipn (length data - 1) row)) power) /\
    Forall (fun row => length row = length times')
           (map (fun row => firstn (length data) (skipn (length data - 1) row))
                power).
Proof.
  intros Hpad Hseg Hlen HL Hpower.
  destruct (pad_sides padding data Hpad HL)
    as (left & right & Hp & Hleft & Hright & Hz & Hm).
  exists left, right. repeat (split; [assumption|]).
  rewrite Hp in Hpower. cbn [rbind] in Hpower.
  pose proof (tfr_time_axis _ _ _ _ _ Hpower) as Hrows.
  assert (Hrows' : forall row, In row power ->
            length row = (length data - 1 + (length data + (length data - 1)))%nat).
  { intros row Hin. rewrite Forall_forall in Hrows. rewrite (Hrows row Hin).
    rewrite !length_app. lia. }
  split.
  - unfold plot_tfr_morlet. rewrite Hseg. cbn [rbind fst snd].
    rewrite Hp. cbn [rbind]. rewrite Hpower. cbn [rbind].
    assert (Hcrop : crop padding (Z.of_nat (length times')) power
                    = Ok (map (fun row => firstn (length data)
                                            (skipn (length data - 1) row)) power)).
    { unfold crop. destruct Hpad as [->| ->]; f_equal; apply map_ext_in;
        intros row Hin; rewrite <- Hlen; apply crop_middle; auto. }
    now rewrite Hcrop.
  - apply Forall_forall. intros row Hin. apply in_map_iff in Hin.
    destruct Hin as (row' & <- & Hin).
    rewrite length_firstn, length_skipn, (Hrows' row' Hin). lia.
Qed.

End Morlet_properties.

Lemma plot_tfr_morlet_pad_crop_witness :
  exists left right,
    pad (PyStr "mirror") [1 * 5; 1 * 6; 1 * 7]%float
    = Ok (left ++ [1 * 5; 1 * 6; 1 * 7]%float ++ right)%list /\
    length left = 2%nat /\
    length right = 2%nat /\
    (PyStr "mirror" = PyStr "zeros" ->
     left = repeat 0%float 2 /\ right = repeat 0%float 2) /\
    (PyStr "mirror" = PyStr "mirror" ->
     left = rev (tl [1 * 5; 1 * 6; 1 * 7]%float) /\
     right = rev (removelast [1 * 5; 1 * 6; 1 * 7]%float)) /\
    plot_tfr_morlet decimate_plain tfr_square four_samples [10; 20]%float [7]%float
                    None None "agg" PyNone (PyStr "mirror")
    = Ok ([0; 1; 40]%float, [10; 20]%float,
          map (fun row => firstn 3 (skipn 2 row))
              [[49; 36; 25; 36; 49; 36; 25]%float;
               [49; 36; 25; 36; 49; 36; 25]%float]) /\
    Forall (fun row => length row = 3%nat)
           (map (fun row => firstn 3 (skipn 2 row))
                [[49; 36; 25; 36; 49; 36; 25]%float;
                 [49; 36; 25; 36; 49; 36; 25]%float]).
Proof.
  apply (plot_tfr_morlet_pad_crop decimate_plain tfr_square tfr_square_time_axis
           four_samples [10; 20]%float [7]%float None None "agg" PyNone
           (PyStr "mirror") [1 * 5; 1 * 6; 1 * 7]%float [0; 1; 40]%float
           1000%float).
  - right. reflexivity.
  - vm_compute. reflexivity.
  - reflexivity.
  - simpl. lia.
  - vm_compute. reflexivity.
Defined.

(** The same segment padded with zeros: the power under the segment is what
    is plotted. *)
Example plot_tfr_morlet_zeros :
  plot_tfr_morlet decimate_plain tfr_square four_samples [10; 20]%float [7]%float
                  None None "agg" PyNone (PyStr "zeros")
  = Ok ([0; 1; 40]%float, [10; 20]%float,
        [[25; 36; 49]%float; [25; 36; 49]%float]).
Proof. vm_compute. reflexivity. Qed.

(** ** _decimate_plot_data *)

Lemma all_ints_map zs : all_ints (map PyInt zs) = Some zs.
Proof. induction zs as [|z zs IH]; simpl; [reflexivity | now rewrite IH]. Qed.

Lemma int64_wrap_small z : - 2 ^ 63 <= z < 2 ^ 63 -> int64_wrap z = z.
Proof.
  intros H. unfold int64_wrap. rewrite Z.mod_small; lia.
Qed.

Lemma product_pos zs : Forall (fun z => 0 < z) zs -> 0 < product zs.
Proof.
  induction 1 as [|z zs Hz _ IH]; simpl; [lia | nia].
Qed.

(** The product that NumPy computes in [int64] is the product of positive
    factors when that one is below [2^63]. *)
Lemma int64_product zs acc :
  Forall (fun z => 0 < z) zs -> 0 < acc -> acc * product zs < 2 ^ 63 ->
  fold_left (fun acc z => int64_wrap (acc * z)) zs acc = acc * product zs.
Proof.
  intros H. revert acc. induction H as [|z zs Hz Hzs IH]; intros acc Hacc Hmax;
    simpl in *; [lia|].
  pose proof (product_pos zs Hzs) as Hp.
  assert (Hsmall : acc * z <= acc * (z * product zs)) by nia.
  rewrite int64_wrap_small by nia.
  rewrite IH; nia.
Qed.

Lemma np_prod_positive zs :
  Forall (fun z => 0 < z) zs -> product zs < 2 ^ 63 ->
  np_prod (map PyInt zs) = Ok (float_of_Z (product zs)).
Proof.
  intros H Hmax. unfold np_prod. rewrite all_ints_map.
  rewrite int64_product; trivial; try lia.
  now rewrite Z.mul_1_l.
Qed.

Lemma product_nonzero zs : Forall (fun z => z <> 0) zs -> product zs <> 0.
Proof.
  induction 1 as [|z zs Hz _ IH]; simpl; [lia | nia].
Qed.

(** The product that NumPy computes in [int64] is the product of factors
    other than zero when that one is within [int64]. *)
Lemma int64_product_nonzero zs acc :
  Forall (fun z => z <> 0) zs -> - 2 ^ 63 < acc * product zs < 2 ^ 63 ->
  fold_left (fun acc z => int64_wrap (acc * z)) zs acc = acc * product zs.
Proof.
  intros H. revert acc. induction H as [|z zs Hz Hzs IH]; intros acc Hmax;
    simpl in *; [lia|].
  pose proof (product_nonzero zs Hzs) as Hp.
  assert (Hsmall : - 2 ^ 63 < acc * z < 2 ^ 63).
  { replace (acc * (z * product zs)) with (acc * z * product zs) in Hmax by ring.
    assert (Hcases : 1 <= product zs \/ product zs <= -1) by lia.
    destruct Hcases; nia. }
  rewrite int64_wrap_small by lia.
  rewrite IH; [ring | now replace (acc * z * product zs)
                          with (acc * (z * product zs)) by ring].
Qed.

Lemma np_prod_nonzero zs :
  Forall (fun z => z <> 0) zs -> - 2 ^ 63 < product zs < 2 ^ 63 ->
  np_prod (map PyInt zs) = Ok (float_of_Z (product zs)).
Proof.
  intros H Hmax. unfold np_prod. rewrite all_ints_map.
  rewrite int64_product_nonzero; trivial; rewrite Z.mul_1_l; trivial.
Qed.

Section Decimation_properties.

Variable decimate : list float -> pyval -> result (list float).

Lemma factors_run decim chain data times sfreq :
  factors decim = Some chain ->
  _decimate_plot_data decimate decim data times sfreq
  = _decimate_plot_data decimate (PyList chain) data times sfreq.
Proof.
  destruct decim as [|z|x|s|l]; try discriminate; intros H; inversion H;
    reflexivity.
Qed.

(** The loop over a chain runs the first stages, then the others on what
    those return. *)
Lemma decimate_loop_app pre post data times :
  decimate_loop decimate (pre ++ post) data times
  = rbind (decimate_loop decimate pre data times) (fun dt =>
    decimate_loop decimate post (fst dt) (snd dt)).
Proof.
  revert data times.
  induction pre as [|dec pre IH]; intros data times;
    cbn [app decimate_loop rbind fst snd]; [reflexivity|].
  destruct (decimate data dec) as [data'|e]; cbn [rbind]; [| reflexivity].
  destruct (getslice_by times dec) as [times'|e]; cbn [rbind];
    [apply IH | reflexivity].
Qed.

(** What the slice of the times raises for a factor that cannot be a
    stride. *)
Lemma getslice_by_no_stride {A} (l : list A) bad :
  no_stride bad = true -> getslice_by l bad = Raise (stride_error bad).
Proof.
  destruct bad as [|z|x|s|items]; try discriminate; try reflexivity.
  simpl. intros H. apply Z.eqb_eq in H. subst z. reflexivity.
Qed.

(** A chain that holds a factor that cannot be a stride raises at that
    factor, once the stages before it have run: in the external routine, or
    else at the slice of the times. *)
Lemma decimate_loop_no_stride pre bad post data times data1 times1 :
  no_stride bad = true ->
  decimate_loop decimate pre data times = Ok (data1, times1) ->
  decimate_loop decimate (pre ++ bad :: post) data times
  = Raise (match decimate data1 bad with
           | Raise e => e
           | Ok _ => stride_error bad
           end).
Proof.
  intros Hbad Hpre. rewrite decimate_loop_app, Hpre.
  cbn [rbind fst snd decimate_loop].
  destruct (decimate data1 bad) as [data'|e]; cbn [rbind]; [| reflexivity].
  now rewrite getslice_by_no_stride.
Qed.

(** Past its check, the function raises an exception of the external
    routine, or one of the slice or of the product, which are not the
    [ValueError] of the check. *)
Lemma decimate_loop_not_decim_type chain data times :
  (forall data dec, decimate data dec <> Raise (ValueError decim_type)) ->
  decimate_loop decimate chain data times <> Raise (ValueError decim_type).
Proof.
  intros Hext. revert data times.
  induction chain as [|dec chain IH]; intros data times; cbn [decimate_loop];
    [discriminate|].
  destruct (decimate data dec) as [data'|e] eqn:E; cbn [rbind];
    [| intros H; inversion H; subst e; exact (Hext _ _ E)].
  destruct dec as [|z|x|s|items]; cbn [getslice_by]; try discriminate;
    unfold getslice; destruct (_ =? 0); cbn [rbind]; try discriminate; apply IH.
Qed.

Lemma _decimate_plot_data_checked decim data times sfreq :
  (forall data dec, decimate data dec <> Raise (ValueError decim_type)) ->
  _decimate_plot_data decimate decim data times sfreq = Raise (ValueError decim_type)
  <-> factors decim = None.
Proof.
  intros Hext. split.
  - destruct (factors decim) as [chain|] eqn:E; [| reflexivity].
    rewrite (factors_run _ _ _ _ _ E). unfold _decimate_plot_data.
    pose proof (decimate_loop_not_decim_type chain data times Hext) as Hloop.
    destruct (decimate_loop decimate chain data times) as [dt|e]; cbn [rbind].
    + destruct sfreq as [sf|]; [| discriminate].
      unfold np_prod. destruct (all_ints chain); discriminate.
    + intros H. inversion H; subst e. now destruct Hloop.
  - destruct decim as [|z|x|s|l]; try discriminate; reflexivity.
Qed.

(** A chain of integers that are not zero raises only what the external
    routine raises at one of them. *)
Lemma decimate_loop_ints zs data times e :
  Forall (fun z => z <> 0) zs ->
  decimate_loop decimate (map PyInt zs) data times = Raise e ->
  exists data1 z, In z zs /\ decimate data1 (PyInt z) = Raise e.
Proof.
  intros H. revert data times.
  induction H as [|z zs Hz _ IH]; intros data times; cbn [map decimate_loop];
    [discriminate|].
  destruct (decimate data (PyInt z)) as [data'|e'] eqn:E; cbn [rbind].
  - cbn [getslice_by]. unfold getslice.
    destruct (Z.eqb_spec z 0) as [|_]; [contradiction|]. cbn [rbind].
    intros Hrest. destruct (IH _ _ Hrest) as (data1 & z' & Hin & Hraise).
    exists data1, z'. split; [now right | exact Hraise].
  - intros Hraise. inversion Hraise; subst e'.
    exists data, z. split; [now left | exact E].
Qed.

(** C8 (amended): the one check of [_decimate_plot_data] is that [decim] is
    an integer or a list: it raises its [ValueError] exactly when [decim] is
    neither (the external routine not raising that error of its own); the
    factors are handed to the external routine as they are.  A factor of the
    chain that is no integer (nor [None]) or is zero raises, once the stages
    before it have run: what the external routine raises for it, or else the
    error of the slice [times[::dec]].  For a chain of integers other than
    zero, negative ones among them, with a product within [int64], the call
    raises only what the external routine raises at one of the factors, and
    otherwise returns the rate given over the product of the factors.  So
    for a chain of positive integers that the external routine accepts, the
    rate that is returned is the rate given over the product of the
    factors. *)
Theorem _decimate_plot_data_spec decim data times sfreq :
  ((forall data dec, decimate data dec <> Raise (ValueError decim_type)) ->
   (_decimate_plot_data decimate decim data times sfreq
    = Raise (ValueError decim_type)
    <-> (forall z, decim <> PyInt z) /\ (forall items, decim <> PyList items))) /\
  (forall pre bad post data1 times1,
     factors decim = Some (pre ++ bad :: post)%list -> no_stride bad = true ->
     decimate_loop decimate pre data times = Ok (data1, times1) ->
     _decimate_plot_data decimate decim data times sfreq
     = Raise (match decimate data1 bad with
              | Raise e => e
              | Ok _ => stride_error bad
              end)) /\
  (forall zs sf,
     factors decim = Some (map PyInt zs) ->
     Forall (fun z => z <> 0) zs -> - 2 ^ 63 < product zs < 2 ^ 63 ->
     sfreq = Some sf ->
     _decimate_plot_data decimate decim data times sfreq
     = match decimate_loop decimate (map PyInt zs) data times with
       | Ok (data', times') =>
           Ok (data', times', Some (sf / float_of_Z (product zs))%float)
       | Raise e => Raise e
       end /\
     forall e,
       decimate_loop decimate (map PyInt zs) data times = Raise e ->
       exists data1 z, In z zs /\ decimate data1 (PyInt z) = Raise e) /\
  (forall zs data' times' sf,
     decim = PyList (map PyInt zs) \/ (exists z, decim = PyInt z /\ zs = [z]) ->
     Forall (fun z => 0 < z) zs -> product zs < 2 ^ 63 ->
     decimate_loop decimate (map PyInt zs) data times = Ok (data', times') ->
     sfreq = Some sf ->
     _decimate_plot_data decimate decim data times sfreq
     = Ok (data', times', Some (sf / float_of_Z (product zs))%float)).
Proof.
  split; [| split; [| split]].
  - intros Hext. rewrite (_decimate_plot_data_checked _ _ _ _ Hext). split.
    + intros Hnone. split; intros v ->; discriminate.
    + intros (Hint & Hlist). destruct decim as [|z|x|s|l]; try reflexivity.
      * now destruct (Hint z).
      * now destruct (Hlist l).
  - intros pre bad post data1 times1 Hchain Hbad Hpre.
    rewrite (factors_run _ _ _ _ _ Hchain). unfold _decimate_plot_data.
    now rewrite (decimate_loop_no_stride pre bad post _ _ _ _ Hbad Hpre).
  - intros zs sf Hchain Hnz Hmax ->. split.
    + rewrite (factors_run _ _ _ _ _ Hchain). unfold _decimate_plot_data.
      destruct (decimate_loop decimate (map PyInt zs) data times) as [[d t]|e];
        cbn [rbind fst snd]; [| reflexivity].
      now rewrite np_prod_nonzero.
    + intros e. now apply decimate_loop_ints.
  - intros zs data' times' sf Hdecim Hpos Hmax Hloop ->.
    assert (Hrun : _decimate_plot_data decimate (PyList (map PyInt zs)) data times
                     (Some sf)
                   = Ok (data', times', Some (sf / float_of_Z (product zs))%float)).
    { unfold _decimate_plot_data. rewrite Hloop. cbn [rbind fst snd].
      now rewrite np_prod_positive. }
    destruct Hdecim as [->|(z & -> & ->)]; exact Hrun.
Qed.

End Decimation_properties.

(** The stand-in raises errors of its own only. *)
Lemma decimate_plain_errors data dec :
  decimate_plain data dec <> Raise (ValueError decim_type).
Proof.
  unfold decimate_plain. destruct dec as [|q|x|s|items]; try discriminate.
  destruct (0 <? q); [| discriminate].
  destruct (_ <=? _)%nat; [discriminate|].
  unfold getslice. destruct (q =? 0); discriminate.
Qed.

Lemma _decimate_plot_data_spec_witness :
  _decimate_plot_data decimate_plain (PyFloat 2.5) sixty_samples sixty_times
                      (Some 1000%float)
  = Raise (ValueError decim_type) /\
  _decimate_plot_data decimate_plain (PyList [PyInt 2; PyFloat 2.5]) sixty_samples
                      sixty_times (Some 1000%float)
  = Raise TypeError /\
  _decimate_plot_data decimate_plain (PyList [PyInt 2; PyInt 0; PyInt 3])
                      sixty_samples sixty_times (Some 1000%float)
  = Raise (ExternalError 1) /\
  (_decimate_plot_data decimate_plain (PyList [PyInt 2; PyInt (-3)]) sixty_samples
                       sixty_times (Some 1000%float)
   = Raise (ExternalError 1) /\
   forall e,
     decimate_loop decimate_plain (map PyInt [2; -3]) sixty_samples sixty_times
     = Raise e ->
     exists data1 z, In z [2; -3] /\ decimate_plain data1 (PyInt z) = Raise e) /\
  _decimate_plot_data decimate_plain (PyList [PyInt 2; PyInt 3]) sixty_samples
                      sixty_times (Some 1000%float)
  = Ok ([0; 36; 144; 324; 576; 900; 1296; 1764; 2304; 2916]%float,
        [0; 6; 12; 18; 24; 30; 36; 42; 48; 54]%float,
        Some (1000 / float_of_Z 6)%float).
Proof.
  split; [| split; [| split; [| split]]].
  - apply (proj2 (proj1 (_decimate_plot_data_spec decimate_plain (PyFloat 2.5) _ _ _)
                        decimate_plain_errors)).
    split; discriminate.
  - apply (proj1 (proj2 (_decimate_plot_data_spec decimate_plain
                           (PyList [PyInt 2; PyFloat 2.5]) sixty_samples
                           sixty_times (Some 1000%float)))
             [PyInt 2] (PyFloat 2.5) []
             (map (fun t => t * t)%float (map float_of_Z (map (Z.mul 2) (map Z.of_nat (seq 0 30)))))
             (map float_of_Z (map (Z.mul 2) (map Z.of_nat (seq 0 30)))));
      vm_compute; reflexivity.
  - apply (proj1 (proj2 (_decimate_plot_data_spec decimate_plain
                           (PyList [PyInt 2; PyInt 0; PyInt 3]) sixty_samples
                           sixty_times (Some 1000%float)))
             [PyInt 2] (PyInt 0) [PyInt 3]
             (map (fun t => t * t)%float (map float_of_Z (map (Z.mul 2) (map Z.of_nat (seq 0 30)))))
             (map float_of_Z (map (Z.mul 2) (map Z.of_nat (seq 0 30)))));
      vm_compute; reflexivity.
  - apply (proj1 (proj2 (proj2 (_decimate_plot_data_spec decimate_plain
                                  (PyList [PyInt 2; PyInt (-3)]) sixty_samples
                                  sixty_times (Some 1000%float))))
             [2; -3] 1000%float).
    + reflexivity.
    + repeat constructor; discriminate.
    + simpl. lia.
    + reflexivity.
  - apply (proj2 (proj2 (proj2 (_decimate_plot_data_spec decimate_plain
                                  (PyList [PyInt 2; PyInt 3]) sixty_samples
                                  sixty_times (Some 1000%float))))
             [2; 3] _ _ 1000%float).
    + left. reflexivity.
    + repeat constructor.
    + vm_compute. reflexivity.
    + vm_compute. reflexivity.
    + reflexivity.
Defined.

(** C8 as stated fails.  A float inside a chain is met only after the first
    stage has run, and what is raised then is the [TypeError] of the
    external routine, not the [ValueError] of the check; zero, or a negative
    factor, alone is passed to the external routine, whose exception it is
    that comes out.  Whatever the external routine, as long as it does not
    raise the [ValueError] of the check itself, that error is raised for
    none of these factors. *)
Lemma _decimate_plot_data_unchecked_factors :
  _decimate_plot_data decimate_plain (PyList [PyInt 2; PyFloat 2.5]) sixty_samples
                      sixty_times (Some 1000%float)
  = Raise TypeError /\
  _decimate_plot_data decimate_plain (PyInt 0) sixty_samples sixty_times
                      (Some 1000%float)
  = Raise (ExternalError 1) /\
  _decimate_plot_data decimate_plain (PyInt (-2)) sixty_samples sixty_times
                      (Some 1000%float)
  = Raise (ExternalError 1) /\
  forall decimate data times sfreq,
    (forall data dec, decimate data dec <> Raise (ValueError decim_type)) ->
    _decimate_plot_data decimate (PyList [PyInt 2; PyFloat 2.5]) data times sfreq
    <> Raise (ValueError decim_type) /\
    _decimate_plot_data decimate (PyInt 0) data times sfreq
    <> Raise (ValueError decim_type) /\
    _decimate_plot_data decimate (PyInt (-2)) data times sfreq
    <> Raise (ValueError decim_type).
Proof.
  do 3 (split; [vm_compute; reflexivity|]).
  intros decimate data times sfreq Hext.
  repeat split; intros H;
    apply (_decimate_plot_data_checked decimate _ _ _ _ Hext) in H; discriminate.
Qed.

(** ** The regimes of baseline_renormalize *)

(** Two floats that are numbers are ordered one way or the other. *)
Lemma leb_negb_ltb x y a b :
  sf_key (Prim2SF x) = Some a -> sf_key (Prim2SF y) = Some b ->
  (x <=? y)%float = negb (y <? x)%float.
Proof.
  intros Ha Hb. rewrite FloatAxioms.leb_spec, FloatAxioms.ltb_spec.
  unfold SFleb, SFltb.
  destruct (SFcompare_key _ _ _ _ Ha Hb) as [[E K]|[[E K]|[E K]]];
    destruct (SFcompare_key _ _ _ _ Hb Ha) as [[E' K']|[[E' K']|[E' K']]];
    rewrite E, E'; try reflexivity; exfalso; subst;
    try (now apply key_lt_irrefl in K); try (now apply key_lt_irrefl in K');
    try (now apply key_lt_asym in K).
Qed.

Lemma is_nan_key t :
  is_nan t = match sf_key (Prim2SF t) with None => true | Some _ => false end.
Proof.
  unfold is_nan. rewrite FloatAxioms.eqb_spec. unfold SFeqb.
  destruct (sf_key (Prim2SF t)) as [a|] eqn:Ha.
  - destruct (SFcompare_key _ _ _ _ Ha Ha) as [[E K]|[[E K]|[E K]]];
      rewrite E; try reflexivity; now apply key_lt_irrefl in K.
  - rewrite SFcompare_nan by now left. reflexivity.
Qed.

Lemma nan_no_key t : is_nan t = true -> sf_key (Prim2SF t) = None.
Proof. rewrite is_nan_key. now destruct (sf_key (Prim2SF t)). Qed.

Lemma nan_ltb_l t y : is_nan t = true -> (t <? y)%float = false.
Proof.
  intros H. rewrite FloatAxioms.ltb_spec. unfold SFltb.
  rewrite SFcompare_nan; [reflexivity|]. left. now apply nan_no_key.
Qed.

Lemma nan_ltb_r t y : is_nan t = true -> (y <? t)%float = false.
Proof.
  intros H. rewrite FloatAxioms.ltb_spec. unfold SFltb.
  rewrite SFcompare_nan; [reflexivity|]. right. now apply nan_no_key.
Qed.

Lemma nan_leb_l t y : is_nan t = true -> (t <=? y)%float = false.
Proof.
  intros H. rewrite FloatAxioms.leb_spec. unfold SFleb.
  rewrite SFcompare_nan; [reflexivity|]. left. now apply nan_no_key.
Qed.

Lemma nan_leb_r t y : is_nan t = true -> (y <=? t)%float = false.
Proof.
  intros H. rewrite FloatAxioms.leb_spec. unfold SFleb.
  rewrite SFcompare_nan; [reflexivity|]. right. now apply nan_no_key.
Qed.

Lemma gt_37_not_early t : gtb t 37 = true -> (t <=? 37)%float = false.
Proof.
  unfold gtb. intros H. destruct (t <=? 37)%float eqn:E; trivial.
  apply ltb_false_of_le in E. congruence.
Qed.

Lemma late_not_early t : geb t t1_fit = true -> (t <=? 37)%float = false.
Proof.
  intros H. destruct (t <=? 37)%float eqn:E; trivial.
  apply leb_37_not_late in E. congruence.
Qed.

Lemma late_not_before t : geb t t1_fit = true -> (t <? t1_fit)%float = false.
Proof. unfold geb. apply ltb_false_of_le. Qed.

Lemma renormalize_L5_mid n x t :
  gtb t 37 = true -> (t <? t1_fit)%float = true ->
  renormalize_L5 n x t = (x - n * (m_fit * t + b_fit))%float.
Proof.
  intros H37 H750. unfold renormalize_L5.
  rewrite (gt_37_not_early _ H37), H37, H750. cbn [andb].
  destruct (geb t t1_fit) eqn:E; trivial.
  apply late_not_before in E. congruence.
Qed.

Lemma renormalize_L5_late n x t :
  geb t t1_fit = true ->
  renormalize_L5 n x t = (x - n * (m1_fit * t + b1_fit))%float.
Proof.
  intros H. unfold renormalize_L5.
  rewrite (late_not_early _ H), (late_not_before _ H), H, andb_false_r.
  reflexivity.
Qed.

(** X1: on a dipole in fAm whose arrays have the length of [times], for a
    number of cells [N] with [-2^63 <= N < 2^64], the call returns and every
    sample of L2 has lost the one constant [N * 0.0443], whatever its
    time. *)
Theorem baseline_renormalize_L2 N_pyr_x N_pyr_y n self :
  units self = "fAm"%string ->
  - 2 ^ 63 <= N_pyr_x * N_pyr_y < 2 ^ 64 ->
  py_float (N_pyr_x * N_pyr_y) = Ok n ->
  length (data_L2 self) = length (times self) ->
  length (data_L5 self) = length (times self) ->
  exists self',
    baseline_renormalize N_pyr_x N_pyr_y self = (self', Ok tt) /\
    data_L2 self' = map (fun x => x - n * 0.0443)%float (data_L2 self).
Proof.
  intros Hu Hfit Hn H2 H5. exists (renormalized n self). split.
  - now apply baseline_renormalize_run.
  - reflexivity.
Qed.

Lemma baseline_renormalize_L2_witness :
  exists self',
    baseline_renormalize 2 3 four_fAm = (self', Ok tt) /\
    data_L2 self' = map (fun x => x - 6 * 0.0443)%float [1; 2; 3; 4]%float.
Proof.
  apply (baseline_renormalize_L2 2 3 6%float four_fAm);
    first [lia | vm_compute; reflexivity].
Defined.

(** X2: on such a dipole and for such a number of cells
    ([-2^63 <= N < 2^64]), a sample of L5 at a time [37 < t < 750] loses
    [N * (m * t + b)], the line fitted over that range taken at its own
    time, and nothing else. *)
Theorem baseline_renormalize_mid N_pyr_x N_pyr_y n self i t x :
  units self = "fAm"%string ->
  - 2 ^ 63 <= N_pyr_x * N_pyr_y < 2 ^ 64 ->
  py_float (N_pyr_x * N_pyr_y) = Ok n ->
  length (data_L2 self) = length (times self) ->
  length (data_L5 self) = length (times self) ->
  nth_error (times self) i = Some t ->
  nth_error (data_L5 self) i = Some x ->
  gtb t 37 = true -> (t <? 750)%float = true ->
  exists self',
    baseline_renormalize N_pyr_x N_pyr_y self = (self', Ok tt) /\
    nth_error (data_L5 self') i
    = Some (x - n * (3.4770508e-3 * t + -51.231085))%float.
Proof.
  intros Hu Hfit Hn H2 H5 Ht Hx H37 H750.
  exists (renormalized n self). split.
  - now apply baseline_renormalize_run.
  - cbn [renormalized data_L5].
    rewrite (nth_error_map2 _ _ _ _ _ _ Hx Ht).
    now rewrite renormalize_L5_mid.
Qed.

Lemma baseline_renormalize_mid_witness :
  exists self',
    baseline_renormalize 2 3 four_fAm = (self', Ok tt) /\
    nth_error (data_L5 self') 1
    = Some (4 - 6 * (3.4770508e-3 * 40 + -51.231085))%float.
Proof.
  apply (baseline_renormalize_mid 2 3 6%float four_fAm 1%nat 40%float 4%float);
    first [lia | vm_compute; reflexivity].
Defined.

(** X3: on such a dipole and for such a number of cells
    ([-2^63 <= N < 2^64]), a sample of L5 at a time [t >= 750] loses
    [N * (m1 * t + b1)], the line fitted from 750 ms on, and nothing else. *)
Theorem baseline_renormalize_late N_pyr_x N_pyr_y n self i t x :
  units self = "fAm"%string ->
  - 2 ^ 63 <= N_pyr_x * N_pyr_y < 2 ^ 64 ->
  py_float (N_pyr_x * N_pyr_y) = Ok n ->
  length (data_L2 self) = length (times self) ->
  length (data_L5 self) = length (times self) ->
  nth_error (times self) i = Some t ->
  nth_error (data_L5 self) i = Some x ->
  geb t 750 = true ->
  exists self',
    baseline_renormalize N_pyr_x N_pyr_y self = (self', Ok tt) /\
    nth_error (data_L5 self') i = Some (x - n * (1.01e-4 * t + -48.412078))%float.
Proof.
  intros Hu Hfit Hn H2 H5 Ht Hx H750.
  exists (renormalized n self). split.
  - now apply baseline_renormalize_run.
  - cbn [renormalized data_L5].
    rewrite (nth_error_map2 _ _ _ _ _ _ Hx Ht).
    now rewrite renormalize_L5_late.
Qed.

Lemma baseline_renormalize_late_witness :
  exists self',
    baseline_renormalize 2 3 four_fAm = (self', Ok tt) /\
    nth_error (data_L5 self') 2 = Some (4 - 6 * (1.01e-4 * 800 + -48.412078))%float.
Proof.
  apply (baseline_renormalize_late 2 3 6%float four_fAm 2%nat 800%float 4%float);
    first [lia | vm_compute; reflexivity].
Defined.

Lemma nth_error_mask (p : float -> bool) ts i t :
  nth_error ts i = Some t -> nth_error (map p ts) i = Some (p t).
Proof. intros H. now rewrite nth_error_map, H. Qed.

(** X4: the three index arrays of the piecewise normalization never
    overlap, and together they cover every time that is a number: a time
    selects exactly one of them, and a time that is not a number selects
    none. *)
Theorem baseline_regimes_partition ts i t :
  nth_error ts i = Some t ->
  exists early mid late,
    nth_error (mask_early ts) i = Some early /\
    nth_error (mask_mid ts) i = Some mid /\
    nth_error (mask_late ts) i = Some late /\
    (if is_nan t
     then early = false /\ mid = false /\ late = false
     else (early = true /\ mid = false /\ late = false) \/
          (early = false /\ mid = true /\ late = false) \/
          (early = false /\ mid = false /\ late = true)).
Proof.
  intros Ht. unfold mask_early, mask_mid, mask_late.
  do 3 eexists. repeat (split; [apply nth_error_mask; exact Ht|]).
  destruct (is_nan t) eqn:Hnan.
  - unfold gtb, geb.
    now rewrite (nan_leb_l _ _ Hnan), (nan_ltb_l _ _ Hnan), (nan_leb_r _ _ Hnan),
      andb_false_r.
  - rewrite is_nan_key in Hnan.
    destruct (sf_key (Prim2SF t)) as [a|] eqn:Ha; [| discriminate].
    assert (H37 : (t <=? 37)%float = negb (gtb t 37)).
    { unfold gtb. destruct (sf_key (Prim2SF 37)) as [b|] eqn:Hb;
        [| vm_compute in Hb; discriminate].
      now apply (leb_negb_ltb t 37 a b). }
    assert (H750 : geb t t1_fit = negb (t <? t1_fit)%float).
    { unfold geb. destruct (sf_key (Prim2SF t1_fit)) as [b|] eqn:Hb;
        [| vm_compute in Hb; discriminate].
      now apply (leb_negb_ltb t1_fit t b a). }
    destruct (gtb t 37) eqn:E37; cbn [negb] in H37.
    + destruct (t <? t1_fit)%float eqn:E750; cbn [negb] in H750;
        rewrite H37, H750; auto.
    + left. rewrite H37. cbn [andb]. split; [reflexivity|]. split; [reflexivity|].
      now apply leb_37_not_late.
Qed.

Lemma baseline_regimes_partition_witness :
  exists early mid late,
    nth_error (mask_early (times four_fAm)) 3 = Some early /\
    nth_error (mask_mid (times four_fAm)) 3 = Some mid /\
    nth_error (mask_late (times four_fAm)) 3 = Some late /\
    (if is_nan nan
     then early = false /\ mid = false /\ late = false
     else (early = true /\ mid = false /\ late = false) \/
          (early = false /\ mid = true /\ late = false) \/
          (early = false /\ mid = false /\ late = true)).
Proof.
  apply (baseline_regimes_partition (times four_fAm) 3%nat nan). reflexivity.
Defined.

(** ** What baseline_renormalize leaves alone *)

Lemma setmask_length {A} (arr : list A) mask vals :
  length (setmask arr mask vals) = length arr.
Proof.
  revert mask vals. induction arr as [|x arr IH]; intros [|[] mask] vals;
    simpl; trivial.
  - destruct vals; simpl; now rewrite IH.
  - now rewrite IH.
Qed.

Lemma isub_mask_scalar_length arr mask c arr' :
  isub_mask_scalar arr mask c = Ok arr' -> length arr' = length arr.
Proof.
  unfold isub_mask_scalar. destruct (_ =? _)%nat; [| discriminate].
  intros H. inversion H. apply setmask_length.
Qed.

Lemma isub_mask_array_length arr mask rhs arr' :
  isub_mask_array arr mask rhs = Ok arr' -> length arr' = length arr.
Proof.
  unfold isub_mask_array. destruct (_ =? _)%nat; [| discriminate].
  destruct (_ =? _)%nat.
  - intros H. inversion H. apply setmask_length.
  - destruct rhs as [|r [|]]; try discriminate.
    intros H. inversion H. apply setmask_length.
Qed.

(** X5: whatever its outcome, a return or an exception part of the way,
    [baseline_renormalize] leaves the units, the number of samples, the
    times, [nave] and the sampling rate as they were, and changes the length
    of neither L2 nor L5. *)
Theorem baseline_renormalize_frame N_pyr_x N_pyr_y self :
  let self' := fst (baseline_renormalize N_pyr_x N_pyr_y self) in
  units self' = units self /\ N self' = N self /\ times self' = times self /\
  nave self' = nave self /\ sfreq self' = sfreq self /\
  length (data_L2 self') = length (data_L2 self) /\
  length (data_L5 self') = length (data_L5 self).
Proof.
  destruct self as [u n0 ts agg L2 L5 nv sf].
  unfold baseline_renormalize, bind, getattr, lift, modify, ret.
  cbn [units data_set data_L2 data_L5 data_agg times nave sfreq N
       String.eqb Ascii.eqb Bool.eqb].
  destruct (negb (String.eqb u "fAm")); [cbn; repeat split|].
  destruct (py_float _) as [n|e]; [| cbn; repeat split].
  destruct (isub_mask_scalar _ _ _) as [L5a|e] eqn:Ea;
    [| cbn; rewrite length_map; repeat split].
  apply isub_mask_scalar_length in Ea. cbn [data_L5] in Ea.
  destruct (fits_int_array _);
    [| unfold isub_mask_object; destruct (_ =? _)%nat;
       cbn; rewrite length_map; repeat split; assumption].
  destruct (isub_mask_array _ _ _) as [L5b|e] eqn:Eb;
    [| cbn; rewrite length_map; repeat split; assumption].
  apply isub_mask_array_length in Eb.
  destruct (isub_mask_array _ _ _) as [L5c|e] eqn:Ec;
    [| cbn; rewrite length_map; repeat split; lia].
  apply isub_mask_array_length in Ec.
  destruct (np_add _ _); cbn; rewrite length_map; repeat split; lia.
Qed.

(** X6: the renormalization is not atomic.  On a dipole in fAm whose L5 has
    not the length of its times, the call raises the [IndexError] of the
    boolean index, and L2 has lost its offset already: the object is left
    with L2 shifted and with L5 and the aggregate as they were. *)
Theorem baseline_renormalize_not_atomic N_pyr_x N_pyr_y n self :
  units self = "fAm"%string ->
  py_float (N_pyr_x * N_pyr_y) = Ok n ->
  length (data_L5 self) <> length (times self) ->
  baseline_renormalize N_pyr_x N_pyr_y self
  = (data_set self "L2" (map (fun x => x - n * 0.0443)%float (data_L2 self)),
     Raise IndexError).
Proof.
  intros Hu Hn H5.
  destruct self as [u n0 ts agg L2 L5 nv sf]. simpl in Hu, H5. subst u.
  unfold baseline_renormalize, bind, getattr, lift, modify, ret.
  cbn [units data_set data_L2 data_L5 data_agg times nave sfreq N
       String.eqb Ascii.eqb Bool.eqb negb].
  rewrite Hn. unfold isub_mask_scalar, mask_early. rewrite length_map.
  destruct (Nat.eqb_spec (length ts) (length L5)) as [E|_]; [congruence|].
  reflexivity.
Qed.

Lemma baseline_renormalize_not_atomic_witness :
  baseline_renormalize 2 3 short_L5
  = (data_set short_L5 "L2" (map (fun x => x - 6 * 0.0443)%float [1; 2; 3]%float),
     Raise IndexError).
Proof.
  apply (baseline_renormalize_not_atomic 2 3 6%float short_L5).
  - reflexivity.
  - vm_compute. reflexivity.
  - simpl. lia.
Defined.

(** ** convert_fAm_to_nAm, scale and post_proc *)

Lemma convert_fAm_to_nAm_run self :
  convert_fAm_to_nAm self = (set_units (scaled 1e-6 self) "nAm", Ok tt).
Proof. destruct self. reflexivity. Qed.

Lemma scale_run fctr self : scale fctr self = (scaled fctr self, Ok ret_self).
Proof. destruct self. reflexivity. Qed.

(** X7: [convert_fAm_to_nAm] has no guard.  Whatever the units of the
    dipole, it returns, with every sample of the three layers multiplied by
    [1e-6] and with the units set to nAm; so a second call multiplies by
    [1e-6] once more. *)
Theorem convert_fAm_to_nAm_unguarded self :
  convert_fAm_to_nAm self = (set_units (scaled 1e-6 self) "nAm", Ok tt) /\
  (convert_fAm_to_nAm ;;; convert_fAm_to_nAm)%method self
  = (set_units (scaled 1e-6 (scaled 1e-6 self)) "nAm", Ok tt).
Proof.
  split; [apply convert_fAm_to_nAm_run|].
  unfold bind. rewrite convert_fAm_to_nAm_run. rewrite convert_fAm_to_nAm_run.
  reflexivity.
Qed.

(** X8: once a dipole has been converted, [baseline_renormalize] does
    nothing to it: after [convert_fAm_to_nAm], whatever the units were
    before, the call returns with the object as it was, for every number of
    cells. *)
Theorem baseline_renormalize_after_convert N_pyr_x N_pyr_y self :
  let converted := fst (convert_fAm_to_nAm self) in
  snd (convert_fAm_to_nAm self) = Ok tt /\
  baseline_renormalize N_pyr_x N_pyr_y converted = (converted, Ok tt).
Proof.
  rewrite convert_fAm_to_nAm_run. cbn [fst snd]. split; [reflexivity|].
  destruct self. reflexivity.
Qed.

Section Post_proc_properties.

Variable hamming : float -> result (list float).
Variable convolve_same : list float -> list float -> result (list float).
Variable savgol_filter : list float -> Z -> Z -> result (list float).

(** X9: on a dipole in fAm whose arrays have the length of [times], for a
    number of cells [N] with [-2^63 <= N < 2^64], with a smoothing window
    that comes to one sample at most, [post_proc] returns and leaves the baseline-renormalized layers, aggregate included,
    multiplied by [1e-6] and then by [fctr], in nAm: the steps run in the
    order baseline, conversion, scaling, and nothing is smoothed. *)
Theorem post_proc_short_window N_pyr_x N_pyr_y n winsz fctr self :
  units self = "fAm"%string ->
  - 2 ^ 63 <= N_pyr_x * N_pyr_y < 2 ^ 64 ->
  py_float (N_pyr_x * N_pyr_y) = Ok n ->
  length (data_L2 self) = length (times self) ->
  length (data_L5 self) = length (times self) ->
  (1 <= length (times self))%nat ->
  Z.of_nat (length (times self)) < 2 ^ 63 ->
  (1e-3 * (winsz / (1e-3 * sfreq self)) * sfreq self <=? 1)%float = true ->
  post_proc hamming convolve_same savgol_filter N_pyr_x N_pyr_y winsz fctr self
  = (scaled fctr (set_units (scaled 1e-6 (renormalized n self)) "nAm"), Ok tt).
Proof.
  intros Hu Hfit Hn H2 H5 Hlen Hmax Hw.
  unfold post_proc, bind.
  rewrite (baseline_renormalize_run _ _ _ _ Hu Hfit Hn H2 H5).
  rewrite convert_fAm_to_nAm_run, scale_run.
  set (d := scaled fctr (set_units (scaled 1e-6 (renormalized n self)) "nAm")).
  assert (Hsf : sfreq d = sfreq self) by reflexivity.
  assert (Hts : times d = times self) by reflexivity.
  unfold smooth, bind, getattr, ret. rewrite Hsf, Hts.
  rewrite (short_window_fits _ _ Hw Hlen Hmax), Hw.
  reflexivity.
Qed.

End Post_proc_properties.

Lemma post_proc_short_window_witness :
  post_proc hamming_ones convolve_id savgol_id 2 3 0 3000 four_fAm
  = (scaled 3000 (set_units (scaled 1e-6 (renormalized 6 four_fAm)) "nAm"), Ok tt).
Proof.
  apply (post_proc_short_window hamming_ones convolve_id savgol_id 2 3 6%float
           0%float 3000%float four_fAm);
    try (vm_compute; reflexivity); simpl; lia.
Defined.

(** ** smooth at work *)

Lemma binary_round_aux_not_negative mx e l :
  SFltb (binary_round_aux prec emax false mx e l) (S754_zero false) = false.
Proof.
  unfold binary_round_aux.
  destruct (shr_fexp prec emax mx e l) as [mrs' e'].
  destruct (shr_fexp prec emax _ e' loc_Exact) as [mrs'' e''].
  destruct (shr_m mrs''); [reflexivity | | reflexivity].
  destruct (e'' <=? emax - prec); reflexivity.
Qed.

(** Half a positive rate is not below zero. *)
Lemma half_rate_not_negative sf m e :
  Prim2SF sf = S754_finite false m e -> gtb 0 (0.5 * sf)%float = false.
Proof.
  intros H. unfold gtb.
  rewrite FloatAxioms.ltb_spec, FloatAxioms.mul_spec, H.
  apply binary_round_aux_not_negative.
Qed.

(** A positive rate over zero is infinite. *)
Lemma rate_over_zero sf m e :
  Prim2SF sf = S754_finite false m e ->
  Prim2SF (sf / 0)%float = S754_infinity false.
Proof. intros H. rewrite FloatAxioms.div_spec, H. reflexivity. Qed.

Section Smooth_at_work.

Variable hamming : float -> result (list float).
Variable convolve_same : list float -> list float -> result (list float).
Variable savgol_filter : list float -> Z -> Z -> result (list float).

(** X10: with a window of more than one sample that is not longer than the
    signal, every layer is replaced by its convolution with the window that
    [numpy.hamming] returns, divided by its sum; the aggregate is convolved
    like the layers and not added up again; the call returns [self], and
    nothing else of the object changes. *)
Theorem smooth_window_applied window_len self win agg' L2' L5' :
  let winsz := (1e-3 * window_len * sfreq self)%float in
  let kernel := map (fun w => w / py_sum win)%float win in
  gtb winsz (float_of_len (length (times self))) = false ->
  (winsz <=? 1)%float = false ->
  hamming winsz = Ok win ->
  convolve_same (data_agg self) kernel = Ok agg' ->
  convolve_same (data_L2 self) kernel = Ok L2' ->
  convolve_same (data_L5 self) kernel = Ok L5' ->
  smooth hamming convolve_same savgol_filter (Some window_len) None self
  = (mkDipole (units self) (N self) (times self) agg' L2' L5' (nave self)
              (sfreq self),
     Ok ret_self).
Proof.
  intros winsz kernel Hlong Hshort Hwin Hagg HL2 HL5.
  destruct self as [u n0 ts agg L2 L5 nv sf].
  cbn [sfreq times data_agg data_L2 data_L5] in *.
  unfold smooth, bind, getattr, ret.
  cbn [sfreq times]. fold winsz. rewrite Hlong, Hshort.
  cbn [for_each data_keys]. unfold filter_key, bind, getitem, lift, modify, ret.
  cbn [data_get data_set String.eqb Ascii.eqb Bool.eqb
       units N times data_agg data_L2 data_L5 nave sfreq].
  unfold _hammfilt. rewrite Hwin. cbn [rbind]. fold kernel.
  rewrite Hagg.
  cbn [data_get data_set String.eqb Ascii.eqb Bool.eqb
       units N times data_agg data_L2 data_L5 nave sfreq].
  rewrite HL2.
  cbn [data_get data_set String.eqb Ascii.eqb Bool.eqb
       units N times data_agg data_L2 data_L5 nave sfreq].
  rewrite HL5. reflexivity.
Qed.

(** X11: smoothing is not atomic.  When the convolution of the last layer,
    L5, raises, the exception comes out of [smooth] with the aggregate and
    L2 smoothed already and L5 as it was. *)
Theorem smooth_window_not_atomic window_len self win agg' L2' e :
  let winsz := (1e-3 * window_len * sfreq self)%float in
  let kernel := map (fun w => w / py_sum win)%float win in
  gtb winsz (float_of_len (length (times self))) = false ->
  (winsz <=? 1)%float = false ->
  hamming winsz = Ok win ->
  convolve_same (data_agg self) kernel = Ok agg' ->
  convolve_same (data_L2 self) kernel = Ok L2' ->
  convolve_same (data_L5 self) kernel = Raise e ->
  smooth hamming convolve_same savgol_filter (Some window_len) None self
  = (mkDipole (units self) (N self) (times self) agg' L2' (data_L5 self)
              (nave self) (sfreq self),
     Raise e).
Proof.
  intros winsz kernel Hlong Hshort Hwin Hagg HL2 HL5.
  destruct self as [u n0 ts agg L2 L5 nv sf].
  cbn [sfreq times data_agg data_L2 data_L5] in *.
  unfold smooth, bind, getattr, ret.
  cbn [sfreq times]. fold winsz. rewrite Hlong, Hshort.
  cbn [for_each data_keys]. unfold filter_key, bind, getitem, lift, modify, ret.
  cbn [data_get data_set String.eqb Ascii.eqb Bool.eqb
       units N times data_agg data_L2 data_L5 nave sfreq].
  unfold _hammfilt. rewrite Hwin. cbn [rbind]. fold kernel.
  rewrite Hagg.
  cbn [data_get data_set String.eqb Ascii.eqb Bool.eqb
       units N times data_agg data_L2 data_L5 nave sfreq].
  rewrite HL2.
  cbn [data_get data_set String.eqb Ascii.eqb Bool.eqb
       units N times data_agg data_L2 data_L5 nave sfreq].
  rewrite HL5. reflexivity.
Qed.

(** X12: below half the sampling rate, the window length that
    [_savgol_filter] hands to SciPy's filter, with the polynomial order 5,
    is odd: it is the rounded ratio [r] of the rate to the cutoff when [r]
    is odd, and [r + 1] when [r] is even. *)
Theorem _savgol_filter_window data h_freq sf r :
  geb h_freq (sf / 2)%float = false ->
  int_round (sf / h_freq)%float = Ok r ->
  exists window_length,
    _savgol_filter savgol_filter data h_freq sf
    = savgol_filter data window_length 5 /\
    Z.odd window_length = true /\
    window_length = (if Z.odd r then r else r + 1).
Proof.
  intros Hnyq Hr. exists (r / 2 * 2 + 1).
  unfold _savgol_filter. rewrite Hnyq, Hr. cbn [rbind].
  split; [reflexivity|].
  pose proof (Z.div_mod r 2 ltac:(lia)) as Hdm.
  pose proof (Z.mod_pos_bound r 2 ltac:(lia)) as Hb.
  split.
  - replace (r / 2 * 2 + 1) with (1 + 2 * (r / 2)) by lia.
    now rewrite Z.odd_add_mul_2.
  - rewrite (Zodd_mod r).
    destruct (Z.eqb_spec (r mod 2) 1); lia.
Qed.

(** X13: a cutoff of zero passes the guards of [smooth] and of
    [_savgol_filter], at every positive rate whose half is above zero; the
    ratio of the rate to the cutoff is then infinite, and the call ends in the
    [OverflowError] of [int], with the object as it was. *)
Theorem smooth_h_freq_zero self m e :
  Prim2SF (sfreq self) = S754_finite false m e ->
  geb 0 (sfreq self / 2)%float = false ->
  smooth hamming convolve_same savgol_filter None (Some 0%float) self
  = (self, Raise OverflowError).
Proof.
  intros Hsf Hhalf. unfold smooth, bind, getattr, raise.
  change (0 <? 0)%float with false. cbv iota.
  rewrite (half_rate_not_negative _ _ _ Hsf).
  cbn [for_each data_keys]. unfold filter_key, bind, getitem, lift.
  cbn [data_get String.eqb Ascii.eqb Bool.eqb].
  unfold _savgol_filter. rewrite Hhalf.
  unfold int_round. rewrite (rate_over_zero _ _ _ Hsf). reflexivity.
Qed.

End Smooth_at_work.

Lemma smooth_window_applied_witness :
  smooth hamming_ones convolve_id savgol_id (Some 100%float) None four_fAm
  = (mkDipole "fAm" 4 [0; 40; 800; nan]%float [5; 6; 7; 8]%float
              [1; 2; 3; 4]%float [4; 4; 4; 4]%float 1 25%float,
     Ok ret_self).
Proof.
  apply (smooth_window_applied hamming_ones convolve_id savgol_id 100%float
           four_fAm [1%float] [5; 6; 7; 8]%float [1; 2; 3; 4]%float
           [4; 4; 4; 4]%float);
    vm_compute; reflexivity.
Defined.

Lemma smooth_window_not_atomic_witness :
  smooth hamming_ones
         (fun x win => convolve_nonempty (map (fun v => v + 1)%float x) win)
         savgol_id (Some 100%float) None empty_L5
  = (mkDipole "nAm" 4 [0; 40; 80; 120]%float [6; 7; 8; 9]%float
              [2; 3; 4; 5]%float [] 1 25%float,
     Raise (ExternalError 2)).
Proof.
  apply (smooth_window_not_atomic hamming_ones
           (fun x win => convolve_nonempty (map (fun v => v + 1)%float x) win)
           savgol_id 100%float empty_L5 [1%float] [6; 7; 8; 9]%float
           [2; 3; 4; 5]%float (ExternalError 2));
    vm_compute; reflexivity.
Defined.

Lemma _savgol_filter_window_witness :
  exists window_length,
    _savgol_filter savgol_id [1; 2; 3]%float 30 1000
    = savgol_id [1; 2; 3]%float window_length 5 /\
    Z.odd window_length = true /\
    window_length = (if Z.odd 33 then 33 else 33 + 1).
Proof.
  apply (_savgol_filter_window savgol_id [1; 2; 3]%float 30%float 1000%float 33);
    vm_compute; reflexivity.
Defined.

Lemma smooth_h_freq_zero_witness :
  smooth hamming_ones convolve_id savgol_id None (Some 0%float) four_fAm
  = (four_fAm, Raise OverflowError).
Proof.
  apply (smooth_h_freq_zero hamming_ones convolve_id savgol_id four_fAm
           7036874417766400 (-48));
    vm_compute; reflexivity.
Defined.

(** ** The constructor and the average *)

(** X14: the constructor succeeds exactly when there are two times at
    least, and raises the [IndexError] of [times[1]] otherwise; it does not
    compare the number of rows of the data with the number of times: the
    object it builds is in fAm, counts the rows in [N], takes its rate from
    the first two times alone, and is well formed exactly when there is one
    row per time. *)
Theorem Dipole_init_spec ts data nv :
  ((length ts < 2)%nat -> Dipole_init ts data nv = Raise IndexError) /\
  ((2 <= length ts)%nat ->
   exists dpl,
     Dipole_init ts data nv = Ok dpl /\
     units dpl = "fAm"%string /\ N dpl = length data /\ times dpl = ts /\
     nave dpl = nv /\
     sfreq dpl = (1000 / (nth 1 ts nan - nth 0 ts nan))%float /\
     length (data_agg dpl) = length data /\
     length (data_L2 dpl) = length data /\
     length (data_L5 dpl) = length data /\
     (well_formed dpl <-> length data = length ts)).
Proof.
  split; intros Hlen.
  - destruct ts as [|t0 [|t1 ts]]; simpl in Hlen; try lia; reflexivity.
  - destruct ts as [|t0 [|t1 ts]]; simpl in Hlen; try lia.
    eexists. split; [reflexivity|].
    cbn [units N times nave sfreq data_agg data_L2 data_L5 nth].
    rewrite !length_map. do 8 (split; [reflexivity|]).
    unfold well_formed. cbn [data_agg data_L2 data_L5 times].
    rewrite !length_map. split.
    + intros (H & _). exact H.
    + intros H. repeat split; trivial; simpl; lia.
Qed.

Lemma average_dipoles_nave dpls avg :
  average_dipoles dpls = Ok avg ->
  (2 <= length dpls)%nat /\ nave avg = Z.of_nat (length dpls).
Proof.
  unfold average_dipoles.
  destruct (Nat.ltb_spec (length dpls) 2) as [|Hlen]; [discriminate|].
  destruct (check_nave dpls 0); [| discriminate].
  destruct (layer_mean data_agg dpls); [| discriminate].
  destruct (layer_mean data_L2 dpls); [| discriminate].
  destruct (layer_mean data_L5 dpls); [| discriminate].
  cbn [rbind]. destruct (np_c_ _ _ _); [| discriminate].
  cbn [rbind]. destruct dpls as [|dpl0 rest]; [discriminate|].
  unfold Dipole_init. destruct (times dpl0) as [|t0 [|t1 ts]]; try discriminate.
  cbn [rbind]. intros H. inversion H. split; [exact Hlen | reflexivity].
Qed.

(** X15: [average_dipoles] never looks at the times of the trials but to
    copy those of the first one.  Trials whose [nave] is 1 at most and whose
    layers all have one length [n], two samples at least, are averaged
    whatever their time grids:
    the average has the times of the first trial, a rate computed from the
    first two of them, [n] samples, the layers' means and the number of trials as
    [nave]. *)
Theorem average_dipoles_first_grid dpl0 dpl1 rest n t0 t1 ts :
  let dpls := dpl0 :: dpl1 :: rest in
  (2 <= n)%nat ->
  Forall (fun dpl => nave dpl <= 1) dpls ->
  Forall (fun dpl => length (data_agg dpl) = n /\ length (data_L2 dpl) = n /\
                     length (data_L5 dpl) = n) dpls ->
  times dpl0 = t0 :: t1 :: ts ->
  average_dipoles dpls
  = Ok (mkDipole "fAm" n (times dpl0)
                 (np_mean_axis0 (map data_agg dpls))
                 (np_mean_axis0 (map data_L2 dpls))
                 (np_mean_axis0 (map data_L5 dpls))
                 (Z.of_nat (length dpls))
                 (1000 / (t1 - t0))%float).
Proof.
  intros dpls _ Hnave Hlayers Hts.
  assert (Hagg : Forall (fun dpl => length (data_agg dpl) = n) dpls)
    by (eapply Forall_impl; [| exact Hlayers]; simpl; tauto).
  assert (HL2 : Forall (fun dpl => length (data_L2 dpl) = n) dpls)
    by (eapply Forall_impl; [| exact Hlayers]; simpl; tauto).
  assert (HL5 : Forall (fun dpl => length (data_L5 dpl) = n) dpls)
    by (eapply Forall_impl; [| exact Hlayers]; simpl; tauto).
  assert (Hlen : forall layer : Dipole -> list float,
             Forall (fun dpl => length (layer dpl) = n) dpls ->
             length (np_mean_axis0 (map layer dpls)) = n).
  { intros layer H. apply np_mean_axis0_length; [discriminate | now apply Forall_map]. }
  unfold average_dipoles.
  change (length dpls <? 2)%nat with false. cbv iota.
  rewrite (check_nave_ok _ _ Hnave).
  rewrite (layer_mean_ok _ _ n Hagg), (layer_mean_ok _ _ n HL2),
    (layer_mean_ok _ _ n HL5).
  cbn [rbind].
  destruct (np_c_columns (np_mean_axis0 (map data_agg dpls))
                         (np_mean_axis0 (map data_L2 dpls))
                         (np_mean_axis0 (map data_L5 dpls)))
    as (rows & Hrows & Hl & Ha & Hb & Hc).
  { now rewrite !Hlen. }
  { now rewrite !Hlen. }
  rewrite Hrows. cbn [rbind]. unfold dpls at 1.
  unfold Dipole_init. rewrite Hts. cbn [rbind set_nave units N times data_agg
    data_L2 data_L5 nave sfreq].
  rewrite Ha, Hb, Hc, Hl, <- Hts, (Hlen _ Hagg).
  reflexivity.
Qed.

Lemma average_dipoles_first_grid_witness :
  average_dipoles [three_samples 1 1 2 3; late_samples]
  = Ok (mkDipole "fAm" 3 [0; 0.5; 1]%float
                 (np_mean_axis0 [[1; 2; 3]; [3; 4; 5]]%float)
                 (np_mean_axis0 [[1; 1; 1]; [3; 3; 3]]%float)
                 (np_mean_axis0 [[2; 2; 3]; [4; 4; 5]]%float)
                 2 (1000 / (0.5 - 0))%float).
Proof.
  apply (average_dipoles_first_grid (three_samples 1 1 2 3) late_samples [] 3%nat
           0%float 0.5%float [1%float]).
  - lia.
  - repeat constructor; simpl; lia.
  - repeat constructor.
  - reflexivity.
Defined.

(** X16: an average is not averaged again.  The dipole that
    [average_dipoles] returns, put first in a list with any other dipoles, is
    refused, with its position 0 and the number of trials it stands for. *)
Theorem average_dipoles_not_again dpls avg others :
  average_dipoles dpls = Ok avg ->
  (1 <= length others)%nat ->
  average_dipoles (avg :: others)
  = Raise (ValueError (already_average 0 (Z.of_nat (length dpls)))).
Proof.
  intros Havg Hothers.
  destruct (average_dipoles_nave _ _ Havg) as (Hlen & Hn).
  unfold average_dipoles. cbn [length].
  destruct (Nat.ltb_spec (S (length others)) 2); [lia|].
  cbn [check_nave]. rewrite Hn.
  destruct (Z.gtb_spec (Z.of_nat (length dpls)) 1); [reflexivity | lia].
Qed.

Lemma average_dipoles_not_again_witness :
  average_dipoles
    [mkDipole "fAm" 3 [0; 0.5; 1]%float
              (np_mean_axis0 [[1; 2; 3]; [3; 4; 5]]%float)
              (np_mean_axis0 [[1; 1; 1]; [3; 3; 3]]%float)
              (np_mean_axis0 [[2; 2; 3]; [4; 4; 5]]%float)
              2 (1000 / (0.5 - 0))%float;
     three_samples 1 1 2 3]
  = Raise (ValueError (already_average 0 2)).
Proof.
  apply (average_dipoles_not_again [three_samples 1 1 2 3; late_samples] _
           [three_samples 1 1 2 3]).
  - vm_compute. reflexivity.
  - simpl. lia.
Defined.

(** ** More on _check_nfft and the Welch plot *)

(** X17: what [_check_nfft] returns, when it returns, is the FFT length and
    the overlap that it was given and a segment length that is above the
    overlap, and is the number of samples at most, the FFT length at most
    and the segment length asked for at most; with no segment length asked
    for it is the FFT length. *)
Theorem _check_nfft_post n n_fft n_per_seg n_overlap a b c :
  _check_nfft n n_fft n_per_seg n_overlap = Ok (a, b, c) ->
  a = n_fft /\ c = n_overlap /\ n_overlap < b /\ b <= n /\ b <= n_fft /\
  match n_per_seg with Some p => b <= p | None => b = n_fft end.
Proof.
  unfold _check_nfft. destruct n_per_seg as [p|].
  - set (s := if p >? n_fft then n_fft else p).
    assert (Hs : s = Z.min p n_fft) by (unfold s; destruct (Z.gtb_spec p n_fft); lia).
    set (s' := if s >? n then n else s).
    assert (Hs' : s' = Z.min s n) by (unfold s'; destruct (Z.gtb_spec s n); lia).
    destruct (Z.geb_spec n_overlap s'); [discriminate|].
    intros Hok. inversion Hok. subst. lia.
  - cbv iota. destruct (Z.gtb_spec n_fft n) as [Hlong|Hfits];
      [intros Hok; discriminate Hok|].
    cbv iota. destruct (Z.geb_spec n_overlap n_fft); [discriminate|].
    intros Hok. inversion Hok. subst. lia.
Qed.

Lemma _check_nfft_post_witness :
  _check_nfft 1000 (2 ^ 14) (Some (2 ^ 12)) 0 = Ok (2 ^ 14, 1000, 0) /\
  0 < 1000 /\ 1000 <= 1000 /\ 1000 <= 2 ^ 14 /\ 1000 <= 2 ^ 12.
Proof.
  split; [reflexivity|].
  apply (_check_nfft_post 1000 (2 ^ 14) (Some (2 ^ 12)) 0 (2 ^ 14) 1000 0).
  reflexivity.
Defined.

(** X18: with no segment length asked for, nothing is clipped: an FFT
    longer than the signal is refused, an overlap that is not below the FFT
    length is refused, and otherwise the segment is the FFT length. *)
Theorem _check_nfft_default n n_fft n_overlap :
  _check_nfft n n_fft None n_overlap
  = if n_fft >? n then Raise (ValueError (n_fft_too_long n_fft n))
    else if n_overlap >=? n_fft
         then Raise (ValueError (n_overlap_too_long n_overlap n_fft))
         else Ok (n_fft, n_fft, n_overlap).
Proof.
  unfold _check_nfft.
  destruct (Z.gtb_spec n_fft n) as [H|H]; [reflexivity|].
  destruct (Z.gtb_spec n_fft n); [lia | reflexivity].
Qed.

(** X19: with the default lengths of the Welch plot, an FFT of [2^14]
    samples, segments of [2^12] and no overlap, a segment of the dipole that
    holds a sample is always accepted, and Welch's method is run with
    segments of [2^12] samples or of the whole segment if that is shorter; a
    window that selects no sample is refused by the check of the overlap. *)
Theorem plot_psd_welch_defaults
    (welch : list float -> float -> Z -> Z -> Z -> result (list float * list float))
    dpl tmin tmax layer data times' :
  _get_plot_data dpl layer tmin tmax 1 = Ok (data, times') ->
  plot_psd_welch welch dpl (2 ^ 14) 0 (Some (2 ^ 12)) tmin tmax layer
  = match times' with
    | [] => Raise (ValueError (n_overlap_too_long 0 0))
    | _ => welch data (sfreq dpl) (2 ^ 14) 0
                 (Z.min (2 ^ 12) (Z.of_nat (length times')))
    end.
Proof.
  intros Hdata. unfold plot_psd_welch. rewrite Hdata. cbn [rbind fst snd].
  rewrite _check_nfft_segment.
  replace (Z.min (Z.min (2 ^ 12) (2 ^ 14)) (Z.of_nat (length times')))
    with (Z.min (2 ^ 12) (Z.of_nat (length times'))) by lia.
  destruct times' as [|t times']; [reflexivity|].
  destruct (Z.geb_spec 0 (Z.min (2 ^ 12) (Z.of_nat (length (t :: times')))));
    [simpl length in *; lia | reflexivity].
Qed.

Lemma plot_psd_welch_defaults_witness :
  plot_psd_welch welch_echo four_samples (2 ^ 14) 0 (Some (2 ^ 12)) None None "agg"
  = welch_echo [1 * 5; 1 * 6; 1 * 7]%float (sfreq four_samples) (2 ^ 14) 0
               (Z.min (2 ^ 12) 3).
Proof.
  apply (plot_psd_welch_defaults welch_echo four_samples None None "agg"
           [1 * 5; 1 * 6; 1 * 7]%float [0; 1; 40]%float).
  vm_compute. reflexivity.
Defined.

(** ** The window of _get_plot_data *)

Lemma In_getmask {A} (f : A -> bool) (ts : list A) t :
  In t (getmask ts (map f ts)) -> In t ts /\ f t = true.
Proof.
  induction ts as [|a ts IH]; simpl; [tauto|].
  destruct (f a) eqn:E; simpl.
  - intros [<-|H]; [auto|]. destruct (IH H); auto.
  - intros H. destruct (IH H); auto.
Qed.

Lemma getmask_all_false {A B} (f : B -> bool) (xs : list A) (ts : list B) :
  (forall t, In t ts -> f t = false) -> getmask xs (map f ts) = [].
Proof.
  revert ts. induction xs as [|x xs IH]; intros [|t ts] H; simpl; trivial.
  rewrite (H t) by now left. apply IH. intros t' Hin. apply H. now right.
Qed.

Lemma last_default {A} (l : list A) d d' : l <> [] -> last l d = last l d'.
Proof.
  induction l as [|a [|b l] IH]; intros H; [congruence | reflexivity |].
  apply IH. discriminate.
Qed.

(** A time inside the window is at or above the lower bound that was asked
    for. *)
Lemma plot_window_lower t t0 lo :
  geb t (py_max lo t0) = true -> geb t lo = true.
Proof.
  unfold py_max, gtb, geb. destruct (lo <? t0)%float eqn:E; trivial.
  intros H. apply leb_float_le. apply float_lt_le.
  eapply float_lt_le_trans; [apply ltb_float_lt; exact E | now apply leb_float_le].
Qed.

(** ... and below the upper bound that was asked for. *)
Lemma plot_window_upper t t_last hi :
  (t <? py_min hi t_last)%float = true -> (t <? hi)%float = true.
Proof.
  unfold py_min. destruct (t_last <? hi)%float eqn:E; trivial.
  intros H. apply ltb_float_lt.
  eapply float_lt_trans; apply ltb_float_lt; eassumption.
Qed.

(** X20: every time that [_get_plot_data] returns is a time of the dipole
    inside the half-open window: at or above [tmin] and strictly below
    [tmax] when they are given, at or above the first time and strictly
    below the last one when they are not; and there is one sample of data per
    time returned. *)
Theorem _get_plot_data_within_window dpl layer tmin tmax scaling data times' :
  _get_plot_data dpl layer tmin tmax scaling = Ok (data, times') ->
  length data = length times' /\
  forall t, In t times' ->
    In t (times dpl) /\
    match tmin with
    | Some lo => geb t lo = true
    | None => geb t (hd nan (times dpl)) = true
    end /\
    match tmax with
    | Some hi => (t <? hi)%float = true
    | None => (t <? last (times dpl) nan)%float = true
    end.
Proof.
  intros Hrun. split; [exact (_get_plot_data_lengths _ _ _ _ _ _ _ Hrun)|].
  revert Hrun. unfold _get_plot_data.
  destruct (times dpl) as [|t0 ts]; [discriminate|].
  destruct (data_get dpl layer) as [x|]; [| discriminate]. cbn [rbind].
  set (lower := match tmin with Some lo => py_max lo t0 | None => t0 end).
  set (upper := match tmax with
                | Some hi => py_min hi (last (t0 :: ts) t0)
                | None => last (t0 :: ts) t0
                end).
  destruct (_ =? _)%nat; [| discriminate].
  intros Hok t Hin.
  assert (Ht : times' = getmask (t0 :: ts)
                          (map (fun t => geb t lower && (t <? upper)%float) (t0 :: ts)))
    by congruence.
  rewrite Ht in Hin. apply In_getmask in Hin. destruct Hin as (Hin & Hmask).
  apply andb_prop in Hmask. destruct Hmask as (Hlo & Hhi).
  split; [exact Hin|]. split.
  - unfold lower in Hlo. destruct tmin as [lo|]; [| exact Hlo].
    now apply plot_window_lower in Hlo.
  - unfold upper in Hhi. rewrite (last_default (t0 :: ts) nan t0) by discriminate.
    destruct tmax as [hi|]; [| exact Hhi].
    now apply plot_window_upper in Hhi.
Qed.

Lemma _get_plot_data_within_window_witness :
  length [1 * 6; 1 * 7]%float = length [1; 40]%float /\
  forall t, In t [1; 40]%float ->
    In t (times four_samples) /\
    geb t 0.5 = true /\
    (t <? 900)%float = true.
Proof.
  apply (_get_plot_data_within_window four_samples "agg" (Some 0.5%float)
           (Some 900%float) 1%float [1 * 6; 1 * 7]%float [1; 40]%float).
  vm_compute. reflexivity.
Defined.

(** A window that starts at the last time or after it holds no time. *)
Lemma plot_window_closed t t0 t_last lo tmax :
  (t_last <=? lo)%float = true ->
  geb t (py_max lo t0)
  && (t <? match tmax with
           | Some hi => py_min hi t_last
           | None => t_last
           end)%float = false.
Proof.
  intros Hlast.
  destruct (geb t (py_max lo t0) && _)%bool eqn:E; trivial. exfalso.
  apply andb_prop in E. destruct E as (Hlo & Hhi).
  apply plot_window_lower in Hlo. unfold geb in Hlo.
  apply leb_float_le in Hlo, Hlast.
  assert (Hbelow : float_lt t t_last -> False).
  { intros H. apply (float_lt_irrefl t).
    eapply float_lt_le_trans; [exact H|]. eapply float_le_trans; eassumption. }
  destruct tmax as [hi|]; [| apply Hbelow; now apply ltb_float_lt].
  unfold py_min in Hhi. destruct (t_last <? hi)%float eqn:E.
  - apply Hbelow. now apply ltb_float_lt.
  - apply ltb_float_lt in Hhi.
    assert (K : float_lt t_last hi).
    { eapply float_le_lt_trans; [| exact Hhi]. eapply float_le_trans; eassumption. }
    apply ltb_float_lt in K. congruence.
Qed.

(** X21: a window whose lower bound is the last time of the dipole, or is
    beyond it, is not refused: [_get_plot_data] returns no data and no
    times, whatever the upper bound. *)
Theorem _get_plot_data_empty_window dpl layer x lo tmax scaling :
  data_get dpl layer = Ok x ->
  length x = length (times dpl) ->
  times dpl <> [] ->
  (last (times dpl) nan <=? lo)%float = true ->
  _get_plot_data dpl layer (Some lo) tmax scaling = Ok ([], []).
Proof.
  intros Hx Hlx Hne Hlast. unfold _get_plot_data.
  destruct (times dpl) as [|t0 ts]; [congruence|].
  rewrite Hx. cbn [rbind]. rewrite length_map, Hlx, Nat.eqb_refl.
  rewrite (last_default (t0 :: ts) nan t0) in Hlast by discriminate.
  rewrite !getmask_all_false; trivial;
    intros t _; now apply plot_window_closed.
Qed.

Lemma _get_plot_data_empty_window_witness :
  _get_plot_data four_samples "L2" (Some 800%float) (Some 1000%float) 1e-6
  = Ok ([], []).
Proof.
  apply (_get_plot_data_empty_window four_samples "L2" [1; 2; 3; 4]%float
           800%float (Some 1000%float) 1e-6%float).
  - reflexivity.
  - reflexivity.
  - discriminate.
  - vm_compute. reflexivity.
Defined.

(** ** The stride of the decimated times *)

(** Taking the items at indices that are all inside the list. *)
Lemma take_in_range {A} (l : list A) (idx : list Z) :
  Forall (fun i => 0 <= i < Z.of_nat (length l)) idx ->
  length (take l idx) = length idx /\
  forall k i, nth_error idx k = Some i ->
    nth_error (take l idx) k = nth_error l (Z.to_nat i).
Proof.
  induction 1 as [|i idx Hi _ IH].
  - split; [reflexivity|]. intros [|k] i Hk; discriminate.
  - destruct IH as (IHl & IHn). unfold take in *. cbn [flat_map].
    destruct (nth_error l (Z.to_nat i)) as [x|] eqn:Hx;
      [| apply nth_error_None in Hx; lia].
    cbn [app length]. split; [now rewrite IHl|].
    intros [|k] j Hk; simpl in Hk.
    + inversion Hk; subst. simpl. now rewrite Hx.
    + simpl. now apply IHn.
Qed.

(** [l[::q]] for a positive [q]: the items at 0, [q], [2 q], ..., as many
    as [len(l) / q] rounded up. *)
Lemma getslice_stride {A} (l : list A) q :
  0 < q ->
  exists l',
    getslice l None None q = Ok l' /\
    Z.of_nat (length l') = (Z.of_nat (length l) + q - 1) / q /\
    forall k, (k < length l')%nat -> nth_error l' k = nth_error l (k * Z.to_nat q).
Proof.
  intros Hq. unfold getslice. destruct (Z.eqb_spec q 0); [lia|].
  eexists. split; [reflexivity|].
  unfold slice_indices, slice_start, slice_stop, slice_length.
  destruct (Z.ltb_spec q 0); [lia|].
  set (len := Z.of_nat (length l)).
  assert (Hlen : 0 <= len) by (unfold len; lia).
  set (m := Z.to_nat (if 0 <? len then (len - 0 - 1) / q + 1 else 0)).
  assert (Hm : Z.of_nat m = (len + q - 1) / q).
  { unfold m. destruct (Z.ltb_spec 0 len).
    - assert (0 <= (len - 0 - 1) / q) by (apply Z.div_pos; lia).
      rewrite Z2Nat.id by lia.
      replace (len + q - 1) with ((len - 0 - 1) + 1 * q) by lia.
      rewrite Z.div_add by lia. lia.
    - replace len with 0 by lia. rewrite Z.div_small by lia. reflexivity. }
  assert (Hrange : Forall (fun i => 0 <= i < len)
                          (map (fun k => 0 + Z.of_nat k * q) (seq 0 m))).
  { apply Forall_forall. intros i Hin. apply in_map_iff in Hin.
    destruct Hin as (k & <- & Hk). apply in_seq in Hk.
    pose proof (Z.mul_div_le (len + q - 1) q Hq). nia. }
  destruct (take_in_range l _ Hrange) as (Hl & Hn).
  rewrite Hl, length_map, length_seq. split; [exact Hm|].
  intros k Hk. rewrite (Hn k (0 + Z.of_nat k * q)).
  - f_equal. rewrite Z.add_0_l, Z2Nat.inj_mul, Nat2Z.id by lia. reflexivity.
  - rewrite nth_error_map, nth_error_seq.
    destruct (Nat.ltb_spec k m); [reflexivity | lia].
Qed.

Section Stride_properties.

Variable decimate : list float -> pyval -> result (list float).

(** X22: decimating by one positive factor [q] that the external routine
    accepts keeps the times at the indices 0, [q], [2 q], ...: as many as
    the number of times over [q], rounded up; with no rate given, none is
    returned. *)
Theorem _decimate_plot_data_stride q data ts data' :
  0 < q ->
  decimate data (PyInt q) = Ok data' ->
  exists ts',
    _decimate_plot_data decimate (PyInt q) data ts None = Ok (data', ts', None) /\
    Z.of_nat (length ts') = (Z.of_nat (length ts) + q - 1) / q /\
    forall k, (k < length ts')%nat ->
      nth_error ts' k = nth_error ts (k * Z.to_nat q).
Proof.
  intros Hq Hdec.
  destruct (getslice_stride ts q Hq) as (ts' & Hslice & Hlen & Hnth).
  exists ts'. split; [| split; assumption].
  unfold _decimate_plot_data. cbn [decimate_loop]. rewrite Hdec. cbn [rbind].
  unfold getslice_by. rewrite Hslice. reflexivity.
Qed.

End Stride_properties.

Lemma _decimate_plot_data_stride_witness :
  exists ts',
    _decimate_plot_data decimate_plain (PyInt 3) sixty_samples sixty_times None
    = Ok ([0; 9; 36; 81; 144; 225; 324; 441; 576; 729; 900; 1089; 1296; 1521;
           1764; 2025; 2304; 2601; 2916; 3249]%float, ts', None) /\
    Z.of_nat (length ts') = (60 + 3 - 1) / 3 /\
    forall k, (k < length ts')%nat ->
      nth_error ts' k = nth_error sixty_times (k * 3).
Proof.
  apply (_decimate_plot_data_stride decimate_plain 3 sixty_samples sixty_times
           [0; 9; 36; 81; 144; 225; 324; 441; 576; 729; 900; 1089; 1296; 1521;
            1764; 2025; 2304; 2601; 2916; 3249]%float).
  - lia.
  - vm_compute. reflexivity.
Defined.

(** ** A padding that is not known *)

Section Padding_properties.

Variable decimate : list float -> pyval -> result (list float).
Variable tfr_array_morlet :
  list float -> float -> list float -> list float -> result (list (list float)).

(** The transform keeps the time axis of the signal it is given. *)
Hypothesis tfr_time_axis :
  forall data sfreq freqs n_cycles power,
    tfr_array_morlet data sfreq freqs n_cycles = Ok power ->
    Forall (fun row => length row = length data) power.

(** X23: a padding that is a string but neither 'zeros' nor 'mirror' is not
    refused.  The segment is transformed without padding, and the power is
    cut all the same as if it had been padded: of every row only the last
    column is plotted, against all the times of the segment. *)
Theorem plot_tfr_morlet_unknown_padding
    dpl freqs n_cycles tmin tmax layer decim p data times' sf power :
  p <> "zeros"%string -> p <> "mirror"%string ->
  tfr_segment decimate dpl tmin tmax layer decim = Ok (data, times', sf) ->
  length data = length times' ->
  (1 <= length data)%nat ->
  tfr_array_morlet data sf freqs n_cycles = Ok power ->
  plot_tfr_morlet decimate tfr_array_morlet dpl freqs n_cycles tmin tmax layer
                  decim (PyStr p)
  = Ok (times', freqs,
        map (fun row => firstn 1 (skipn (length data - 1) row)) power) /\
  Forall (fun row => length row = 1%nat)
         (map (fun row => firstn 1 (skipn (length data - 1) row)) power).
Proof.
  intros Hz Hm Hseg Hlen HL Hpower.
  pose proof (tfr_time_axis _ _ _ _ _ Hpower) as Hrows.
  rewrite Forall_forall in Hrows.
  split.
  - unfold plot_tfr_morlet. rewrite Hseg. cbn [rbind fst snd].
    assert (Hpad : pad (PyStr p) data = Ok data).
    { unfold pad. destruct (String.eqb_spec p "zeros"); [congruence|].
      destruct (String.eqb_spec p "mirror"); [congruence | reflexivity]. }
    rewrite Hpad. cbn [rbind]. rewrite Hpower. cbn [rbind]. unfold crop.
    cbn [rbind]. do 2 f_equal. apply map_ext_in. intros row Hin.
    rewrite <- Hlen.
    unfold slice_indices, slice_start, slice_stop, adjust_index, slice_length.
    rewrite (Hrows row Hin). cbn [Z.ltb Z.compare].
    set (n := Z.of_nat (length data)).
    assert (Hn : 1 <= n) by (unfold n; lia).
    destruct (Z.ltb_spec (n - 1) 0); [lia|].
    destruct (Z.leb_spec n (n - 1)); [lia|].
    destruct (Z.ltb_spec (2 * n - 1) 0); [lia|].
    destruct (Z.leb_spec n (2 * n - 1)); [| lia].
    destruct (Z.ltb_spec (n - 1) n); [| lia].
    replace (Z.to_nat ((n - (n - 1) - 1) / 1 + 1)) with 1%nat
      by (replace (n - (n - 1) - 1) with 0 by lia; reflexivity).
    replace (n - 1) with (Z.of_nat (length data - 1)) by (unfold n; lia).
    apply take_upwards. rewrite (Hrows row Hin). lia.
  - apply Forall_forall. intros row Hin. apply in_map_iff in Hin.
    destruct Hin as (row' & <- & Hin).
    rewrite length_firstn, length_skipn, (Hrows row' Hin). lia.
Qed.

End Padding_properties.

Lemma plot_tfr_morlet_unknown_padding_witness :
  plot_tfr_morlet decimate_plain tfr_square four_samples [10; 20]%float [7]%float
                  None None "agg" PyNone (PyStr "zero")
  = Ok ([0; 1; 40]%float, [10; 20]%float,
        map (fun row => firstn 1 (skipn 2 row))
            [[25; 36; 49]%float; [25; 36; 49]%float]) /\
  Forall (fun row => length row = 1%nat)
         (map (fun row => firstn 1 (skipn 2 row))
              [[25; 36; 49]%float; [25; 36; 49]%float]).
Proof.
  apply (plot_tfr_morlet_unknown_padding decimate_plain tfr_square
           tfr_square_time_axis four_samples [10; 20]%float [7]%float None None
           "agg" PyNone "zero" [1 * 5; 1 * 6; 1 * 7]%float [0; 1; 40]%float
           1000%float).
  - discriminate.
  - discriminate.
  - vm_compute. reflexivity.
  - reflexivity.
  - simpl. lia.
  - vm_compute. reflexivity.
Defined.

(** ** The plots of the dipole *)

(** X24: [_check_scaling_units] accepts a scaling that is a float or [None]
    and units that are a string or [None], and nothing else: an integer
    scaling is refused, although [None] is replaced by the integer 1, so that
    the scaling the check returns for [None] is one that the check itself
    refuses; [None] for the units becomes the empty string; and a scaling
    that is refused is reported before the units are looked at. *)
Theorem _check_scaling_units_spec scaling units :
  match _check_scaling_units scaling units with
  | inr (s, u) =>
      ((exists x, scaling = PyFloat x /\ s = scaling_float x) \/
       (scaling = PyNone /\ s = scaling_one)) /\
      (units = PyStr u \/ (units = PyNone /\ u = ""))
  | inl (scaling_not_float v) =>
      v = scaling /\ (forall x, scaling <> PyFloat x) /\ scaling <> PyNone
  | inl (units_not_str v) =>
      v = units /\ (forall u, units <> PyStr u) /\ units <> PyNone /\
      ((exists x, scaling = PyFloat x) \/ scaling = PyNone)
  end /\
  (forall s u,
     _check_scaling_units PyNone units = inr (s, u) ->
     scaling_pyval s = PyInt 1 /\
     _check_scaling_units (scaling_pyval s) (PyStr u)
     = inl (scaling_not_float (PyInt 1))).
Proof.
  split.
  - destruct scaling as [|z|x|str|l], units as [|z'|x'|str'|l'];
      cbn [_check_scaling_units];
      repeat split; try discriminate; eauto.
  - intros s u. destruct units as [|z'|x'|str'|l']; cbn [_check_scaling_units];
      intros H; inversion H; split; reflexivity.
Qed.

Lemma unknown_layer layer :
  ~ In layer data_keys -> existsb (String.eqb layer) data_keys = false.
Proof.
  intros H. destruct (existsb (String.eqb layer) data_keys) eqn:E; trivial.
  apply existsb_exists in E. destruct E as (key & Hin & Heq).
  apply String.eqb_eq in Heq. now subst.
Qed.

Lemma known_layer layer :
  In layer data_keys -> existsb (String.eqb layer) data_keys = true.
Proof.
  intros H. apply existsb_exists. exists layer. split; [exact H|].
  apply String.eqb_refl.
Qed.

Lemma plot_trials_none {L} (body : Dipole -> result (option L)) dpls :
  (forall dpl_trial, body dpl_trial = Ok None) -> plot_trials body dpls = Ok [].
Proof.
  intros H. induction dpls as [|d dpls IH]; [reflexivity|].
  cbn [plot_trials]. now rewrite H, IH.
Qed.

Lemma plot_trials_lines {L} (body : Dipole -> result (option L)) (P : L -> Prop)
    dpls lines :
  (forall dpl_trial r, body dpl_trial = Ok r -> exists line, r = Some line /\ P line) ->
  plot_trials body dpls = Ok lines ->
  length lines = length dpls /\ Forall P lines.
Proof.
  intros Hbody. revert lines.
  induction dpls as [|d dpls IH]; intros lines; cbn [plot_trials].
  - intros H. inversion H. split; [reflexivity | constructor].
  - destruct (body d) as [r|] eqn:Hd; [| discriminate]. cbn [rbind].
    destruct (plot_trials body dpls) as [rest|]; [| discriminate]. cbn [rbind].
    destruct (Hbody d r Hd) as (line & -> & Hline).
    destruct (IH rest eq_refl) as (Hlen & Hall).
    intros H. inversion H. split; [simpl; now rewrite Hlen | now constructor].
Qed.

Section Dipole_plot_properties.

Variable decimate : list float -> pyval -> result (list float).
Variable periodogram : list float -> float -> Z -> result (list float * list float).

(** X25: a layer that is no key of the data is not an error for
    [plot_dipole].  Once the scaling and the units are accepted, no line is
    drawn and nothing is raised, whatever the dipoles, the window and the
    decimation are, valid or not; the title is the layer as it was
    given. *)
Theorem plot_dipole_unknown_layer dpl tmin tmax layer decim units scaling s u :
  ~ In layer data_keys ->
  _check_scaling_units scaling units = inr (s, u) ->
  plot_dipole decimate dpl tmin tmax layer decim units scaling
  = Drawn ([],
           if (0 <? String.length u)%nat
           then "Dipole moment (" ++ u ++ ")" else "Dipole moment",
           layer).
Proof.
  intros Hlayer Hcheck. unfold plot_dipole. rewrite Hcheck.
  rewrite plot_trials_none.
  - destruct (String.eqb_spec layer "agg") as [->|_]; [| reflexivity].
    exfalso. apply Hlayer. now left.
  - intros d. unfold plot_trial. now rewrite unknown_layer.
Qed.

(** X26: [plot_psd] checks the scaling and never applies it.  With any
    scaling that is accepted the outcome is that of [scaling=None]: the
    periodogram of the samples of the window as they are, with as many FFT
    points as there are samples; and here a layer that is no key of the data
    raises its [KeyError]. *)
Theorem plot_psd_unscaled dpl tmin tmax layer units scaling s u :
  _check_scaling_units scaling units = inr (s, u) ->
  plot_psd periodogram dpl tmin tmax layer units scaling
  = plot_psd periodogram dpl tmin tmax layer (PyStr u) PyNone /\
  (forall data times',
     _get_plot_data dpl layer tmin tmax 1 = Ok (data, times') ->
     plot_psd periodogram dpl tmin tmax layer units scaling
     = match periodogram data (sfreq dpl) (Z.of_nat (length times')) with
       | Ok (freqs, Pxx) => Drawn (freqs, Pxx, "Power (" ++ u ++ "$^2 \ Hz^{-1}$)")
       | Raise e => Failed e
       end) /\
  (~ In layer data_keys -> times dpl <> [] ->
   plot_psd periodogram dpl tmin tmax layer units scaling = Failed (KeyError layer)).
Proof.
  intros Hcheck. unfold plot_psd. rewrite Hcheck. cbn [_check_scaling_units].
  split; [reflexivity|]. split.
  - intros data times' Hdata. rewrite Hdata. cbn [rbind fst].
    now rewrite (_get_plot_data_lengths _ _ _ _ _ _ _ Hdata).
  - intros Hlayer Hne. unfold _get_plot_data.
    destruct (times dpl) as [|t0 ts]; [congruence|].
    unfold data_get.
    destruct (String.eqb_spec layer "agg");
      [exfalso; apply Hlayer; subst; simpl; auto|].
    destruct (String.eqb_spec layer "L2");
      [exfalso; apply Hlayer; subst; simpl; auto|].
    destruct (String.eqb_spec layer "L5");
      [exfalso; apply Hlayer; subst; simpl; auto|].
    reflexivity.
Qed.

(** X27: for a layer of the data and without decimation, [plot_dipole]
    draws one line for each dipole of the list, in order, and every line has
    as many times as it has samples. *)
Theorem plot_dipole_lines dpls tmin tmax layer units scaling lines ylabel title_str :
  In layer data_keys ->
  plot_dipole decimate (inr dpls) tmin tmax layer PyNone units scaling
  = Drawn (lines, ylabel, title_str) ->
  length lines = length dpls /\
  Forall (fun line => length (fst line) = length (snd line)) lines.
Proof.
  intros Hlayer. unfold plot_dipole.
  destruct (_check_scaling_units scaling units) as [e|[s u]]; [discriminate|].
  destruct (plot_trials _ dpls) as [lines'|] eqn:Hlines; [| discriminate].
  intros H. inversion H. subst lines'.
  refine (plot_trials_lines _ _ _ _ _ Hlines).
  intros d r. unfold plot_trial. rewrite (known_layer _ Hlayer).
  destruct (_get_plot_data d layer tmin tmax (scaling_factor s)) as [[data times']|]
    eqn:Hdata; [| discriminate].
  cbn [rbind fst snd]. intros Hr. inversion Hr.
  exists (times', data). split; [reflexivity|]. cbn [fst snd].
  symmetry. exact (_get_plot_data_lengths _ _ _ _ _ _ _ Hdata).
Qed.

End Dipole_plot_properties.

Lemma plot_dipole_unknown_layer_witness :
  plot_dipole decimate_plain (inr [four_samples; two_samples]) None (Some 3%float)
              "L4" (PyFloat 2.5) (PyStr "nAm") PyNone
  = Drawn ([], "Dipole moment (nAm)", "L4").
Proof.
  apply (plot_dipole_unknown_layer decimate_plain (inr [four_samples; two_samples])
           None (Some 3%float) "L4" (PyFloat 2.5) (PyStr "nAm") PyNone
           scaling_one "nAm").
  - simpl. intros [H|[H|[H|[]]]]; discriminate.
  - reflexivity.
Defined.

Lemma plot_psd_unscaled_witness :
  plot_psd periodogram_echo four_samples None None "agg" PyNone (PyFloat 1e-6)
  = Drawn ([1000; float_of_Z 3]%float, [1 * 5; 1 * 6; 1 * 7]%float,
           "Power ($^2 \ Hz^{-1}$)") /\
  plot_psd periodogram_echo four_samples None None "L4" PyNone (PyFloat 1e-6)
  = Failed (KeyError "L4").
Proof.
  destruct (plot_psd_unscaled periodogram_echo four_samples None None "agg" PyNone
              (PyFloat 1e-6) (scaling_float 1e-6) "" eq_refl) as (_ & Hrun & _).
  destruct (plot_psd_unscaled periodogram_echo four_samples None None "L4" PyNone
              (PyFloat 1e-6) (scaling_float 1e-6) "" eq_refl) as (_ & _ & Hkey).
  split.
  - rewrite (Hrun [1 * 5; 1 * 6; 1 * 7]%float [0; 1; 40]%float);
      [reflexivity | vm_compute; reflexivity].
  - apply Hkey; [simpl; intros [H|[H|[H|[]]]]; discriminate | discriminate].
Defined.

Lemma plot_dipole_lines_witness :
  length [([0; 1; 40]%float, [5e-1 * 1; 5e-1 * 2; 5e-1 * 3]%float);
          ([0%float], [5e-1 * 0]%float)] = 2%nat /\
  Forall (fun line : list float * list float => length (fst line) = length (snd line))
         [([0; 1; 40]%float, [5e-1 * 1; 5e-1 * 2; 5e-1 * 3]%float);
          ([0%float], [5e-1 * 0]%float)].
Proof.
  apply (plot_dipole_lines decimate_plain [four_samples; two_samples] None None
           "L2" (PyStr "nAm") (PyFloat 0.5) _ "Dipole moment (nAm)" "L2").
  - simpl. tauto.
  - vm_compute. reflexivity.
Defined.

(** ** The labels of plot_spikes_hist *)

Lemma dict_mem_In {V} (d : dict V) key :
  dict_mem d key = true <-> In key (map fst d).
Proof.
  unfold dict_mem. rewrite existsb_exists. split.
  - intros (item & Hin & Heq). apply String.eqb_eq in Heq. subst.
    now apply in_map.
  - intros H. apply in_map_iff in H. destruct H as (item & <- & Hin).
    exists item. split; [exact Hin | apply String.eqb_refl].
Qed.

(** Setting a key that is not there yet puts it last. *)
Lemma dict_set_new {V} (d : dict V) key v :
  dict_mem d key = false -> dict_set d key v = (d ++ [(key, v)])%list.
Proof.
  induction d as [|[k v'] d IH]; [reflexivity|].
  unfold dict_mem. cbn [existsb fst dict_set app].
  destruct (String.eqb key k); [discriminate|]. cbn [orb].
  intros H. now rewrite IH.
Qed.

Lemma NoDup_snoc {A} (l : list A) x : NoDup l -> ~ In x l -> NoDup (l ++ [x]).
Proof.
  intros Hl Hx. induction Hl as [|y l Hy Hl IH]; simpl.
  - constructor; [tauto | constructor].
  - constructor.
    + rewrite in_app_iff. simpl. intros [H|[H|[]]]; [tauto|].
      subst. apply Hx. now left.
    + apply IH. intros H. apply Hx. now right.
Qed.

(** The loop over the types for a prefix: the types it selects are labelled
    in order and counted, and none of them had a label before. *)
Lemma match_types_run spike_label prefix unique_types spike_labels n_found r :
  match_types spike_label (PyStr prefix) unique_types spike_labels n_found = inr r ->
  fst r = (spike_labels ++ labelled unique_types spike_label prefix)%list /\
  snd r = (n_found + length (labelled unique_types spike_label prefix))%nat /\
  (NoDup (map fst spike_labels) -> NoDup (map fst (fst r))).
Proof.
  unfold labelled. revert spike_labels n_found.
  induction unique_types as [|ut uts IH]; intros acc n; cbn [match_types filter].
  - intros H. inversion H. cbn [fst snd map length].
    rewrite app_nil_r, Nat.add_0_r. auto.
  - destruct (String.prefix prefix ut); [| apply IH].
    destruct (dict_mem acc ut) eqn:Hmem; [discriminate|].
    rewrite (dict_set_new _ _ _ Hmem). intros H.
    destruct (IH _ _ H) as (Hfst & Hsnd & Hnodup).
    cbn [map length]. split; [| split].
    + rewrite Hfst, <- app_assoc. reflexivity.
    + rewrite Hsnd. lia.
    + intros Hacc. apply Hnodup. rewrite map_app. cbn [map fst].
      apply NoDup_snoc; [exact Hacc|].
      intros Hin. apply dict_mem_In in Hin. congruence.
Qed.

Lemma label_group_run spike_label prefixes unique_types spike_labels r :
  label_group spike_label (map PyStr prefixes) unique_types spike_labels = inr r ->
  r = (spike_labels ++ group_labels unique_types spike_label prefixes)%list /\
  (NoDup (map fst spike_labels) -> NoDup (map fst r)) /\
  forall prefix, In prefix prefixes ->
    exists unique_type,
      In unique_type unique_types /\ String.prefix prefix unique_type = true.
Proof.
  revert spike_labels.
  induction prefixes as [|prefix rest IH]; intros acc; cbn [map label_group].
  - intros H. inversion H. cbn. rewrite app_nil_r.
    repeat split; auto. intros p [].
  - destruct (match_types spike_label (PyStr prefix) unique_types acc 0)
      as [e|r1] eqn:Hm; [discriminate|].
    cbn [sbind]. destruct (Nat.eqb_spec (snd r1) 0) as [|Hfound]; [discriminate|].
    intros H. destruct (IH _ H) as (Hr & Hnodup & Hall).
    destruct (match_types_run _ _ _ _ _ _ Hm) as (Hfst & Hsnd & Hnodup1).
    cbn [group_labels flat_map]. split; [| split].
    + rewrite Hr, Hfst, <- app_assoc. reflexivity.
    + intros Hacc. auto.
    + intros p [->|Hp]; [| now apply Hall].
      cbn [Nat.add] in Hsnd. unfold labelled in Hsnd. rewrite length_map in Hsnd.
      destruct (filter (String.prefix p) unique_types) as [|ut uts] eqn:Hf;
        [simpl in Hsnd; congruence|].
      assert (Hin : In ut (filter (String.prefix p) unique_types))
        by (rewrite Hf; now left).
      apply filter_In in Hin. now exists ut.
Qed.

(** X28: for a dict whose lists hold strings, when the loops of
    [plot_spikes_hist] that give every spike type its label come to an end
    without raising, the types are labelled group by group, prefix by
    prefix, in the order of the types; no type was selected twice, be it by
    two prefixes or by one prefix that is listed twice; and every string of
    every list is a prefix of at least one type there is. *)
Theorem label_all_run (groups : dict (list string)) unique_types spike_labels :
  label_all (map (fun g => (fst g, map PyStr (snd g))) groups) unique_types []
  = inr spike_labels ->
  spike_labels
  = flat_map (fun g => group_labels unique_types (fst g) (snd g)) groups /\
  NoDup (map fst spike_labels) /\
  forall g prefix, In g groups -> In prefix (snd g) ->
    exists unique_type,
      In unique_type unique_types /\ String.prefix prefix unique_type = true.
Proof.
  assert (Hgen : forall acc,
    label_all (map (fun g => (fst g, map PyStr (snd g))) groups) unique_types acc
    = inr spike_labels ->
    spike_labels
    = (acc ++ flat_map (fun g => group_labels unique_types (fst g) (snd g))
                       groups)%list /\
    (NoDup (map fst acc) -> NoDup (map fst spike_labels)) /\
    forall g prefix, In g groups -> In prefix (snd g) ->
      exists unique_type,
        In unique_type unique_types /\ String.prefix prefix unique_type = true).
  { induction groups as [|[spike_label prefixes] rest IH]; intros acc;
      cbn [map label_all fst snd].
    - intros H. inversion H. cbn. rewrite app_nil_r.
      repeat split; auto. intros g p [].
    - destruct (label_group spike_label (map PyStr prefixes) unique_types acc)
        as [e|acc1] eqn:Hg; [discriminate|].
      cbn [sbind]. intros H.
      destruct (IH _ H) as (Hr & Hnodup & Hall).
      destruct (label_group_run _ _ _ _ _ Hg) as (Hacc1 & Hnodup1 & Hall1).
      cbn [flat_map fst snd]. split; [| split].
      + rewrite Hr, Hacc1, <- app_assoc. reflexivity.
      + auto.
      + intros g p [<-|Hg'] Hp; [now apply Hall1 | now apply (Hall g)]. }
  intros H. destruct (Hgen [] H) as (Hl & Hnodup & Hall).
  repeat split; trivial. apply Hnodup. constructor.
Qed.

Lemma label_all_run_witness :
  [("evdist1", "Evoked"); ("evprox1", "Evoked"); ("evprox2", "Evoked");
   ("L2_basket", "Cells"); ("L5_pyramidal", "Cells")]
  = flat_map (fun g => group_labels
                         ["L2_basket"; "L5_pyramidal"; "evdist1"; "evprox1";
                          "evprox2"] (fst g) (snd g))
             [("Evoked", ["evdist"; "evprox"]); ("Cells", ["L"])] /\
  NoDup (map fst [("evdist1", "Evoked"); ("evprox1", "Evoked");
                  ("evprox2", "Evoked"); ("L2_basket", "Cells");
                  ("L5_pyramidal", "Cells")]) /\
  forall g prefix,
    In g [("Evoked", ["evdist"; "evprox"]); ("Cells", ["L"])] ->
    In prefix (snd g) ->
    exists unique_type,
      In unique_type ["L2_basket"; "L5_pyramidal"; "evdist1"; "evprox1"; "evprox2"]
      /\ String.prefix prefix unique_type = true.
Proof.
  apply (label_all_run
           [("Evoked", ["evdist"; "evprox"]); ("Cells", ["L"])]
           ["L2_basket"; "L5_pyramidal"; "evdist1"; "evprox1"; "evprox2"]).
  vm_compute. reflexivity.
Defined.

(** ** plot_spikes_hist for one prefix *)

Lemma insert_unique_In s l x : In x (insert_unique s l) -> x = s \/ In x l.
Proof.
  induction l as [|y l IH]; cbn [insert_unique].
  - intros [<-|[]]. now left.
  - destruct (String.compare s y).
    + auto.
    + intros [<-|H]; auto.
    + intros [<-|H]; [right; now left|].
      destruct (IH H); [now left | right; now right].
Qed.

Lemma insert_unique_sorted s l :
  ForallOrdPairs OrderedTypeEx.String_as_OT.lt l ->
  ForallOrdPairs OrderedTypeEx.String_as_OT.lt (insert_unique s l).
Proof.
  induction 1 as [|y l Hy Hl IH]; cbn [insert_unique].
  - repeat constructor.
  - destruct (String.compare s y) eqn:E.
    + now constructor.
    + apply OrderedTypeEx.String_as_OT.cmp_lt in E.
      constructor; [| now constructor]. constructor; [exact E|].
      eapply Forall_impl; [| exact Hy]. intros z Hz.
      eapply OrderedTypeEx.String_as_OT.lt_trans; eassumption.
    + constructor; [| exact IH].
      apply Forall_forall. intros z Hz. apply insert_unique_In in Hz.
      destruct Hz as [->|Hz]; [| rewrite Forall_forall in Hy; now apply Hy].
      apply OrderedTypeEx.String_as_OT.cmp_lt.
      change OrderedTypeEx.String_as_OT.cmp with String.compare.
      rewrite String.compare_antisym, E. reflexivity.
Qed.

(** [np.unique] returns every value once. *)
Lemma np_unique_NoDup a : NoDup (np_unique a).
Proof.
  assert (Hs : ForallOrdPairs OrderedTypeEx.String_as_OT.lt (np_unique a)).
  { induction a as [|s a IH]; [constructor|]. now apply insert_unique_sorted. }
  induction Hs as [|y l Hy Hl IH]; constructor; [| exact IH].
  intros Hin. rewrite Forall_forall in Hy.
  apply (OrderedTypeEx.String_as_OT.lt_not_eq _ _ (Hy y Hin)). reflexivity.
Qed.

(** On types that are each there once and have no label yet, the loop for a
    prefix does not raise. *)
Lemma match_types_ok spike_label prefix unique_types spike_labels n_found :
  NoDup unique_types ->
  (forall unique_type, In unique_type unique_types ->
                       ~ In unique_type (map fst spike_labels)) ->
  match_types spike_label (PyStr prefix) unique_types spike_labels n_found
  = inr ((spike_labels ++ labelled unique_types spike_label prefix)%list,
         (n_found + length (labelled unique_types spike_label prefix))%nat).
Proof.
  unfold labelled. intros Hnd. revert spike_labels n_found.
  induction Hnd as [|ut uts Hut Hnd IH]; intros acc n Hfresh;
    cbn [match_types filter].
  - cbn [map length]. now rewrite app_nil_r, Nat.add_0_r.
  - destruct (String.prefix prefix ut).
    + assert (Hmem : dict_mem acc ut = false).
      { destruct (dict_mem acc ut) eqn:E; trivial.
        apply dict_mem_In in E. exfalso. apply (Hfresh ut); [now left | exact E]. }
      rewrite Hmem, (dict_set_new _ _ _ Hmem), IH.
      * cbn [map length]. rewrite <- app_assoc. do 2 f_equal. lia.
      * intros ut' Hin. rewrite map_app, in_app_iff. cbn [map fst In].
        intros [H|[H|[]]]; [apply (Hfresh ut'); [now right | exact H]|].
        subst. contradiction.
    + apply IH. intros ut' Hin. apply Hfresh. now right.
Qed.

(** The histograms of types that all have one label, once the label has its
    colour. *)
Lemma hist_calls_same_label unique_types spike_label color n_colors :
  hist_calls (map (fun unique_type => (unique_type, spike_label)) unique_types)
             [(spike_label, color)] n_colors
  = map (fun unique_type => (unique_type, "_nolegend_", color)) unique_types.
Proof.
  induction unique_types as [|ut uts IH]; [reflexivity|].
  cbn [map hist_calls dict_get]. rewrite String.eqb_refl. now rewrite IH.
Qed.

(** X29: with a string for [spike_types] and as many spike types as spike
    times, one at least, [plot_spikes_hist] draws one histogram for every
    type there is that starts with the string, in the order of [np.unique]:
    all in the first colour of the cycle, the first one with the string for
    its label in the legend and the others kept out of the legend; and it
    raises its [ValueError] when no type starts with the string. *)
Theorem plot_spikes_hist_str _spike_times _spike_types s :
  let spike_times := concat _spike_times in
  let spike_types_data := concat _spike_types in
  let times_of := fun unique_type =>
    getmask spike_times (map (String.eqb unique_type) spike_types_data) in
  length spike_types_data = length spike_times ->
  spike_times <> [] ->
  plot_spikes_hist _spike_times _spike_types (spike_types_str s)
  = match filter (String.prefix s) (np_unique spike_types_data) with
    | [] => inl (no_input_types_found (PyStr s))
    | first :: others =>
        inr (last spike_times nan,
             (times_of first, s, "r")
             :: map (fun unique_type => (times_of unique_type, "_nolegend_", "r"))
                    others)
    end.
Proof.
  intros spike_times spike_types_data times_of Hlen Hne.
  unfold plot_spikes_hist. fold spike_times spike_types_data.
  subst times_of. clearbody spike_times spike_types_data.
  cbn [as_groups check_groups sbind label_all label_group].
  rewrite match_types_ok; [| apply np_unique_NoDup | intros ut _ []].
  cbn [sbind fst snd app Nat.add]. unfold labelled. rewrite length_map.
  destruct (filter (String.prefix s) (np_unique spike_types_data))
    as [|first others]; [reflexivity|].
  cbn [length Nat.eqb sbind map].
  destruct spike_times as [|t ts]; [congruence|].
  rewrite Hlen, Nat.eqb_refl. cbn [orb hist_calls dict_get dict_set].
  change (nth (0 mod 6) color_cycle "r") with "r".
  rewrite hist_calls_same_label. cbn [map fst snd].
  rewrite (last_default (t :: ts) t nan) by discriminate.
  rewrite map_map. reflexivity.
Qed.

Lemma plot_spikes_hist_str_witness :
  plot_spikes_hist [[1; 2; 3]%float; [4; 5]%float]
                   [["evprox1"; "L2_basket"; "evdist1"]; ["evprox1"; "poisson"]]
                   (spike_types_str "ev")
  = inr (5%float,
         [([3%float], "ev", "r"); ([1; 4]%float, "_nolegend_", "r")]).
Proof.
  apply (plot_spikes_hist_str [[1; 2; 3]%float; [4; 5]%float]
           [["evprox1"; "L2_basket"; "evdist1"]; ["evprox1"; "poisson"]] "ev").
  - reflexivity.
  - discriminate.
Defined.

(** ** The default scaling *)

Lemma digits2_pos_shift_52 m :
  Z.pos (digits2_pos (4503599627370496 * m)) = Z.pos (digits2_pos m) + 52.
Proof. cbn [Pos.mul digits2_pos]. rewrite !Pos2Z.inj_succ. lia. Qed.

(** Multiplying a mantissa by [2^52] and taking 52 from the exponent, as the
    product with the float 1 does, rounds back to the same float. *)
Lemma binary_round_aux_one s m e :
  valid_binary (S754_finite s m e) = true ->
  binary_round_aux prec emax s (Z.pos (4503599627370496 * m)) (-52 + e) loc_Exact
  = S754_finite s m e.
Proof.
  cbn [valid_binary]. unfold bounded, canonical_mantissa.
  intros H. apply andb_prop in H. destruct H as (Hc & He).
  apply Z.eqb_eq in Hc.
  unfold binary_round_aux, shr_fexp. cbn [Zdigits2].
  rewrite digits2_pos_shift_52.
  replace (Z.pos (digits2_pos m) + 52 + (-52 + e)) with (Z.pos (digits2_pos m) + e)
    by lia.
  rewrite Hc. replace (e - (-52 + e)) with 52 by lia.
  cbn [Pos.mul shr shr_record_of_loc iter_pos shr_1 shr_m shr_r shr_s orb fst snd
       loc_of_shr_record round_nearest_even Zdigits2].
  replace (-52 + e + 52) with e by lia.
  rewrite Hc, Z.sub_diag. cbn [shr shr_m shr_record_of_loc].
  now rewrite He.
Qed.

(** The float 1 times a float is that float. *)
Lemma float_mul_1_l v : (1 * v)%float = v.
Proof.
  apply Prim2SF_inj. rewrite FloatAxioms.mul_spec.
  pose proof (Prim2SF_valid v) as Hv.
  change (Prim2SF 1) with (S754_finite false 4503599627370496 (-52)).
  destruct (Prim2SF v) as [s|s| |s m e]; try (now destruct s); try reflexivity.
  unfold SF64mul, SFmul. cbn [xorb].
  now apply binary_round_aux_one.
Qed.

Lemma map_mul_1_l l : map (fun v => 1 * v)%float l = l.
Proof.
  induction l as [|v l IH]; [reflexivity|]. cbn [map]. now rewrite float_mul_1_l, IH.
Qed.

(** X30: with the scaling 1, which is the default that the spectral plots
    use, the data that [_get_plot_data] returns are the samples of the layer
    at the times it returns, bit for bit: one boolean index selects both. *)
Theorem _get_plot_data_default_scaling dpl layer tmin tmax data times' x :
  _get_plot_data dpl layer tmin tmax 1 = Ok (data, times') ->
  data_get dpl layer = Ok x ->
  exists mask,
    length mask = length (times dpl) /\
    length mask = length x /\
    data = getmask x mask /\
    times' = getmask (times dpl) mask.
Proof.
  unfold _get_plot_data. intros Hrun Hx.
  destruct (times dpl) as [|t0 ts]; [discriminate|].
  rewrite Hx in Hrun. cbn [rbind] in Hrun.
  set (mask := map _ (t0 :: ts)) in Hrun.
  destruct (Nat.eqb_spec (length mask) (length x)) as [Hl|]; [| discriminate].
  rewrite map_mul_1_l in Hrun.
  exists mask. split; [apply length_map|]. split; [exact Hl|].
  split; congruence.
Qed.

Lemma _get_plot_data_default_scaling_witness :
  exists mask,
    length mask = length (times four_samples) /\
    length mask = length [5; 6; 7; 8]%float /\
    [6; 7]%float = getmask [5; 6; 7; 8]%float mask /\
    [1; 40]%float = getmask (times four_samples) mask.
Proof.
  apply (_get_plot_data_default_scaling four_samples "agg" (Some 0.5%float)
           (Some 900%float) [6; 7]%float [1; 40]%float [5; 6; 7; 8]%float).
  - vm_compute. reflexivity.
  - reflexivity.
Defined.
